(** * Elara / BioProof: consent ledger and verifiable credentials

    A shallow embedding of

    - the Solidity contract [BioProofConsent] (studies, consents, the
      pairing index, per-permission grants, read-time expiration), and
    - the JavaScript [CredentialHandler] (embedded-signature credentials:
      issuance, proof construction, verification),

    followed by the properties of the consent lifecycle and of credential
    verification that are established on these definitions. *)

From Stdlib Require Import NArith ZArith Ascii String.
From stdpp Require Import gmap strings list pretty.

(* ===================================================================== *)
(** * Part I: the contract [BioProofConsent]                              *)
(* ===================================================================== *)

Module BioProofConsent.

Local Open Scope N_scope.

(** ** Value types *)

(** [uint256] and [address] values are naturals; the only arithmetic the
    contract performs on them is the checked post-increment of the two
    counters, whose overflow check is written out in [post_increment]. *)
Abbreviation uint256 := N (only parsing).
Abbreviation address := N (only parsing).

Definition MAX_UINT256 : N := 2 ^ 256 - 1.

(** [enum ConsentStatus { None, Pending, Granted, Revoked, Expired }] *)
Module ConsentStatus.
Inductive t := None | Pending | Granted | Revoked | Expired.

(** [==] on the enum. *)
Definition eqb (a b : t) : bool :=
  match a, b with
  | None, None | Pending, Pending | Granted, Granted
  | Revoked, Revoked | Expired, Expired => true
  | _, _ => false
  end.
End ConsentStatus.

Record Study := mkStudy {
  owner : address;
  ipfsMetadataHash : string;
  title : string;
  description : string;
  creationDate : uint256;
  active : bool
}.

Record Consent := mkConsent {
  participant : address;
  studyId : uint256;
  ipfsConsentDocHash : string;
  ipfsCredentialHash : string;
  status : ConsentStatus.t;
  timestamp : uint256;
  expirationDate : uint256;
  specificPermissions : gmap string bool;
  permissionKeys : list string
}.

(** The value every unwritten storage slot reads as. *)
Definition Study_zero : Study := mkStudy 0 "" "" "" 0 false.
Definition Consent_zero : Consent :=
  mkConsent 0 0 "" "" ConsentStatus.None 0 0 ∅ [].

(** ** Contract storage *)

Record Storage := mkStorage {
  studyCounter : uint256;
  studies : gmap uint256 Study;
  participantStudies : gmap address (list uint256);
  studyParticipants : gmap uint256 (list address);
  consentIndex : gmap uint256 (gmap address uint256);
  consents : gmap uint256 Consent;
  consentCounter : uint256
}.

(** Storage right after deployment: every slot is zero. *)
Definition deployed : Storage := mkStorage 0 ∅ ∅ ∅ ∅ ∅ 0.

(** Reads of a Solidity [mapping]: an absent key reads as the zero value. *)
Definition studies_at (s : Storage) (i : uint256) : Study :=
  default Study_zero (studies s !! i).
Definition consents_at (s : Storage) (i : uint256) : Consent :=
  default Consent_zero (consents s !! i).
Definition consentIndex_at (s : Storage) (i : uint256) (a : address) : uint256 :=
  default 0 (default ∅ (consentIndex s !! i) !! a).
Definition participantStudies_at (s : Storage) (a : address) : list uint256 :=
  default [] (participantStudies s !! a).
Definition studyParticipants_at (s : Storage) (i : uint256) : list address :=
  default [] (studyParticipants s !! i).
Definition specificPermissions_at (c : Consent) (k : string) : bool :=
  default false (specificPermissions c !! k).

(** Writes. *)
Definition set_studyCounter (n : uint256) (s : Storage) : Storage :=
  mkStorage n (studies s) (participantStudies s) (studyParticipants s)
            (consentIndex s) (consents s) (consentCounter s).
Definition set_consentCounter (n : uint256) (s : Storage) : Storage :=
  mkStorage (studyCounter s) (studies s) (participantStudies s)
            (studyParticipants s) (consentIndex s) (consents s) n.
Definition set_study (i : uint256) (x : Study) (s : Storage) : Storage :=
  mkStorage (studyCounter s) (<[i := x]> (studies s)) (participantStudies s)
            (studyParticipants s) (consentIndex s) (consents s)
            (consentCounter s).
Definition set_consent (i : uint256) (c : Consent) (s : Storage) : Storage :=
  mkStorage (studyCounter s) (studies s) (participantStudies s)
            (studyParticipants s) (consentIndex s) (<[i := c]> (consents s))
            (consentCounter s).
Definition set_consentIndex (i : uint256) (a : address) (v : uint256)
    (s : Storage) : Storage :=
  mkStorage (studyCounter s) (studies s) (participantStudies s)
            (studyParticipants s)
            (<[i := <[a := v]> (default ∅ (consentIndex s !! i))]> (consentIndex s))
            (consents s) (consentCounter s).
Definition push_studyParticipants (i : uint256) (a : address)
    (s : Storage) : Storage :=
  mkStorage (studyCounter s) (studies s) (participantStudies s)
            (<[i := studyParticipants_at s i ++ [a]]> (studyParticipants s))
            (consentIndex s) (consents s) (consentCounter s).
Definition push_participantStudies (a : address) (i : uint256)
    (s : Storage) : Storage :=
  mkStorage (studyCounter s) (studies s)
            (<[a := participantStudies_at s a ++ [i]]> (participantStudies s))
            (studyParticipants s) (consentIndex s) (consents s)
            (consentCounter s).

(** ** Execution context, events, failures *)

Record Env := mkEnv {
  msg_sender : address;
  block_timestamp : uint256
}.

Inductive Event :=
| StudyCreated (studyId : uint256) (owner : address) (title : string)
| StudyUpdated (studyId : uint256) (ipfsMetadataHash : string)
| StudyStatusChanged (studyId : uint256) (active : bool)
| ConsentRequested (consentId : uint256) (participant : address) (studyId : uint256)
| ConsentGranted (consentId : uint256) (participant : address) (studyId : uint256)
| ConsentRevoked (consentId : uint256) (participant : address) (studyId : uint256)
| PermissionUpdated (consentId : uint256) (permissionKey : string) (granted : bool).

(** A call either reverts, with the reason string of the failed [require]
    or with a panic code (0x11: arithmetic overflow), or completes. *)
Inductive Revert :=
| Error (reason : string)
| Panic (code : N).

Definition result (A : Type) : Type := Revert + A.

Definition bind {A B} (m : result A) (k : A → result B) : result B :=
  match m with
  | inl e => inl e
  | inr a => k a
  end.

Notation "'do' x <- m 'in' k" := (bind m (fun x => k))
  (at level 10, x name, m at level 100, k at level 200).
Notation "'check' m 'in' k" := (bind m (fun _ : unit => k))
  (at level 10, m at level 100, k at level 200).

Definition require (b : bool) (reason : string) : result unit :=
  if b then inr tt else inl (Error reason).

(** [c++] on a [uint256] under Solidity 0.8 checked arithmetic: yields the
    old value and the incremented one, or panics at the maximum. *)
Definition post_increment (c : uint256) : result (uint256 * uint256) :=
  if MAX_UINT256 <=? c then inl (Panic 17) else inr (c, c + 1).

(** ** Modifiers *)

Definition onlyStudyOwner (e : Env) (s : Storage) (_studyId : uint256) : result unit :=
  require (owner (studies_at s _studyId) =? msg_sender e) "Not the study owner".

Definition onlyParticipant (e : Env) (s : Storage) (_consentId : uint256) : result unit :=
  require (participant (consents_at s _consentId) =? msg_sender e) "Not the consent owner".

Definition studyExists (s : Storage) (_studyId : uint256) : result unit :=
  require (_studyId <? studyCounter s) "Study does not exist".

Definition studyActive (s : Storage) (_studyId : uint256) : result unit :=
  require (active (studies_at s _studyId)) "Study is not active".

(** ** Functions *)

Section Functions.

(** [keccak256(bytes(s))], used by [updateSpecificPermission] to compare
    permission keys. Nothing below depends on which function it is. *)
Context (keccak256 : string → N).

(** A state-changing call yields its return value, the new storage and
    the events it emitted. *)
Definition createStudy (e : Env)
    (_ipfsMetadataHash _title _description : string) (s : Storage)
    : result (uint256 * Storage * list Event) :=
  do c <- post_increment (studyCounter s) in
  let studyId := c.1 in
  let s := set_studyCounter c.2 s in
  let newStudy :=
    mkStudy (msg_sender e) _ipfsMetadataHash _title _description
            (block_timestamp e) true in
  let s := set_study studyId newStudy s in
  inr (studyId, s, [StudyCreated studyId (msg_sender e) _title]).

Definition updateStudyMetadata (e : Env)
    (_studyId : uint256) (_ipfsMetadataHash : string) (s : Storage)
    : result (unit * Storage * list Event) :=
  check studyExists s _studyId in
  check onlyStudyOwner e s _studyId in
  let x := studies_at s _studyId in
  let x := mkStudy (owner x) _ipfsMetadataHash (title x) (description x)
                   (creationDate x) (active x) in
  inr (tt, set_study _studyId x s, [StudyUpdated _studyId _ipfsMetadataHash]).

Definition setStudyActive (e : Env)
    (_studyId : uint256) (_active : bool) (s : Storage)
    : result (unit * Storage * list Event) :=
  check studyExists s _studyId in
  check onlyStudyOwner e s _studyId in
  let x := studies_at s _studyId in
  let x := mkStudy (owner x) (ipfsMetadataHash x) (title x) (description x)
                   (creationDate x) _active in
  inr (tt, set_study _studyId x s, [StudyStatusChanged _studyId _active]).

Definition requestConsent (e : Env)
    (_studyId : uint256) (_participant : address)
    (_ipfsConsentDocHash : string) (_expirationDate : uint256) (s : Storage)
    : result (uint256 * Storage * list Event) :=
  check studyExists s _studyId in
  check studyActive s _studyId in
  check onlyStudyOwner e s _studyId in
  do c <- post_increment (consentCounter s) in
  let consentId := c.1 in
  let s := set_consentCounter c.2 s in
  let old := consents_at s consentId in
  let newConsent :=
    mkConsent _participant _studyId _ipfsConsentDocHash
              (ipfsCredentialHash old) ConsentStatus.Pending
              (block_timestamp e) _expirationDate
              (specificPermissions old) (permissionKeys old) in
  let s := set_consent consentId newConsent s in
  let s := set_consentIndex _studyId _participant consentId s in
  let s := push_studyParticipants _studyId _participant s in
  let s := push_participantStudies _participant _studyId s in
  inr (consentId, s, [ConsentRequested consentId _participant _studyId]).

Definition grantConsent (e : Env)
    (_consentId : uint256) (_ipfsCredentialHash : string) (s : Storage)
    : result (unit * Storage * list Event) :=
  check onlyParticipant e s _consentId in
  let consent := consents_at s _consentId in
  check require (ConsentStatus.eqb (status consent) ConsentStatus.Pending)
                "Consent must be in pending state" in
  check (if 0 <? expirationDate consent
         then require (block_timestamp e <? expirationDate consent)
                      "Consent request has expired"
         else inr tt) in
  let consent :=
    mkConsent (participant consent) (studyId consent)
              (ipfsConsentDocHash consent) _ipfsCredentialHash
              ConsentStatus.Granted (block_timestamp e)
              (expirationDate consent) (specificPermissions consent)
              (permissionKeys consent) in
  inr (tt, set_consent _consentId consent s,
       [ConsentGranted _consentId (participant consent) (studyId consent)]).

Definition revokeConsent (e : Env) (_consentId : uint256) (s : Storage)
    : result (unit * Storage * list Event) :=
  check onlyParticipant e s _consentId in
  let consent := consents_at s _consentId in
  check require (ConsentStatus.eqb (status consent) ConsentStatus.Granted)
                "Consent must be in granted state" in
  let consent :=
    mkConsent (participant consent) (studyId consent)
              (ipfsConsentDocHash consent) (ipfsCredentialHash consent)
              ConsentStatus.Revoked (block_timestamp e)
              (expirationDate consent) (specificPermissions consent)
              (permissionKeys consent) in
  inr (tt, set_consent _consentId consent s,
       [ConsentRevoked _consentId (participant consent) (studyId consent)]).

(** The search loop of [updateSpecificPermission]: scans the key list from
    the front and stops at the first key with the same hash. *)
Fixpoint permissionExists (keys : list string) (_permissionKey : string) : bool :=
  match keys with
  | [] => false
  | k :: rest =>
      if keccak256 k =? keccak256 _permissionKey then true
      else permissionExists rest _permissionKey
  end.

Definition updateSpecificPermission (e : Env)
    (_consentId : uint256) (_permissionKey : string) (_granted : bool)
    (s : Storage) : result (unit * Storage * list Event) :=
  check onlyParticipant e s _consentId in
  let consent := consents_at s _consentId in
  check require (ConsentStatus.eqb (status consent) ConsentStatus.Granted)
                "Consent must be in granted state" in
  let keys :=
    if permissionExists (permissionKeys consent) _permissionKey
    then permissionKeys consent
    else permissionKeys consent ++ [_permissionKey] in
  let consent :=
    mkConsent (participant consent) (studyId consent)
              (ipfsConsentDocHash consent) (ipfsCredentialHash consent)
              (status consent) (timestamp consent) (expirationDate consent)
              (<[_permissionKey := _granted]> (specificPermissions consent))
              keys in
  inr (tt, set_consent _consentId consent s,
       [PermissionUpdated _consentId _permissionKey _granted]).

(** [view] functions read the storage and return a value; they have no
    storage result at all. *)
Definition checkPermission (e : Env)
    (_consentId : uint256) (_permissionKey : string) (s : Storage)
    : result bool :=
  let consent := consents_at s _consentId in
  check require (ConsentStatus.eqb (status consent) ConsentStatus.Granted)
                "Consent not granted" in
  if (0 <? expirationDate consent)
     && (expirationDate consent <? block_timestamp e)
  then inr false
  else inr (specificPermissions_at consent _permissionKey).

Definition getConsentStatus (e : Env)
    (_studyId : uint256) (_participant : address) (s : Storage)
    : result ConsentStatus.t :=
  check studyExists s _studyId in
  let consentId := consentIndex_at s _studyId _participant in
  if consentId =? 0 then inr ConsentStatus.None
  else
    let consent := consents_at s consentId in
    if (0 <? expirationDate consent)
       && (expirationDate consent <? block_timestamp e)
       && ConsentStatus.eqb (status consent) ConsentStatus.Granted
    then inr ConsentStatus.Expired
    else inr (status consent).

Definition getParticipantStudies (_participant : address) (s : Storage)
    : result (list uint256) :=
  inr (participantStudies_at s _participant).

Definition getStudyParticipants (_studyId : uint256) (s : Storage)
    : result (list address) :=
  check studyExists s _studyId in
  inr (studyParticipants_at s _studyId).

(** ** Transactions *)

(** The state-changing entry points of the contract. *)
Inductive Call :=
| CreateStudy (_ipfsMetadataHash _title _description : string)
| UpdateStudyMetadata (_studyId : uint256) (_ipfsMetadataHash : string)
| SetStudyActive (_studyId : uint256) (_active : bool)
| RequestConsent (_studyId : uint256) (_participant : address)
    (_ipfsConsentDocHash : string) (_expirationDate : uint256)
| GrantConsent (_consentId : uint256) (_ipfsCredentialHash : string)
| RevokeConsent (_consentId : uint256)
| UpdateSpecificPermission (_consentId : uint256) (_permissionKey : string)
    (_granted : bool).

Definition storage_of {A} (r : A * Storage * list Event) : Storage := r.1.2.

(** Storage after a call, if it completes. *)
Definition execute (e : Env) (c : Call) (s : Storage) : result Storage :=
  match c with
  | CreateStudy h t d => do r <- createStudy e h t d s in inr (storage_of r)
  | UpdateStudyMetadata i h =>
      do r <- updateStudyMetadata e i h s in inr (storage_of r)
  | SetStudyActive i a => do r <- setStudyActive e i a s in inr (storage_of r)
  | RequestConsent i p h x =>
      do r <- requestConsent e i p h x s in inr (storage_of r)
  | GrantConsent i h => do r <- grantConsent e i h s in inr (storage_of r)
  | RevokeConsent i => do r <- revokeConsent e i s in inr (storage_of r)
  | UpdateSpecificPermission i k g =>
      do r <- updateSpecificPermission e i k g s in inr (storage_of r)
  end.

(** A transaction is atomic: a reverted call leaves the storage as it was. *)
Definition transact (e : Env) (c : Call) (s : Storage) : Storage :=
  match execute e c s with
  | inr s' => s'
  | inl _ => s
  end.

(** Storages the contract can be in: those reached from deployment by
    transactions. *)
Inductive reachable : Storage → Prop :=
| reachable_deployed : reachable deployed
| reachable_transact e c s : reachable s → reachable (transact e c s).

(** A history is a sequence of transactions, each with its sender and
    block time; [run] is the storage it leaves. *)
Fixpoint run (h : list (Env * Call)) (s : Storage) : Storage :=
  match h with
  | [] => s
  | (e, c) :: h => run h (transact e c s)
  end.

(** The id a transaction hands out: the value a completed [createStudy],
    respectively a completed [requestConsent], returns. *)
Definition study_id_of (e : Env) (c : Call) (s : Storage) : option uint256 :=
  match c with
  | CreateStudy h t d =>
      match createStudy e h t d s with
      | inr r => Some r.1.1
      | inl _ => None
      end
  | _ => None
  end.

Definition consent_id_of (e : Env) (c : Call) (s : Storage) : option uint256 :=
  match c with
  | RequestConsent i p d x =>
      match requestConsent e i p d x s with
      | inr r => Some r.1.1
      | inl _ => None
      end
  | _ => None
  end.

(** The ids handed out in the course of a history, in order. *)
Fixpoint study_ids (h : list (Env * Call)) (s : Storage) : list uint256 :=
  match h with
  | [] => []
  | (e, c) :: h => option_list (study_id_of e c s) ++ study_ids h (transact e c s)
  end.

Fixpoint consent_ids (h : list (Env * Call)) (s : Storage) : list uint256 :=
  match h with
  | [] => []
  | (e, c) :: h => option_list (consent_id_of e c s) ++ consent_ids h (transact e c s)
  end.

End Functions.

(** Storage after a completed [requestConsent], given the id it drew. *)
Definition requested (e : Env) (sid : uint256) (p : address) (d : string)
    (x : uint256) (s : Storage) : Storage :=
  let cid := consentCounter s in
  let s1 := set_consentCounter (cid + 1) s in
  let old := consents_at s1 cid in
  push_participantStudies p sid
    (push_studyParticipants sid p
       (set_consentIndex sid p cid
          (set_consent cid
             (mkConsent p sid d (ipfsCredentialHash old) ConsentStatus.Pending
                (block_timestamp e) x (specificPermissions old)
                (permissionKeys old)) s1))).

(** The moves of a stored status that the lifecycle allows: none, or one
    edge of [Pending → Granted → Revoked]. *)
Inductive status_step : ConsentStatus.t → ConsentStatus.t → Prop :=
| step_stay a : status_step a a
| step_grant : status_step ConsentStatus.Pending ConsentStatus.Granted
| step_revoke : status_step ConsentStatus.Granted ConsentStatus.Revoked.

(** What a completed call can have done to the table of consents. *)
Inductive consents_effect (s s' : Storage) : Prop :=
| effect_none :
    consents s' = consents s →
    consentCounter s' = consentCounter s →
    consents_effect s s'
| effect_new c :
    consents s' = <[consentCounter s := c]> (consents s) →
    status c = ConsentStatus.Pending →
    consentCounter s' = consentCounter s + 1 →
    consents_effect s s'
| effect_update i c :
    consents s' = <[i := c]> (consents s) →
    consentCounter s' = consentCounter s →
    status (consents_at s i) = ConsentStatus.Pending
      ∧ status c = ConsentStatus.Granted
    ∨ status (consents_at s i) = ConsentStatus.Granted
      ∧ (status c = ConsentStatus.Revoked ∨ status c = ConsentStatus.Granted) →
    consents_effect s s'.

(** Existing consents carry one of the three stored statuses, and no slot
    at or above the counter has been written. *)
Definition consents_wf (s : Storage) : Prop :=
  ∀ cid,
    (cid < consentCounter s →
       status (consents_at s cid) = ConsentStatus.Pending
       ∨ status (consents_at s cid) = ConsentStatus.Granted
       ∨ status (consents_at s cid) = ConsentStatus.Revoked)
    ∧ (consentCounter s ≤ cid → consents s !! cid = None).

(** Every nonzero entry of the pairing index is the id of an existing
    consent of that study and participant. *)
Definition index_wf (s : Storage) : Prop :=
  ∀ sid p,
    let cid := consentIndex_at s sid p in
    cid ≠ 0 →
    cid < consentCounter s
    ∧ participant (consents_at s cid) = p
    ∧ studyId (consents_at s cid) = sid.

(** The consent [c] with another value in its [timestamp] field, and the
    storage [s] with that change made to consent [cid]. *)
Definition with_timestamp (t : uint256) (c : Consent) : Consent :=
  mkConsent (participant c) (studyId c) (ipfsConsentDocHash c)
            (ipfsCredentialHash c) (status c) t (expirationDate c)
            (specificPermissions c) (permissionKeys c).
Definition stamped (cid t : uint256) (s : Storage) : Storage :=
  set_consent cid (with_timestamp t (consents_at s cid)) s.

(** Unfolds the body of a contract function down to its [require]s. *)
Ltac unfold_call :=
  unfold grantConsent, revokeConsent, updateSpecificPermission,
    requestConsent, createStudy, updateStudyMetadata, setStudyActive,
    checkPermission, getConsentStatus, getStudyParticipants,
    getParticipantStudies, onlyParticipant, onlyStudyOwner, studyExists,
    studyActive, storage_of in *.

(** ** The effect of a completed call

    For each entry point, the conditions under which it completes and the
    storage it leaves. *)

Section Effects.
Context (keccak256 : string → N).

Definition granted_consent (e : Env) (h : string) (c : Consent) : Consent :=
  mkConsent (participant c) (studyId c) (ipfsConsentDocHash c) h
            ConsentStatus.Granted (block_timestamp e) (expirationDate c)
            (specificPermissions c) (permissionKeys c).

Definition revoked_consent (e : Env) (c : Consent) : Consent :=
  mkConsent (participant c) (studyId c) (ipfsConsentDocHash c)
            (ipfsCredentialHash c) ConsentStatus.Revoked (block_timestamp e)
            (expirationDate c) (specificPermissions c) (permissionKeys c).

Definition permitted_consent (k : string) (g : bool) (c : Consent) : Consent :=
  mkConsent (participant c) (studyId c) (ipfsConsentDocHash c)
            (ipfsCredentialHash c) (status c) (timestamp c) (expirationDate c)
            (<[k := g]> (specificPermissions c))
            (if permissionExists keccak256 (permissionKeys c) k
             then permissionKeys c else permissionKeys c ++ [k]).

Definition with_metadata (h : string) (x : Study) : Study :=
  mkStudy (owner x) h (title x) (description x) (creationDate x) (active x).

Definition with_active (a : bool) (x : Study) : Study :=
  mkStudy (owner x) (ipfsMetadataHash x) (title x) (description x)
          (creationDate x) a.

Inductive call_effect (e : Env) (s : Storage) : Call → Storage → Prop :=
| did_createStudy h t d :
    studyCounter s < MAX_UINT256 →
    call_effect e s (CreateStudy h t d)
      (set_study (studyCounter s)
         (mkStudy (msg_sender e) h t d (block_timestamp e) true)
         (set_studyCounter (studyCounter s + 1) s))
| did_updateStudyMetadata i h :
    i < studyCounter s →
    owner (studies_at s i) = msg_sender e →
    call_effect e s (UpdateStudyMetadata i h)
      (set_study i (with_metadata h (studies_at s i)) s)
| did_setStudyActive i a :
    i < studyCounter s →
    owner (studies_at s i) = msg_sender e →
    call_effect e s (SetStudyActive i a)
      (set_study i (with_active a (studies_at s i)) s)
| did_requestConsent i p d x :
    i < studyCounter s →
    active (studies_at s i) = true →
    owner (studies_at s i) = msg_sender e →
    consentCounter s < MAX_UINT256 →
    call_effect e s (RequestConsent i p d x) (requested e i p d x s)
| did_grantConsent cid h :
    msg_sender e = participant (consents_at s cid) →
    status (consents_at s cid) = ConsentStatus.Pending →
    expirationDate (consents_at s cid) = 0
      ∨ block_timestamp e < expirationDate (consents_at s cid) →
    call_effect e s (GrantConsent cid h)
      (set_consent cid (granted_consent e h (consents_at s cid)) s)
| did_revokeConsent cid :
    msg_sender e = participant (consents_at s cid) →
    status (consents_at s cid) = ConsentStatus.Granted →
    call_effect e s (RevokeConsent cid)
      (set_consent cid (revoked_consent e (consents_at s cid)) s)
| did_updateSpecificPermission cid k g :
    msg_sender e = participant (consents_at s cid) →
    status (consents_at s cid) = ConsentStatus.Granted →
    call_effect e s (UpdateSpecificPermission cid k g)
      (set_consent cid (permitted_consent k g (consents_at s cid)) s).

End Effects.

(** ** Well-formedness of what is stored *)

(** The key list of a consent against its permissions map: no two listed
    keys have the same hash, every listed key has a stored value, and every
    key with a stored value has a listed key of the same hash. *)
Definition keys_wf (keccak256 : string → N) (c : Consent) : Prop :=
  NoDup (keccak256 <$> permissionKeys c)
  ∧ (∀ k, k ∈ permissionKeys c → is_Some (specificPermissions c !! k))
  ∧ (∀ k, is_Some (specificPermissions c !! k) →
          permissionExists keccak256 (permissionKeys c) k = true).

(** A consent that has not been granted carries no credential hash and no
    permissions. *)
Definition ungranted_is_bare (c : Consent) : Prop :=
  status c = ConsentStatus.None ∨ status c = ConsentStatus.Pending →
  ipfsCredentialHash c = "" ∧ specificPermissions c = ∅ ∧ permissionKeys c = [].

(** Some consent record below the counter is for this study and
    participant. *)
Definition has_consent (s : Storage) (sid : uint256) (p : address) : Prop :=
  ∃ cid, cid < consentCounter s
         ∧ participant (consents_at s cid) = p
         ∧ studyId (consents_at s cid) = sid.

(** [block.timestamp > expirationDate] with a deadline set. *)
Definition lapsed (e : Env) (c : Consent) : bool :=
  (0 <? expirationDate c) && (expirationDate c <? block_timestamp e).

(** ** A concrete history

    Principal [alice] owns a study, principal [bob] is the participant.
    The hash used for permission keys in this history is a stand-in. *)

Definition alice : address := 10.
Definition bob : address := 11.
Definition carol : address := 12.

Definition key_hash (k : string) : N := N.of_nat (String.length k).

Definition at_time (who : address) (now : uint256) : Env := mkEnv who now.

(** [alice] creates the first study at time 100. *)
Definition st_study : Storage :=
  transact key_hash (at_time alice 100) (CreateStudy "meta" "Gait" "desc") deployed.

(** [alice] requests [bob]'s consent at time 110, deadline 1000. *)
Definition st_requested : Storage :=
  transact key_hash (at_time alice 110) (RequestConsent 0 bob "doc" 1000) st_study.

(** [bob] grants at time 200. *)
Definition st_granted : Storage :=
  transact key_hash (at_time bob 200) (GrantConsent 0 "cred") st_requested.

(** [bob] allows sharing at time 210. *)
Definition st_permitted : Storage :=
  transact key_hash (at_time bob 210)
    (UpdateSpecificPermission 0 "share_biometrics" true) st_granted.

(** [bob] revokes at time 300. *)
Definition st_revoked : Storage :=
  transact key_hash (at_time bob 300) (RevokeConsent 0) st_permitted.

(** The same history with the request made at time 111 instead of 110. *)
Definition st_requested_later : Storage :=
  transact key_hash (at_time alice 111) (RequestConsent 0 bob "doc" 1000) st_study.
Definition st_granted_later : Storage :=
  transact key_hash (at_time bob 200) (GrantConsent 0 "cred") st_requested_later.

(** A second request for the same pair at time 120, then [bob] grants the
    second consent (id 1, deadline 1000) at time 200. *)
Definition st_requested_twice : Storage :=
  transact key_hash (at_time alice 120) (RequestConsent 0 bob "doc2" 1000) st_requested.
Definition st_second_granted : Storage :=
  transact key_hash (at_time bob 200) (GrantConsent 1 "cred2") st_requested_twice.

(** [bob] also records a permission under a key that the stand-in hash
    does not tell from "share_biometrics". *)
Definition st_permitted_twice : Storage :=
  transact key_hash (at_time bob 220)
    (UpdateSpecificPermission 0 "store_biometrics" true) st_permitted.

(** [alice] deactivates the study while [bob]'s request is pending. *)
Definition st_deactivated : Storage :=
  transact key_hash (at_time alice 150) (SetStudyActive 0 false) st_requested.

(** After [bob] has granted the first request and recorded a permission,
    [alice] requests his consent for the same study again at time 400. *)
Definition st_rerequested : Storage :=
  transact key_hash (at_time alice 400) (RequestConsent 0 bob "doc3" 0) st_permitted.

End BioProofConsent.

(* ===================================================================== *)
(** * Part II: the credential handler [CredentialHandler]                 *)
(* ===================================================================== *)

Module CredentialHandler.

(** ** JavaScript values *)

(** The values a credential is made of. Numbers are the integer-valued
    ones (ids); the handler does no arithmetic on them. An object is the
    list of its own properties in property order; an array the list of its
    elements. *)
Unset Elimination Schemes.
Inductive JSValue :=
| JSUndefined
| JSNull
| JSBool (b : bool)
| JSNumber (n : Z)
| JSString (s : string)
| JSArray (elements : list JSValue)
| JSObject (properties : list (string * JSValue)).
Set Elimination Schemes.

Inductive Exn :=
| TypeError
| Error (message : string).

(** A call returns or throws. *)
Inductive completion (A : Type) :=
| Return (a : A)
| Throw (e : Exn).
Arguments Return {A} a.
Arguments Throw {A} e.

Definition bind {A B} (m : completion A) (k : A → completion B) : completion B :=
  match m with
  | Return a => k a
  | Throw e => Throw e
  end.

Notation "'let*' x := m 'in' k" := (bind m (fun x => k))
  (at level 10, x name, m at level 100, k at level 200).

(** [try { body } catch (error) { console.error(...); return false; }] *)
Definition try_catch_false (body : completion bool) : completion bool :=
  match body with
  | Return b => Return b
  | Throw _ => Return false
  end.

(** ToBoolean. *)
Definition truthy (v : JSValue) : bool :=
  match v with
  | JSUndefined | JSNull => false
  | JSBool b => b
  | JSNumber n => negb (n =? 0)%Z
  | JSString s => negb (String.eqb s "")
  | JSArray _ | JSObject _ => true
  end.

(** ** Objects *)

Definition digit (c : ascii) : option N :=
  let n := N_of_ascii c in
  if ((48 <=? n) && (n <=? 57))%N then Some (n - 48)%N else None.

Fixpoint digits_value (s : string) (acc : N) : option N :=
  match s with
  | EmptyString => Some acc
  | String c rest =>
      match digit c with
      | Some d => digits_value rest (10 * acc + d)%N
      | None => None
      end
  end.

(** The array index a property key denotes, if it is the canonical decimal
    form of an integer below [2^32 - 1]; such keys come first in property
    order, ascending, and the other keys follow in order of creation. *)
Definition array_index (k : string) : option N :=
  match k with
  | EmptyString => None
  | String c rest =>
      if Ascii.eqb c "0" && negb (String.eqb rest "") then None
      else
        match digits_value k 0 with
        | Some n => if (n <? 2 ^ 32 - 1)%N then Some n else None
        | None => None
        end
  end.

Fixpoint obj_lookup (ps : list (string * JSValue)) (k : string) : option JSValue :=
  match ps with
  | [] => None
  | (k', v) :: rest => if String.eqb k' k then Some v else obj_lookup rest k
  end.

(** Creation of a property that the object does not have yet. *)
Fixpoint obj_create (ps : list (string * JSValue)) (k : string) (v : JSValue)
    : list (string * JSValue) :=
  match ps with
  | [] => [(k, v)]
  | (k', v') :: rest =>
      match array_index k, array_index k' with
      | Some i, Some i' =>
          if (i <? i')%N then (k, v) :: ps else (k', v') :: obj_create rest k v
      | Some _, None => (k, v) :: ps
      | None, _ => (k', v') :: obj_create rest k v
      end
  end.

Fixpoint obj_update (ps : list (string * JSValue)) (k : string) (v : JSValue)
    : list (string * JSValue) :=
  match ps with
  | [] => []
  | (k', v') :: rest =>
      if String.eqb k' k then (k', v) :: rest else (k', v') :: obj_update rest k v
  end.

(** [o[k] = v] on the properties of [o]. *)
Definition obj_set (ps : list (string * JSValue)) (k : string) (v : JSValue)
    : list (string * JSValue) :=
  match obj_lookup ps k with
  | Some _ => obj_update ps k v
  | None => obj_create ps k v
  end.

(** [delete o[k]] *)
Fixpoint obj_delete (ps : list (string * JSValue)) (k : string)
    : list (string * JSValue) :=
  match ps with
  | [] => []
  | (k', v') :: rest =>
      if String.eqb k' k then obj_delete rest k else (k', v') :: obj_delete rest k
  end.

(** An object literal [{ k1: v1, ..., kn: vn }]: the properties are defined
    from left to right. *)
Definition obj_literal (entries : list (string * JSValue)) : list (string * JSValue) :=
  fold_left (fun ps kv => obj_set ps kv.1 kv.2) entries [].

Fixpoint indexed (i : N) (vs : list JSValue) : list (string * JSValue) :=
  match vs with
  | [] => []
  | v :: rest => (pretty i, v) :: indexed (i + 1) rest
  end.

Fixpoint characters (s : string) : list JSValue :=
  match s with
  | EmptyString => []
  | String c rest => JSString (String c EmptyString) :: characters rest
  end.

(** The own enumerable properties that [{ ...v }] copies. *)
Definition own_properties (v : JSValue) : list (string * JSValue) :=
  match v with
  | JSObject ps => ps
  | JSArray vs => indexed 0 vs
  | JSString s => indexed 0 (characters s)
  | JSUndefined | JSNull | JSBool _ | JSNumber _ => []
  end.

(** [{ ...ps, ...v }] *)
Definition spread_into (ps : list (string * JSValue)) (v : JSValue)
    : list (string * JSValue) :=
  fold_left (fun ps kv => obj_set ps kv.1 kv.2) (own_properties v) ps.

(** [v.k], for the property names the handler reads ([proof], [type],
    [jws], [jwt], [issuer], [iss], [expirationDate]): none of them is
    inherited from a prototype, so only an object's own property can
    answer; reading from [undefined] or [null] throws. *)
Definition get (v : JSValue) (k : string) : completion JSValue :=
  match v with
  | JSUndefined | JSNull => Throw TypeError
  | JSObject ps => Return (default JSUndefined (obj_lookup ps k))
  | JSBool _ | JSNumber _ | JSString _ | JSArray _ => Return JSUndefined
  end.

(** [v === 'literal'] *)
Definition is_string (v : JSValue) (literal : string) : bool :=
  match v with
  | JSString s => String.eqb s literal
  | _ => false
  end.

(** [a === b] where [a] was just produced by a library call, so that an
    object or array [a] is never the same object as [b]. *)
Definition strict_equals_fresh (a b : JSValue) : bool :=
  match a, b with
  | JSUndefined, JSUndefined | JSNull, JSNull => true
  | JSBool x, JSBool y => Bool.eqb x y
  | JSNumber x, JSNumber y => (x =? y)%Z
  | JSString x, JSString y => String.eqb x y
  | _, _ => false
  end.

(** ** Strings *)

Definition lower_ascii (c : ascii) : ascii :=
  let n := N_of_ascii c in
  if ((65 <=? n) && (n <=? 90))%N then ascii_of_N (n + 32) else c.

(** [s.toLowerCase()] on the ASCII letters; the strings it is applied to
    are hexadecimal addresses. *)
Fixpoint toLowerCase (s : string) : string :=
  match s with
  | EmptyString => EmptyString
  | String c rest => String (lower_ascii c) (toLowerCase rest)
  end.

(** [s.startsWith(p)] *)
Definition startsWith (s p : string) : bool := String.prefix p s.

(** [s.split(':')], as the first segment and the remaining ones. *)
Fixpoint split_colon (s : string) : string * list string :=
  match s with
  | EmptyString => (EmptyString, [])
  | String c rest =>
      let r := split_colon rest in
      if Ascii.eqb c ":" then (EmptyString, r.1 :: r.2)
      else (String c r.1, r.2)
  end.

Definition split (s : string) : list string :=
  let r := split_colon s in r.1 :: r.2.

(** Two strings of one length that differ at exactly one position. *)
Fixpoint one_byte_altered (s s' : string) : bool :=
  match s, s' with
  | String c rest, String c' rest' =>
      if Ascii.eqb c c' then one_byte_altered rest rest'
      else String.eqb rest rest'
  | _, _ => false
  end.

(** ** The libraries and the environment *)

(** What the handler calls in [ethers], [JSON] and [jsonwebtoken]. Byte
    arrays and hex strings are strings here. [verifyMessage] throws on a
    signature it cannot parse; [getAddress] throws on a string that is not
    an address; [jwt_verify] throws on a token it rejects. *)
Record Runtime := mkRuntime {
  Wallet : Type;
  new_Wallet : string → completion Wallet;
  address : Wallet → string;
  signMessage : Wallet → string → string;
  getAddress : string → completion string;
  toUtf8Bytes : string → string;
  keccak256 : string → string;
  arrayify : string → string;
  verifyMessage : string → JSValue → completion string;
  JSON_stringify : JSValue → string;
  Number_toString : Z → string;
  jwt_verify : JSValue → JSValue → completion JSValue
}.

(** [process.env] *)
Record ProcessEnv := mkProcessEnv {
  ISSUER_PRIVATE_KEY : option string;
  ISSUER_DID : option string;
  JWT_SECRET : option string
}.

Definition env_value (o : option string) : JSValue :=
  match o with
  | Some s => JSString s
  | None => JSUndefined
  end.

(** What a call draws from the clock and the random source: the UUID of
    the credential, the time of issuance and the time of the proof. *)
Record Fresh := mkFresh {
  uuid : string;
  timestamp : string;
  created : string
}.

Section Handler.
Context (rt : Runtime).

(** The fields of the handler object; [None] is [null]. *)
Record Handler := mkHandler {
  wallet : option (Wallet rt);
  issuerDid : option string
}.

Definition init (env : ProcessEnv) : Handler :=
  match ISSUER_PRIVATE_KEY env with
  | Some key =>
      if truthy (JSString key) then
        match new_Wallet rt key with
        | Return w =>
            let did :=
              if truthy (env_value (ISSUER_DID env))
              then default "" (ISSUER_DID env)
              else "did:ethr:" +:+ address rt w in
            mkHandler (Some w) (Some did)
        | Throw _ => mkHandler None None
        end
      else mkHandler None None
  | None => mkHandler None None
  end.

Definition issuer_value (this : Handler) : JSValue :=
  match issuerDid this with
  | Some d => JSString d
  | None => JSNull
  end.

(** The credential without its [proof], and the hash that is signed. *)
Definition without_proof (credential : JSValue) : JSValue :=
  JSObject (obj_delete (own_properties credential) "proof").

Definition messageHash (credentialCopy : JSValue) : string :=
  keccak256 rt (toUtf8Bytes rt (JSON_stringify rt credentialCopy)).

Definition _createProof (this : Handler) (f : Fresh) (credential : JSValue)
    : completion JSValue :=
  let credentialCopy := without_proof credential in
  let messageHash := messageHash credentialCopy in
  match wallet this with
  | None => Throw TypeError
  | Some w =>
      let signature := signMessage rt w (arrayify rt messageHash) in
      Return (JSObject (obj_literal [
        ("type", JSString "EcdsaSecp256k1Signature2019");
        ("created", JSString (created f));
        ("proofPurpose", JSString "assertionMethod");
        ("verificationMethod",
           JSString (default "null" (issuerDid this) +:+ "#keys-1"));
        ("jws", JSString signature)]))
  end.

Definition createConsentCredential (this : Handler) (f : Fresh)
    (participantAddress : string) (consentId studyId : Z)
    (additionalData : JSValue) : completion JSValue :=
  let additionalData :=
    match additionalData with
    | JSUndefined => JSObject []
    | _ => additionalData
    end in
  match wallet this with
  | None => Throw (Error "Credential issuer not initialized")
  | Some _ =>
      let* normalizedParticipantAddress := getAddress rt participantAddress in
      let credentialId := "urn:uuid:" +:+ uuid f in
      let timestamp := timestamp f in
      let* expirationDate := get additionalData "expirationDate" in
      let credential := obj_literal [
        ("@context", JSArray [
           JSString "https://www.w3.org/2018/credentials/v1";
           JSString "https://schema.org";
           JSString "https://bioproof.io/credentials/v1"]);
        ("id", JSString credentialId);
        ("type", JSArray [JSString "VerifiableCredential";
                          JSString "BiometricConsentCredential"]);
        ("issuer", issuer_value this);
        ("issuanceDate", JSString timestamp);
        ("expirationDate",
           if truthy expirationDate then expirationDate else JSUndefined);
        ("credentialSubject",
           JSObject (spread_into
             (obj_literal [
                ("id", JSString ("did:ethr:" +:+ normalizedParticipantAddress));
                ("type", JSString "BiometricConsent");
                ("consentId", JSString (Number_toString rt consentId));
                ("studyId", JSString (Number_toString rt studyId));
                ("grantedAt", JSString timestamp)])
             additionalData))] in
      let* proof := _createProof this f (JSObject credential) in
      Return (JSObject (obj_set credential "proof" proof))
  end.

Definition _verifyEthereumSignature (credential : JSValue) : completion bool :=
  try_catch_false (
    let credentialCopy := own_properties credential in
    let proof :=
      own_properties (default JSUndefined (obj_lookup credentialCopy "proof")) in
    let credentialCopy := JSObject (obj_delete credentialCopy "proof") in
    let messageHash := messageHash credentialCopy in
    let* recoveredAddress :=
      verifyMessage rt (arrayify rt messageHash)
        (default JSUndefined (obj_lookup proof "jws")) in
    let* issuerDid := get credential "issuer" in
    match issuerDid with
    | JSString issuerDid =>
        if startsWith issuerDid "did:ethr:" then
          match split issuerDid !! 2%nat with
          | Some issuerAddress =>
              Return (String.eqb (toLowerCase recoveredAddress)
                                 (toLowerCase issuerAddress))
          | None => Throw TypeError
          end
        else Return false
    | _ => Throw TypeError
    end).

Definition _verifyJwtProof (env : ProcessEnv) (credential : JSValue)
    : completion bool :=
  try_catch_false (
    let* proof := get credential "proof" in
    let* jwtToken := get proof "jwt" in
    let* decoded := jwt_verify rt jwtToken (env_value (JWT_SECRET env)) in
    let* iss := get decoded "iss" in
    let* issuer := get credential "issuer" in
    Return (strict_equals_fresh iss issuer)).

Definition verifyCredential (env : ProcessEnv) (credential : JSValue)
    : completion bool :=
  try_catch_false (
    let* proof := get credential "proof" in
    if negb (truthy proof) then Return false
    else
      let* type := get proof "type" in
      if is_string type "JwtProof2020" then _verifyJwtProof env credential
      else if is_string type "EcdsaSecp256k1Signature2019"
      then _verifyEthereumSignature credential
      else Return false).

(** The issuer identity [did] names the wallet [w] the way
    [_verifyEthereumSignature] reads it: a [did:ethr:] identity whose
    third colon-separated segment is the wallet's address, up to case. *)
Definition names_wallet (did : string) (w : Wallet rt) : Prop :=
  startsWith did "did:ethr:" = true
  ∧ ∃ issuerAddress, split did !! 2%nat = Some issuerAddress
      ∧ toLowerCase issuerAddress = toLowerCase (address rt w).

End Handler.

(** ** A stand-in runtime

    One wallet, whose signature on a message is the message behind a tag;
    hashing and byte conversion are the identity; serialization prints
    compact JSON without escapes. It serves to run the handler on concrete
    credentials. *)

Definition demo_address : string := "0xAbCdEf0123456789aBcDeF0123456789AbCdEf01".

Definition demo_getAddress (a : string) : completion string :=
  if (String.length a =? 42)%nat && String.prefix "0x" a then Return a
  else Throw (Error "invalid address").

Definition demo_verifyMessage (m : string) (sig : JSValue) : completion string :=
  match sig with
  | JSString s =>
      if String.eqb s ("sig:" +:+ m) then Return demo_address
      else Throw (Error "invalid signature")
  | _ => Throw (Error "invalid signature")
  end.

Definition quote : string := String (ascii_of_N 34) EmptyString.

Fixpoint join (sep : string) (parts : list string) : string :=
  match parts with
  | [] => ""
  | [x] => x
  | x :: rest => x +:+ sep +:+ join sep rest
  end.

Fixpoint demo_stringify (v : JSValue) : string :=
  match v with
  | JSUndefined | JSNull => "null"
  | JSBool true => "true"
  | JSBool false => "false"
  | JSNumber n => pretty n
  | JSString s => quote +:+ s +:+ quote
  | JSArray vs => "[" +:+ join "," (map demo_stringify vs) +:+ "]"
  | JSObject ps =>
      "{" +:+ join ","
        ((fix members (ps : list (string * JSValue)) : list string :=
            match ps with
            | [] => []
            | (_, JSUndefined) :: rest => members rest
            | (k, x) :: rest =>
                (quote +:+ k +:+ quote +:+ ":" +:+ demo_stringify x) :: members rest
            end) ps)
      +:+ "}"
  end.

Definition demo_runtime : Runtime :=
  mkRuntime unit
    (fun _ => Return tt)
    (fun _ => demo_address)
    (fun _ m => "sig:" +:+ m)
    demo_getAddress
    (fun s => s) (fun s => s) (fun s => s)
    demo_verifyMessage
    demo_stringify
    pretty
    (fun _ _ => Throw (Error "jwt malformed")).

Definition demo_env : ProcessEnv := mkProcessEnv (Some "issuer-key") None None.

(** The same key with the issuer identity configured in upper case. *)
Definition demo_env_upper : ProcessEnv :=
  mkProcessEnv (Some "issuer-key")
    (Some "did:ethr:0xABCDEF0123456789ABCDEF0123456789ABCDEF01") None.

Definition demo_handler : Handler demo_runtime := init demo_runtime demo_env.

Definition demo_fresh : Fresh :=
  mkFresh "3f2b0c1e-0000-4000-8000-000000000001"
          "2024-01-01T00:00:00.000Z" "2024-01-01T00:00:01.000Z".

Definition demo_participant : string := "0x1111111111111111111111111111111111111111".

(** A credential for consent 1 of study 0 with one extension claim. *)
Definition demo_credential : JSValue :=
  match createConsentCredential demo_runtime demo_handler demo_fresh
          demo_participant 1 0 (JSObject [("purpose", JSString "gait")]) with
  | Return c => c
  | Throw _ => JSUndefined
  end.

(** The same key with the identity of another address configured. *)
Definition demo_env_other : ProcessEnv :=
  mkProcessEnv (Some "issuer-key")
    (Some "did:ethr:0x2222222222222222222222222222222222222222") None.

Definition demo_credential_other : JSValue :=
  match createConsentCredential demo_runtime (init demo_runtime demo_env_other)
          demo_fresh demo_participant 1 0 (JSObject []) with
  | Return c => c
  | Throw _ => JSUndefined
  end.

Definition demo_credential_upper : JSValue :=
  match createConsentCredential demo_runtime (init demo_runtime demo_env_upper)
          demo_fresh demo_participant 1 0 (JSObject []) with
  | Return c => c
  | Throw _ => JSUndefined
  end.

(** [demo_credential] with another value for the property [k]. *)
Definition demo_with (k : string) (v : JSValue) : JSValue :=
  JSObject (obj_set (own_properties demo_credential) k v).

(** The claims of [demo_credential] with [consentId] 2 instead of 1. *)
Definition demo_altered_subject : JSValue :=
  JSObject (obj_set
    (own_properties
       (default JSUndefined
          (obj_lookup (own_properties demo_credential) "credentialSubject")))
    "consentId" (JSString "2")).

(** ** Token credentials *)

Section Tokens.
Context (rt : Runtime).

(** [verifyJwtCredential(token)]: the decoded payload, or [null]. *)
Definition verifyJwtCredential (env : ProcessEnv) (token : JSValue)
    : completion JSValue :=
  match
    (let* decoded := jwt_verify rt token (env_value (JWT_SECRET env)) in
     let* vc := get decoded "vc" in
     if negb (truthy vc) then Return JSNull else Return decoded)
  with
  | Return v => Return v
  | Throw _ => Return JSNull
  end.

(** The claims [createConsentCredential] writes itself, before the
    extension claims are spread over them. *)
Definition builtin_claims (normalizedParticipantAddress : string)
    (consentId studyId : Z) (timestamp : string) : list (string * JSValue) :=
  obj_literal [
    ("id", JSString ("did:ethr:" +:+ normalizedParticipantAddress));
    ("type", JSString "BiometricConsent");
    ("consentId", JSString (Number_toString rt consentId));
    ("studyId", JSString (Number_toString rt studyId));
    ("grantedAt", JSString timestamp)].

End Tokens.

(** A credential like [demo_credential] whose extension claims name
    [consentId] themselves. *)
Definition demo_credential_overridden : JSValue :=
  match createConsentCredential demo_runtime demo_handler demo_fresh
          demo_participant 1 0
          (JSObject [("consentId", JSString "99"); ("purpose", JSString "gait")]) with
  | Return c => c
  | Throw _ => JSUndefined
  end.

(** The stand-in runtime with a token library that knows the secret
    "s3cret" and two tokens: "good", whose payload names an issuer and
    holds a credential, and "bare", whose payload is empty. *)
Definition demo_jwt_verify (token secret : JSValue) : completion JSValue :=
  if is_string secret "s3cret" then
    if is_string token "good" then
      Return (JSObject [("iss", JSString "did:ethr:issuer");
                        ("vc", JSObject [("type", JSString "BiometricConsent")])])
    else if is_string token "bare" then Return (JSObject [])
    else Throw (Error "invalid token")
  else Throw (Error "invalid signature").

Definition token_runtime : Runtime :=
  mkRuntime unit
    (fun _ => Return tt)
    (fun _ => demo_address)
    (fun _ m => "sig:" +:+ m)
    demo_getAddress
    (fun s => s) (fun s => s) (fun s => s)
    demo_verifyMessage
    demo_stringify
    pretty
    demo_jwt_verify.

Definition token_env : ProcessEnv :=
  mkProcessEnv (Some "issuer-key") None (Some "s3cret").

(** A credential with a token proof, and the same with other claims. *)
Definition demo_token_credential (claims : JSValue) : JSValue :=
  JSObject [("issuer", JSString "did:ethr:issuer");
            ("credentialSubject", claims);
            ("proof", JSObject [("type", JSString "JwtProof2020");
                                ("jwt", JSString "good")])].

(** The same key with a network-qualified identity, and with an identity
    of another method. *)
Definition demo_env_network : ProcessEnv :=
  mkProcessEnv (Some "issuer-key")
    (Some "did:ethr:mainnet:0xAbCdEf0123456789aBcDeF0123456789AbCdEf01") None.

Definition demo_env_web : ProcessEnv :=
  mkProcessEnv (Some "issuer-key") (Some "did:web:bioproof.io") None.

Definition demo_issue (env : ProcessEnv) : JSValue :=
  match createConsentCredential demo_runtime (init demo_runtime env)
          demo_fresh demo_participant 1 0 (JSObject []) with
  | Return c => c
  | Throw _ => JSUndefined
  end.

(** The same key with an identity that carries the key's own address in
    the place of the network and another address in the place of the
    address. *)
Definition demo_other_address : string := "0x2222222222222222222222222222222222222222".

Definition demo_env_misplaced : ProcessEnv :=
  mkProcessEnv (Some "issuer-key")
    (Some ("did:ethr:" +:+ demo_address +:+ ":" +:+ demo_other_address)) None.

(** [demo_credential] with another [verificationMethod] in its proof. *)
Definition demo_other_method : JSValue :=
  demo_with "proof"
    (JSObject (obj_set
       (own_properties
          (default JSUndefined (obj_lookup (own_properties demo_credential) "proof")))
       "verificationMethod" (JSString "did:web:elsewhere#keys-9"))).

End CredentialHandler.

(* ===================================================================== *)
(** * Part III: properties of the contract                               *)
(* ===================================================================== *)

Module Ledger.

Import BioProofConsent.
Local Open Scope N_scope.

Lemma status_eqb_eq a b : ConsentStatus.eqb a b = true ↔ a = b.
Proof. destruct a, b; simpl; split; intros H; try reflexivity; discriminate H. Qed.

Lemma status_eqb_neq a b : ConsentStatus.eqb a b = false ↔ a ≠ b.
Proof. destruct a, b; simpl; split; intros H; try congruence; try discriminate H. Qed.

(** ** Reading back what was written *)

Lemma consents_at_set_consent s i c j :
  consents_at (set_consent i c s) j = if decide (i = j) then c else consents_at s j.
Proof.
  unfold consents_at, set_consent; simpl.
  rewrite lookup_insert. destruct (decide (i = j)); reflexivity.
Qed.

Lemma consents_at_set_consent_eq s i c :
  consents_at (set_consent i c s) i = c.
Proof. rewrite consents_at_set_consent. destruct (decide (i = i)); congruence. Qed.

Lemma consents_at_set_consent_ne s i c j :
  i ≠ j → consents_at (set_consent i c s) j = consents_at s j.
Proof. intros H. rewrite consents_at_set_consent. destruct (decide (i = j)); congruence. Qed.

Lemma post_increment_inr c r :
  post_increment c = inr r → r = (c, c + 1) ∧ c < MAX_UINT256.
Proof.
  unfold post_increment. destruct (MAX_UINT256 <=? c) eqn:E; [discriminate |].
  intros [= <-]. apply N.leb_gt in E. split; [reflexivity | exact E].
Qed.

(** ** [grantConsent] *)

Section Grant.
Context (keccak256 : string → N).

(** What a completed [grantConsent] did, and what it had checked. *)
Lemma grantConsent_inr e cid h s r :
  grantConsent e cid h s = inr r →
  let c := consents_at s cid in
  msg_sender e = participant c
  ∧ status c = ConsentStatus.Pending
  ∧ (expirationDate c = 0 ∨ block_timestamp e < expirationDate c)
  ∧ r = (tt,
         set_consent cid
           (mkConsent (participant c) (studyId c) (ipfsConsentDocHash c) h
              ConsentStatus.Granted (block_timestamp e) (expirationDate c)
              (specificPermissions c) (permissionKeys c)) s,
         [ConsentGranted cid (participant c) (studyId c)]).
Proof.
  unfold_call. cbv zeta.
  destruct (participant (consents_at s cid) =? msg_sender e) eqn:Hp; [| discriminate].
  destruct (ConsentStatus.eqb (status (consents_at s cid)) ConsentStatus.Pending) eqn:Hs;
    [| discriminate].
  apply N.eqb_eq in Hp. apply status_eqb_eq in Hs. simpl.
  destruct (0 <? expirationDate (consents_at s cid)) eqn:Hx.
  - destruct (block_timestamp e <? expirationDate (consents_at s cid)) eqn:Ht;
      [| discriminate].
    apply N.ltb_lt in Ht. simpl. intros [= <-]. auto.
  - apply N.ltb_ge in Hx. simpl. intros [= <-].
    repeat split; auto. left. lia.
Qed.

Lemma grantConsent_ok e cid h s :
  let c := consents_at s cid in
  msg_sender e = participant c →
  status c = ConsentStatus.Pending →
  expirationDate c = 0 ∨ block_timestamp e < expirationDate c →
  ∃ r, grantConsent e cid h s = inr r.
Proof.
  cbv zeta. intros Hp Hs Hx. unfold_call.
  rewrite <- Hp, N.eqb_refl, Hs. simpl.
  destruct Hx as [-> | Hx]; simpl; [eauto |].
  destruct (0 <? expirationDate (consents_at s cid)); [| simpl; eauto].
  apply N.ltb_lt in Hx. rewrite Hx. simpl. eauto.
Qed.

Lemma grantConsent_expired e cid h s :
  let c := consents_at s cid in
  msg_sender e = participant c →
  status c = ConsentStatus.Pending →
  expirationDate c ≠ 0 →
  expirationDate c ≤ block_timestamp e →
  grantConsent e cid h s = inl (Error "Consent request has expired").
Proof.
  cbv zeta. intros Hp Hs Hz Hx. unfold_call.
  rewrite <- Hp, N.eqb_refl, Hs. simpl.
  assert ((0 <? expirationDate (consents_at s cid)) = true) as -> by (apply N.ltb_lt; lia).
  assert ((block_timestamp e <? expirationDate (consents_at s cid)) = false) as ->
    by (apply N.ltb_ge; lia).
  reflexivity.
Qed.

(** C2. [grantConsent] completes exactly when the caller is the consent's
    participant, the stored status is [Pending], and the deadline is 0 or
    still ahead of the block time. A pending request whose deadline has
    been reached fails, for its participant, with "Consent request has
    expired"; the transaction leaves the storage as it was, so the
    status is still [Pending]. When the call completes, the consent's
    status is [Granted], its credential hash is the one passed in, and its
    timestamp is the block time. *)
Theorem grantConsent_guard_and_effect e cid h s :
  let c := consents_at s cid in
  ((∃ r, grantConsent e cid h s = inr r) ↔
     msg_sender e = participant c
     ∧ status c = ConsentStatus.Pending
     ∧ (expirationDate c = 0 ∨ block_timestamp e < expirationDate c))
  ∧ (msg_sender e = participant c →
     status c = ConsentStatus.Pending →
     expirationDate c ≠ 0 →
     expirationDate c ≤ block_timestamp e →
     grantConsent e cid h s = inl (Error "Consent request has expired")
     ∧ transact keccak256 e (GrantConsent cid h) s = s
     ∧ status (consents_at (transact keccak256 e (GrantConsent cid h) s) cid)
       = ConsentStatus.Pending)
  ∧ (∀ r, grantConsent e cid h s = inr r →
     let c' := consents_at (storage_of r) cid in
     status c' = ConsentStatus.Granted
     ∧ ipfsCredentialHash c' = h
     ∧ timestamp c' = block_timestamp e).
Proof.
  cbv zeta. split; [| split].
  - split.
    + intros [r Hr]. apply grantConsent_inr in Hr. tauto.
    + intros (Hp & Hs & Hx). by apply grantConsent_ok.
  - intros Hp Hs Hz Hx.
    pose proof (grantConsent_expired e cid h s Hp Hs Hz Hx) as Hfail.
    assert (transact keccak256 e (GrantConsent cid h) s = s) as Hsame.
    { unfold transact, execute. rewrite Hfail. reflexivity. }
    rewrite Hsame. auto.
  - intros r Hr. apply grantConsent_inr in Hr as (_ & _ & _ & ->).
    unfold storage_of; simpl. rewrite consents_at_set_consent_eq. auto.
Qed.

End Grant.

(** The expired-request clause of C2 on the concrete history: the deadline
    of [bob]'s request is 1000, and he answers at time 1001. *)
Lemma grantConsent_guard_and_effect_witness :
  grantConsent (at_time bob 1001) 0 "cred" st_requested
    = inl (Error "Consent request has expired")
  ∧ status (consents_at
      (transact key_hash (at_time bob 1001) (GrantConsent 0 "cred") st_requested) 0)
    = ConsentStatus.Pending.
Proof.
  destruct (grantConsent_guard_and_effect key_hash (at_time bob 1001) 0 "cred"
              st_requested) as (_ & H & _).
  destruct H as (H1 & _ & H3);
    [reflexivity | reflexivity | vm_compute; discriminate | vm_compute; discriminate |].
  split; [exact H1 | exact H3].
Defined.

(** ** [revokeConsent] *)

Lemma revokeConsent_inr e cid s r :
  revokeConsent e cid s = inr r →
  let c := consents_at s cid in
  msg_sender e = participant c
  ∧ status c = ConsentStatus.Granted
  ∧ r = (tt,
         set_consent cid
           (mkConsent (participant c) (studyId c) (ipfsConsentDocHash c)
              (ipfsCredentialHash c) ConsentStatus.Revoked (block_timestamp e)
              (expirationDate c) (specificPermissions c) (permissionKeys c)) s,
         [ConsentRevoked cid (participant c) (studyId c)]).
Proof.
  unfold_call. cbv zeta.
  destruct (participant (consents_at s cid) =? msg_sender e) eqn:Hp; [| discriminate].
  destruct (ConsentStatus.eqb (status (consents_at s cid)) ConsentStatus.Granted) eqn:Hs;
    [| discriminate].
  apply N.eqb_eq in Hp. apply status_eqb_eq in Hs. simpl.
  intros [= <-]. auto.
Qed.

Lemma revokeConsent_ok e cid s :
  let c := consents_at s cid in
  msg_sender e = participant c →
  status c = ConsentStatus.Granted →
  ∃ r, revokeConsent e cid s = inr r.
Proof.
  cbv zeta. intros Hp Hs. unfold_call.
  rewrite <- Hp, N.eqb_refl, Hs. simpl. eauto.
Qed.

(** C9. On a consent whose stored status is [Granted], [revokeConsent]
    called by the participant completes, and a completed [revokeConsent]
    rewrites two fields of that consent only: the status, to [Revoked], and
    the timestamp, to the block time. The permissions map, the ordered
    key list and the credential hash are as before, as are the remaining
    fields, every other consent and every other part of the storage. *)
Theorem revokeConsent_retains_history e cid s :
  let c := consents_at s cid in
  status c = ConsentStatus.Granted →
  (msg_sender e = participant c → ∃ r, revokeConsent e cid s = inr r)
  ∧ (∀ r, revokeConsent e cid s = inr r →
     let s' := storage_of r in
     let c' := consents_at s' cid in
     status c' = ConsentStatus.Revoked
     ∧ timestamp c' = block_timestamp e
     ∧ specificPermissions c' = specificPermissions c
     ∧ permissionKeys c' = permissionKeys c
     ∧ ipfsCredentialHash c' = ipfsCredentialHash c
     ∧ participant c' = participant c
     ∧ studyId c' = studyId c
     ∧ ipfsConsentDocHash c' = ipfsConsentDocHash c
     ∧ expirationDate c' = expirationDate c
     ∧ (∀ j, j ≠ cid → consents_at s' j = consents_at s j)
     ∧ studyCounter s' = studyCounter s
     ∧ studies s' = studies s
     ∧ participantStudies s' = participantStudies s
     ∧ studyParticipants s' = studyParticipants s
     ∧ consentIndex s' = consentIndex s
     ∧ consentCounter s' = consentCounter s).
Proof.
  cbv zeta. intros Hs. split.
  - intros Hp. by apply revokeConsent_ok.
  - intros r Hr. apply revokeConsent_inr in Hr as (_ & _ & ->).
    unfold storage_of; simpl. rewrite consents_at_set_consent_eq. simpl.
    repeat split; try reflexivity.
    intros j Hj. by apply consents_at_set_consent_ne.
Qed.

(** C9 on the concrete history: [bob] revokes the consent he granted and
    for which he had recorded the permission "share_biometrics". *)
Lemma revokeConsent_retains_history_witness :
  specificPermissions (consents_at st_revoked 0) !! "share_biometrics" = Some true
  ∧ permissionKeys (consents_at st_revoked 0) = ["share_biometrics"]
  ∧ ipfsCredentialHash (consents_at st_revoked 0) = "cred"
  ∧ status (consents_at st_revoked 0) = ConsentStatus.Revoked.
Proof.
  destruct (revokeConsent_retains_history (at_time bob 300) 0 st_permitted)
    as [_ H]; [vm_compute; reflexivity |].
  destruct (H (tt, st_revoked, [ConsentRevoked 0 bob 0]))
    as (H1 & _ & H3 & H4 & H5 & _); [vm_compute; reflexivity |].
  change (storage_of (tt, st_revoked, [ConsentRevoked 0 bob 0]))
    with st_revoked in H1, H3, H4, H5.
  rewrite H3, H4, H5. split; [| split; [| split]]; [| | | exact H1];
    vm_compute; reflexivity.
Defined.

(** ** [checkPermission] *)

(** C5. On a consent whose stored status is [Granted], [checkPermission]
    returns [false] for every key once the deadline is nonzero and the
    block time is strictly past it, whatever the stored value for the key;
    on a consent whose stored status is not [Granted] it fails with
    "Consent not granted". *)
Theorem checkPermission_denies_on_lapse e cid key s :
  let c := consents_at s cid in
  (status c = ConsentStatus.Granted →
   expirationDate c ≠ 0 →
   expirationDate c < block_timestamp e →
   checkPermission e cid key s = inr false)
  ∧ (status c ≠ ConsentStatus.Granted →
     checkPermission e cid key s = inl (Error "Consent not granted")).
Proof.
  cbv zeta. split.
  - intros Hs Hz Hx. unfold_call. rewrite Hs. simpl.
    assert ((0 <? expirationDate (consents_at s cid)) = true) as ->
      by (apply N.ltb_lt; lia).
    assert ((expirationDate (consents_at s cid) <? block_timestamp e) = true) as ->
      by (by apply N.ltb_lt).
    reflexivity.
  - intros Hs. unfold_call. apply status_eqb_neq in Hs. rewrite Hs. reflexivity.
Qed.

(** C5 on the concrete history: the stored value for "share_biometrics" is
    [true], the deadline is 1000, and the query comes at time 1001; after
    the revocation the same query fails. *)
Lemma checkPermission_denies_on_lapse_witness :
  specificPermissions_at (consents_at st_permitted 0) "share_biometrics" = true
  ∧ checkPermission (at_time carol 1001) 0 "share_biometrics" st_permitted = inr false
  ∧ checkPermission (at_time carol 1001) 0 "share_biometrics" st_revoked
    = inl (Error "Consent not granted").
Proof.
  split; [vm_compute; reflexivity |]. split.
  - apply (checkPermission_denies_on_lapse (at_time carol 1001) 0
             "share_biometrics" st_permitted);
      [vm_compute; reflexivity | vm_compute; discriminate | vm_compute; reflexivity].
  - apply (checkPermission_denies_on_lapse (at_time carol 1001) 0
             "share_biometrics" st_revoked).
    vm_compute; discriminate.
Defined.

(** ** [requestConsent] *)

Lemma requestConsent_inr e sid p d x s r :
  requestConsent e sid p d x s = inr r →
  sid < studyCounter s
  ∧ active (studies_at s sid) = true
  ∧ owner (studies_at s sid) = msg_sender e
  ∧ consentCounter s < MAX_UINT256
  ∧ r = (consentCounter s, requested e sid p d x s,
         [ConsentRequested (consentCounter s) p sid]).
Proof.
  unfold_call.
  destruct (sid <? studyCounter s) eqn:H1; [| discriminate].
  destruct (active (studies_at s sid)) eqn:H2; [| discriminate].
  destruct (owner (studies_at s sid) =? msg_sender e) eqn:H3; [| discriminate].
  simpl. destruct (post_increment (consentCounter s)) as [err | c] eqn:H4;
    [discriminate |].
  apply post_increment_inr in H4 as [-> H4]. simpl.
  intros [= <-]. apply N.ltb_lt in H1. apply N.eqb_eq in H3.
  repeat split; auto.
Qed.

Lemma requestConsent_ok e sid p d x s :
  sid < studyCounter s →
  active (studies_at s sid) = true →
  owner (studies_at s sid) = msg_sender e →
  consentCounter s < MAX_UINT256 →
  requestConsent e sid p d x s
  = inr (consentCounter s, requested e sid p d x s,
         [ConsentRequested (consentCounter s) p sid]).
Proof.
  intros H1 H2 H3 H4. unfold_call.
  apply N.ltb_lt in H1. rewrite H1, H2, H3, N.eqb_refl. simpl.
  unfold post_increment. apply N.leb_gt in H4. rewrite H4. reflexivity.
Qed.

Lemma requested_studyParticipants e sid p d x s :
  studyParticipants_at (requested e sid p d x s) sid
  = studyParticipants_at s sid ++ [p].
Proof.
  unfold requested, studyParticipants_at; simpl. by rewrite lookup_insert_eq.
Qed.

Lemma requested_participantStudies e sid p d x s :
  participantStudies_at (requested e sid p d x s) p
  = participantStudies_at s p ++ [sid].
Proof.
  unfold requested, participantStudies_at; simpl. by rewrite lookup_insert_eq.
Qed.

Lemma requested_consentIndex e sid p d x s :
  consentIndex_at (requested e sid p d x s) sid p = consentCounter s.
Proof.
  unfold requested, consentIndex_at; simpl.
  rewrite lookup_insert_eq; simpl. by rewrite lookup_insert_eq.
Qed.

Lemma requested_consent e sid p d x s :
  let c := consents_at (requested e sid p d x s) (consentCounter s) in
  participant c = p ∧ studyId c = sid ∧ status c = ConsentStatus.Pending
  ∧ timestamp c = block_timestamp e ∧ expirationDate c = x.
Proof.
  cbv zeta. unfold requested, consents_at; simpl. by rewrite lookup_insert_eq.
Qed.

Lemma requested_studyCounter e sid p d x s :
  studyCounter (requested e sid p d x s) = studyCounter s.
Proof. reflexivity. Qed.

Lemma requested_studies e sid p d x s :
  studies (requested e sid p d x s) = studies s.
Proof. reflexivity. Qed.

Lemma requested_consentCounter e sid p d x s :
  consentCounter (requested e sid p d x s) = consentCounter s + 1.
Proof. reflexivity. Qed.

(** C10. [requestConsent] appends on every completed call: the participant
    to the study's participant list and the study to the participant's
    study list. After two completed requests for the same pair,
    [getStudyParticipants] returns the earlier list followed by the
    participant twice and [getParticipantStudies] the earlier list
    followed by the study id twice, while the pairing index holds the
    second consent id only. A second request by the same study owner does
    complete as long as the consent counter is below its maximum. *)
Theorem requestConsent_lists_not_deduplicated e1 e2 sid p d1 d2 x1 x2 s r1 :
  requestConsent e1 sid p d1 x1 s = inr r1 →
  let s1 := storage_of r1 in
  (getStudyParticipants sid s1 = inr (studyParticipants_at s sid ++ [p])
   ∧ getParticipantStudies p s1 = inr (participantStudies_at s p ++ [sid]))
  ∧ (msg_sender e2 = msg_sender e1 →
     consentCounter s + 1 < MAX_UINT256 →
     ∃ r2, requestConsent e2 sid p d2 x2 s1 = inr r2)
  ∧ (∀ r2, requestConsent e2 sid p d2 x2 s1 = inr r2 →
     let s2 := storage_of r2 in
     getStudyParticipants sid s2 = inr (studyParticipants_at s sid ++ [p; p])
     ∧ getParticipantStudies p s2 = inr (participantStudies_at s p ++ [sid; sid])
     ∧ r2.1.1 = r1.1.1 + 1
     ∧ consentIndex_at s2 sid p = r2.1.1).
Proof.
  intros H1. apply requestConsent_inr in H1 as (Hex & Hact & Hown & Hmax & ->).
  cbv zeta.
  change (storage_of (consentCounter s, requested e1 sid p d1 x1 s,
                      [ConsentRequested (consentCounter s) p sid]))
    with (requested e1 sid p d1 x1 s).
  assert ((sid <? studyCounter s) = true) as Hexb by (by apply N.ltb_lt).
  split; [| split].
  - unfold getStudyParticipants, getParticipantStudies, studyExists.
    rewrite requested_studyCounter, Hexb. simpl.
    by rewrite requested_studyParticipants, requested_participantStudies.
  - intros Hsender Hroom. eexists. apply requestConsent_ok.
    + by rewrite requested_studyCounter.
    + unfold studies_at. by rewrite requested_studies.
    + unfold studies_at. rewrite requested_studies, Hsender. exact Hown.
    + by rewrite requested_consentCounter.
  - intros r2 H2. apply requestConsent_inr in H2 as (_ & _ & _ & _ & ->).
    unfold storage_of, getStudyParticipants, getParticipantStudies, studyExists.
    cbn [fst snd].
    rewrite !requested_studyCounter, Hexb. simpl bind.
    rewrite !requested_studyParticipants, !requested_participantStudies,
      requested_consentIndex, requested_consentCounter, <- !app_assoc.
    auto.
Qed.

(** C10 on the concrete history: [alice] requests [bob]'s consent for
    study 0 twice. *)
Lemma requestConsent_lists_not_deduplicated_witness :
  getStudyParticipants 0 st_requested_twice = inr [bob; bob]
  ∧ getParticipantStudies bob st_requested_twice = inr [0; 0]
  ∧ consentIndex_at st_requested_twice 0 bob = 1.
Proof.
  assert (requestConsent (at_time alice 110) 0 bob "doc" 1000 st_study
          = inr (0, st_requested, [ConsentRequested 0 bob 0])) as H1
    by (vm_compute; reflexivity).
  destruct (requestConsent_lists_not_deduplicated (at_time alice 110)
              (at_time alice 120) 0 bob "doc" "doc2" 1000 1000 st_study _ H1)
    as (_ & _ & H).
  destruct (H (1, st_requested_twice, [ConsentRequested 1 bob 0]))
    as (Ha & Hb & _ & Hd); [vm_compute; reflexivity |].
  change (storage_of (1, st_requested_twice, [ConsentRequested 1 bob 0]))
    with st_requested_twice in Ha, Hb, Hd.
  rewrite Ha, Hb, Hd. split; [| split]; vm_compute; reflexivity.
Defined.

(** ** The lifecycle of a stored status *)

Section Lifecycle.
Context (keccak256 : string → N).

Lemma updateSpecificPermission_inr e cid k g s r :
  updateSpecificPermission keccak256 e cid k g s = inr r →
  let c := consents_at s cid in
  msg_sender e = participant c
  ∧ status c = ConsentStatus.Granted
  ∧ ∃ c', storage_of r = set_consent cid c' s
          ∧ status c' = ConsentStatus.Granted
          ∧ participant c' = participant c
          ∧ studyId c' = studyId c.
Proof.
  unfold_call. cbv zeta.
  destruct (participant (consents_at s cid) =? msg_sender e) eqn:Hp; [| discriminate].
  destruct (ConsentStatus.eqb (status (consents_at s cid)) ConsentStatus.Granted) eqn:Hs;
    [| discriminate].
  apply N.eqb_eq in Hp. apply status_eqb_eq in Hs. simpl.
  intros [= <-]. simpl. split; [done |]. split; [done |].
  eexists. split; [reflexivity |]. by simpl.
Qed.

Lemma execute_consents e c s s' :
  execute keccak256 e c s = inr s' → consents_effect s s'.
Proof.
  destruct c as [h t d | i h | i a | i p h x | i h | i | i k g]; simpl.
  - unfold createStudy.
    destruct (post_increment (studyCounter s)) as [err | n]; [discriminate |].
    simpl. intros [= <-]. by apply effect_none.
  - unfold updateStudyMetadata.
    destruct (studyExists s i); [discriminate |]. simpl.
    destruct (onlyStudyOwner e s i); [discriminate |]. simpl.
    intros [= <-]. by apply effect_none.
  - unfold setStudyActive.
    destruct (studyExists s i); [discriminate |]. simpl.
    destruct (onlyStudyOwner e s i); [discriminate |]. simpl.
    intros [= <-]. by apply effect_none.
  - destruct (requestConsent e i p h x s) as [err | r] eqn:Hr; [discriminate |].
    simpl. intros [= <-].
    apply requestConsent_inr in Hr as (_ & _ & _ & _ & ->).
    eapply effect_new; unfold storage_of, requested; simpl; reflexivity.
  - destruct (grantConsent e i h s) as [err | r] eqn:Hr; [discriminate |].
    simpl. intros [= <-].
    apply grantConsent_inr in Hr as (_ & Hs & _ & ->).
    eapply effect_update; unfold storage_of; simpl; [reflexivity | reflexivity |].
    left. auto.
  - destruct (revokeConsent e i s) as [err | r] eqn:Hr; [discriminate |].
    simpl. intros [= <-].
    apply revokeConsent_inr in Hr as (_ & Hs & ->).
    eapply effect_update; unfold storage_of; simpl; [reflexivity | reflexivity |].
    right. auto.
  - destruct (updateSpecificPermission keccak256 e i k g s) as [err | r] eqn:Hr;
      [discriminate |].
    simpl. intros [= <-].
    apply updateSpecificPermission_inr in Hr as (_ & Hs & c' & -> & Hs' & _).
    eapply effect_update; simpl; [reflexivity | reflexivity |].
    right. auto.
Qed.

Lemma execute_status_step e c s s' cid :
  execute keccak256 e c s = inr s' →
  cid < consentCounter s →
  status_step (status (consents_at s cid)) (status (consents_at s' cid)).
Proof.
  intros Hex Hlt. apply execute_consents in Hex as [Hc _ | c0 Hc _ _ | i c0 Hc _ Hst];
    unfold consents_at at 2; rewrite Hc.
  - apply step_stay.
  - rewrite lookup_insert_ne by lia. apply step_stay.
  - rewrite lookup_insert. destruct (decide (i = cid)) as [-> | Hne]; simpl.
    + destruct Hst as [[-> ->] | [-> [-> | ->]]]; constructor.
    + apply step_stay.
Qed.

Lemma reachable_consents_wf s : reachable keccak256 s → consents_wf s.
Proof.
  induction 1 as [| e c s Hs IH].
  - intros cid. split; [simpl; lia | reflexivity].
  - unfold transact. destruct (execute keccak256 e c s) as [err | s'] eqn:Hex;
      [exact IH |].
    apply execute_consents in Hex as [Hc Hn | c0 Hc Hp Hn | i c0 Hc Hn Hst];
      intros cid; destruct (IH cid) as [IH1 IH2];
      unfold consents_at; rewrite Hc, Hn.
    + split; [exact IH1 | exact IH2].
    + split.
      * intros Hlt. rewrite lookup_insert.
        destruct (decide (consentCounter s = cid)); simpl; [auto |].
        apply IH1. lia.
      * intros Hge. rewrite lookup_insert_ne by lia. apply IH2. lia.
    + assert (i < consentCounter s) as Hi.
      { destruct (N.lt_ge_cases i (consentCounter s)) as [|Hge]; [done |].
        destruct (IH i) as [_ Hnone]. specialize (Hnone Hge).
        unfold consents_at in Hst. rewrite Hnone in Hst. simpl in Hst.
        destruct Hst as [[? _] | [? _]]; discriminate. }
      split.
      * intros Hlt. rewrite lookup_insert.
        destruct (decide (i = cid)); simpl; [| by apply IH1].
        destruct Hst as [[_ ->] | [_ [-> | ->]]]; auto.
      * intros Hge. rewrite lookup_insert_ne by lia. by apply IH2.
Qed.

(** C3. The stored status of an existing consent moves, in one
    transaction, along at most one edge of [Pending → Granted → Revoked];
    in particular a stored [Revoked] stays [Revoked] under every call.
    On a [Revoked] consent [grantConsent] and [revokeConsent] fail for
    every caller and leave the storage as it was; for the consent's
    participant, who alone gets past the caller check, the failure is the
    state error of the respective function. *)
Theorem status_moves_forward_only e c s cid :
  cid < consentCounter s →
  let a := status (consents_at s cid) in
  let b := status (consents_at (transact keccak256 e c s) cid) in
  status_step a b
  ∧ (a = ConsentStatus.Revoked →
     b = ConsentStatus.Revoked
     ∧ (∀ h,
        (∃ reason, grantConsent e cid h s = inl (Error reason))
        ∧ (msg_sender e = participant (consents_at s cid) →
           grantConsent e cid h s
           = inl (Error "Consent must be in pending state"))
        ∧ transact keccak256 e (GrantConsent cid h) s = s)
     ∧ (∃ reason, revokeConsent e cid s = inl (Error reason))
     ∧ (msg_sender e = participant (consents_at s cid) →
        revokeConsent e cid s = inl (Error "Consent must be in granted state"))
     ∧ transact keccak256 e (RevokeConsent cid) s = s).
Proof.
  intros Hlt. cbv zeta.
  assert (status_step (status (consents_at s cid))
            (status (consents_at (transact keccak256 e c s) cid))) as Hstep.
  { unfold transact. destruct (execute keccak256 e c s) as [err | s'] eqn:Hex.
    - apply step_stay.
    - by eapply execute_status_step. }
  split; [exact Hstep |].
  intros Hrev. split; [| split; [| split; [| split]]].
  - rewrite Hrev in Hstep. by inversion Hstep.
  - intros h.
    assert (grantConsent e cid h s
            = if participant (consents_at s cid) =? msg_sender e
              then inl (Error "Consent must be in pending state")
              else inl (Error "Not the consent owner")) as Hg.
    { unfold_call. rewrite Hrev.
      by destruct (participant (consents_at s cid) =? msg_sender e). }
    split; [| split].
    + rewrite Hg. destruct (_ =? _); eauto.
    + intros Hp. by rewrite Hg, <- Hp, N.eqb_refl.
    + unfold transact, execute. rewrite Hg. by destruct (_ =? _).
  - unfold_call. rewrite Hrev.
    destruct (participant (consents_at s cid) =? msg_sender e); simpl; eauto.
  - intros Hp. unfold_call. by rewrite Hrev, <- Hp, N.eqb_refl.
  - unfold transact, execute, revokeConsent, onlyParticipant. rewrite Hrev.
    by destruct (participant (consents_at s cid) =? msg_sender e).
Qed.

End Lifecycle.

(** C3 on the concrete history: after [bob]'s revocation, his attempt to
    grant again fails with the state error and the status is still
    [Revoked]. *)
Lemma status_moves_forward_only_witness :
  grantConsent (at_time bob 400) 0 "again" st_revoked
    = inl (Error "Consent must be in pending state")
  ∧ status (consents_at
      (transact key_hash (at_time bob 400) (GrantConsent 0 "again") st_revoked) 0)
    = ConsentStatus.Revoked.
Proof.
  destruct (status_moves_forward_only key_hash (at_time bob 400)
              (GrantConsent 0 "again") st_revoked 0) as [_ H];
    [vm_compute; reflexivity |].
  destruct H as (Hb & Hg & _); [vm_compute; reflexivity |].
  destruct (Hg "again") as (_ & Herr & _).
  split; [apply Herr; vm_compute; reflexivity | exact Hb].
Defined.

(** ** Timestamps *)

Lemma set_consent_set_consent i c c' s :
  set_consent i c (set_consent i c' s) = set_consent i c s.
Proof. unfold set_consent; simpl. by rewrite insert_insert_eq. Qed.

(** The claim of C7 as worded fails. No way of reading a request time
    out of the storage is both set by [requestConsent] and kept by
    [grantConsent]: the histories with the request at time 110 and at
    time 111 arrive, after the grant at time 200, at the same storage. *)
Lemma request_time_not_kept :
  ¬ ∃ requestedAt : Storage → uint256 → uint256,
      (∀ e sid p d x s r,
         requestConsent e sid p d x s = inr r →
         requestedAt (storage_of r) r.1.1 = block_timestamp e)
      ∧ (∀ e cid h s r,
           grantConsent e cid h s = inr r →
           requestedAt (storage_of r) cid = requestedAt s cid).
Proof.
  intros (requestedAt & Hset & Hkeep).
  assert (requestedAt st_requested 0 = 110) as H110.
  { apply (Hset (at_time alice 110) 0 bob "doc" 1000 st_study
             (0, st_requested, [ConsentRequested 0 bob 0])).
    vm_compute; reflexivity. }
  assert (requestedAt st_requested_later 0 = 111) as H111.
  { apply (Hset (at_time alice 111) 0 bob "doc" 1000 st_study
             (0, st_requested_later, [ConsentRequested 0 bob 0])).
    vm_compute; reflexivity. }
  assert (requestedAt st_granted 0 = requestedAt st_requested 0) as Hg.
  { apply (Hkeep (at_time bob 200) 0 "cred" st_requested
             (tt, st_granted, [ConsentGranted 0 bob 0])).
    vm_compute; reflexivity. }
  assert (requestedAt st_granted_later 0 = requestedAt st_requested_later 0) as Hg'.
  { apply (Hkeep (at_time bob 200) 0 "cred" st_requested_later
             (tt, st_granted_later, [ConsentGranted 0 bob 0])).
    vm_compute; reflexivity. }
  assert (st_granted_later = st_granted) as Heq by (vm_compute; reflexivity).
  rewrite Heq, Hg, H110 in Hg'. rewrite H111 in Hg'. discriminate Hg'.
Qed.

(** ** [getConsentStatus] and the pairing index *)

(** For a pair of an existing study whose index entry is a nonzero
    consent id, the query computes the status from the stored one: a
    granted consent with deadline [T ≠ 0] reads [Granted] up to and
    including [T] and [Expired] after it. *)
Lemma getConsentStatus_indexed e sid p s cid :
  sid < studyCounter s →
  consentIndex_at s sid p = cid →
  cid ≠ 0 →
  status (consents_at s cid) = ConsentStatus.Granted →
  expirationDate (consents_at s cid) ≠ 0 →
  (block_timestamp e ≤ expirationDate (consents_at s cid) →
   getConsentStatus e sid p s = inr ConsentStatus.Granted)
  ∧ (expirationDate (consents_at s cid) < block_timestamp e →
     getConsentStatus e sid p s = inr ConsentStatus.Expired).
Proof.
  intros Hex Hidx Hnz Hs Hx. unfold_call.
  apply N.ltb_lt in Hex. rewrite Hex, Hidx. simpl.
  apply N.eqb_neq in Hnz. rewrite Hnz, Hs. simpl.
  assert ((0 <? expirationDate (consents_at s cid)) = true) as ->
    by (apply N.ltb_lt; lia).
  simpl. split; intros Ht.
  - apply N.ltb_ge in Ht. by rewrite Ht.
  - apply N.ltb_lt in Ht. by rewrite Ht.
Qed.

(** A pair whose index entry is 0 reads [None] when the study exists, and
    the query reverts when it does not. *)
Lemma getConsentStatus_index_zero e sid p s :
  consentIndex_at s sid p = 0 →
  getConsentStatus e sid p s
  = if sid <? studyCounter s then inr ConsentStatus.None
    else inl (Error "Study does not exist").
Proof.
  intros Hidx. unfold_call. destruct (sid <? studyCounter s); simpl; [| done].
  by rewrite Hidx.
Qed.

(** C4, evaluated on the concrete history. The first consent of the
    contract has id 0. [bob] has granted it, with deadline 1000; the stored
    status is [Granted]. The query for the pair reads [None] both before
    the deadline (time 500) and after it (time 1500), because the index
    entry 0 is taken for an absent pair. The second consent (id 1) of the
    same kind reads [Granted] and [Expired] at these times. *)
Theorem getConsentStatus_hides_consent_zero :
  status (consents_at st_granted 0) = ConsentStatus.Granted
  ∧ expirationDate (consents_at st_granted 0) = 1000
  ∧ participant (consents_at st_granted 0) = bob
  ∧ studyId (consents_at st_granted 0) = 0
  ∧ consentIndex_at st_granted 0 bob = 0
  ∧ getConsentStatus (at_time carol 500) 0 bob st_granted = inr ConsentStatus.None
  ∧ getConsentStatus (at_time carol 1500) 0 bob st_granted = inr ConsentStatus.None
  ∧ getConsentStatus (at_time carol 500) 0 bob st_second_granted
    = inr ConsentStatus.Granted
  ∧ getConsentStatus (at_time carol 1500) 0 bob st_second_granted
    = inr ConsentStatus.Expired.
Proof. repeat split; vm_compute; reflexivity. Qed.

(** ** Identifiers *)

Lemma consentIndex_at_set_consent i c s sid p :
  consentIndex_at (set_consent i c s) sid p = consentIndex_at s sid p.
Proof. reflexivity. Qed.

Lemma requested_consentIndex_at e sid0 p0 d x s sid p :
  consentIndex_at (requested e sid0 p0 d x s) sid p
  = if decide (sid0 = sid ∧ p0 = p) then consentCounter s
    else consentIndex_at s sid p.
Proof.
  unfold requested, consentIndex_at; simpl.
  rewrite lookup_insert. destruct (decide (sid0 = sid)) as [-> | Hsid]; simpl.
  - rewrite lookup_insert. destruct (decide (p0 = p)) as [-> | Hp]; simpl.
    + by rewrite decide_True.
    + rewrite decide_False; [reflexivity | tauto].
  - rewrite decide_False; [reflexivity | tauto].
Qed.

Lemma requested_consents_at e sid0 p0 d x s cid :
  cid ≠ consentCounter s →
  consents_at (requested e sid0 p0 d x s) cid = consents_at s cid.
Proof.
  intros Hne. unfold requested, consents_at; simpl.
  by rewrite lookup_insert_ne.
Qed.

Section Identifiers.
Context (keccak256 : string → N).

Lemma index_wf_set_consent i c s :
  participant c = participant (consents_at s i) →
  studyId c = studyId (consents_at s i) →
  index_wf s → index_wf (set_consent i c s).
Proof.
  intros Hp Hs Hwf sid p. cbv zeta. rewrite consentIndex_at_set_consent.
  intros Hnz. destruct (Hwf sid p Hnz) as (Hlt & Hpp & Hss).
  split; [exact Hlt |]. rewrite consents_at_set_consent.
  destruct (decide (i = consentIndex_at s sid p)) as [-> | Hne]; [| tauto].
  by rewrite Hp, Hs.
Qed.

Lemma execute_index_wf e c s s' :
  execute keccak256 e c s = inr s' → index_wf s → index_wf s'.
Proof.
  destruct c as [h t d | i h | i a | i p h x | i h | i | i k g]; simpl.
  - unfold createStudy.
    destruct (post_increment (studyCounter s)) as [err | n]; [discriminate |].
    simpl. by intros [= <-].
  - unfold updateStudyMetadata.
    destruct (studyExists s i); [discriminate |]. simpl.
    destruct (onlyStudyOwner e s i); [discriminate |]. simpl.
    by intros [= <-].
  - unfold setStudyActive.
    destruct (studyExists s i); [discriminate |]. simpl.
    destruct (onlyStudyOwner e s i); [discriminate |]. simpl.
    by intros [= <-].
  - destruct (requestConsent e i p h x s) as [err | r] eqn:Hr; [discriminate |].
    simpl. intros [= <-].
    apply requestConsent_inr in Hr as (_ & _ & _ & _ & ->).
    unfold storage_of; simpl. intros Hwf sid q. cbv zeta.
    rewrite requested_consentIndex_at, requested_consentCounter.
    destruct (decide (i = sid ∧ p = q)) as [[-> ->] | Hne].
    + intros _. destruct (requested_consent e sid q h x s) as (Hp & Hs & _).
      split; [lia | by split].
    + intros Hnz. destruct (Hwf sid q Hnz) as (Hlt & Hpp & Hss).
      rewrite requested_consents_at by lia. split; [lia | by split].
  - destruct (grantConsent e i h s) as [err | r] eqn:Hr; [discriminate |].
    simpl. intros [= <-].
    apply grantConsent_inr in Hr as (_ & _ & _ & ->).
    unfold storage_of; simpl. by apply index_wf_set_consent.
  - destruct (revokeConsent e i s) as [err | r] eqn:Hr; [discriminate |].
    simpl. intros [= <-].
    apply revokeConsent_inr in Hr as (_ & _ & ->).
    unfold storage_of; simpl. by apply index_wf_set_consent.
  - destruct (updateSpecificPermission keccak256 e i k g s) as [err | r] eqn:Hr;
      [discriminate |].
    simpl. intros [= <-].
    apply updateSpecificPermission_inr in Hr as (_ & _ & c' & -> & _ & Hp & Hs).
    by apply index_wf_set_consent.
Qed.

Lemma reachable_index_wf s : reachable keccak256 s → index_wf s.
Proof.
  induction 1 as [| e c s Hs IH].
  - intros sid p. cbv zeta. unfold consentIndex_at; simpl.
    rewrite lookup_empty; simpl. rewrite lookup_empty; simpl. done.
  - unfold transact. destruct (execute keccak256 e c s) as [err | s'] eqn:Hex;
      [exact IH |].
    by eapply execute_index_wf.
Qed.

End Identifiers.

(** The claim of C6 as worded fails. The first study and the first
    consent get id 0, and index entry 0 does not mean that the pair has no
    consent: after the first request the entry of the pair is 0 and the
    consent with id 0 is the record of that pair. *)
Lemma zero_is_a_real_id :
  createStudy (at_time alice 100) "meta" "Gait" "desc" deployed
    = inr (0, st_study, [StudyCreated 0 alice "Gait"])
  ∧ requestConsent (at_time alice 110) 0 bob "doc" 1000 st_study
    = inr (0, st_requested, [ConsentRequested 0 bob 0])
  ∧ ¬ (∀ s, reachable key_hash s →
         ∀ sid p, consentIndex_at s sid p = 0 →
           ∀ cid c, consents s !! cid = Some c →
             ¬ (participant c = p ∧ studyId c = sid)).
Proof.
  split; [vm_compute; reflexivity |]. split; [vm_compute; reflexivity |].
  intros H.
  assert (reachable key_hash st_requested) as Hr.
  { unfold st_requested, st_study.
    repeat apply reachable_transact. apply reachable_deployed. }
  apply (H st_requested Hr 0 bob) with (cid := 0) (c := consents_at st_requested 0).
  - vm_compute; reflexivity.
  - vm_compute; reflexivity.
  - split; vm_compute; reflexivity.
Qed.

(* --------------------------------------------------------------------- *)
(** ** Every entry point, by its conditions and its effect               *)
(* --------------------------------------------------------------------- *)

Section Effects.
Context (keccak256 : string → N).

Lemma call_effect_execute e c s :
  ∀ s', execute keccak256 e c s = inr s' ↔ call_effect keccak256 e s c s'.
Proof.
  intros s'. split.
  - destruct c as [h t d | i h | i a | i p h x | i h | i | i k g]; simpl.
    + unfold createStudy.
      destruct (post_increment (studyCounter s)) as [err | n] eqn:Hn; [discriminate |].
      apply post_increment_inr in Hn as [-> Hlt]. simpl. intros [= <-].
      by constructor.
    + unfold updateStudyMetadata, studyExists, onlyStudyOwner.
      destruct (i <? studyCounter s) eqn:H1; [| discriminate]. simpl.
      destruct (owner (studies_at s i) =? msg_sender e) eqn:H2; [| discriminate].
      simpl. intros [= <-]. apply N.ltb_lt in H1. apply N.eqb_eq in H2.
      by constructor.
    + unfold setStudyActive, studyExists, onlyStudyOwner.
      destruct (i <? studyCounter s) eqn:H1; [| discriminate]. simpl.
      destruct (owner (studies_at s i) =? msg_sender e) eqn:H2; [| discriminate].
      simpl. intros [= <-]. apply N.ltb_lt in H1. apply N.eqb_eq in H2.
      by constructor.
    + destruct (requestConsent e i p h x s) as [err | r] eqn:Hr; [discriminate |].
      simpl. intros [= <-].
      apply requestConsent_inr in Hr as (? & ? & ? & ? & ->). by constructor.
    + destruct (grantConsent e i h s) as [err | r] eqn:Hr; [discriminate |].
      simpl. intros [= <-].
      apply grantConsent_inr in Hr as (? & ? & ? & ->). by constructor.
    + destruct (revokeConsent e i s) as [err | r] eqn:Hr; [discriminate |].
      simpl. intros [= <-].
      apply revokeConsent_inr in Hr as (? & ? & ->). by constructor.
    + unfold updateSpecificPermission, onlyParticipant.
      destruct (participant (consents_at s i) =? msg_sender e) eqn:Hp; [| discriminate].
      destruct (ConsentStatus.eqb (status (consents_at s i)) ConsentStatus.Granted)
        eqn:Hs; [| discriminate].
      simpl. intros [= <-]. apply N.eqb_eq in Hp. apply status_eqb_eq in Hs.
      by constructor.
  - intros H. destruct H as [h t d Hlt | i h H1 H2 | i a H1 H2 | i p d x H1 H2 H3 H4
                            | cid h Hp Hs Hx | cid Hp Hs | cid k g Hp Hs];
      cbn [execute].
    + unfold createStudy, post_increment. apply N.leb_gt in Hlt. by rewrite Hlt.
    + unfold updateStudyMetadata, studyExists, onlyStudyOwner.
      apply N.ltb_lt in H1. apply N.eqb_eq in H2. by rewrite H1, H2.
    + unfold setStudyActive, studyExists, onlyStudyOwner.
      apply N.ltb_lt in H1. apply N.eqb_eq in H2. by rewrite H1, H2.
    + by rewrite requestConsent_ok.
    + destruct (grantConsent_ok e cid h s Hp Hs Hx) as [r Hr]. rewrite Hr. simpl.
      apply grantConsent_inr in Hr as (_ & _ & _ & ->). reflexivity.
    + destruct (revokeConsent_ok e cid s Hp Hs) as [r Hr]. rewrite Hr. simpl.
      apply revokeConsent_inr in Hr as (_ & _ & ->). reflexivity.
    + unfold updateSpecificPermission, onlyParticipant.
      assert ((participant (consents_at s cid) =? msg_sender e) = true) as ->
        by (by apply N.eqb_eq).
      unfold permitted_consent. by rewrite Hs.
Qed.

(** A transaction either leaves the storage as it was or has the effect of
    its call. *)
Lemma transact_cases e c s :
  transact keccak256 e c s = s
  ∨ call_effect keccak256 e s c (transact keccak256 e c s).
Proof.
  unfold transact. destruct (execute keccak256 e c s) as [err | s'] eqn:Hex.
  - by left.
  - right. by apply call_effect_execute.
Qed.

End Effects.

(* --------------------------------------------------------------------- *)
(** ** Studies                                                            *)
(* --------------------------------------------------------------------- *)

Lemma studies_at_set_study s i x j :
  studies_at (set_study i x s) j = if decide (i = j) then x else studies_at s j.
Proof.
  unfold studies_at, set_study; simpl.
  rewrite lookup_insert. by destruct (decide (i = j)).
Qed.

Lemma set_study_set_study i x y s :
  set_study i x (set_study i y s) = set_study i x s.
Proof. unfold set_study; simpl. by rewrite insert_insert_eq. Qed.

Section Studies.
Context (keccak256 : string → N).

(** What a transaction can have done to the record of an existing study. *)
Lemma study_after_transact e c s i :
  i < studyCounter s →
  let x := studies_at s i in
  let x' := studies_at (transact keccak256 e c s) i in
  x' = x
  ∨ msg_sender e = owner x
    ∧ ((∃ h, c = UpdateStudyMetadata i h ∧ x' = with_metadata h x)
       ∨ (∃ a, c = SetStudyActive i a ∧ x' = with_active a x)).
Proof.
  intros Hlt. cbv zeta.
  destruct (transact_cases keccak256 e c s) as [-> | H]; [by left |].
  destruct H as [h t d Hmax | j h H1 H2 | j a H1 H2 | j p d x H1 H2 H3 H4
                | cid h Hp Hs Hx | cid Hp Hs | cid k g Hp Hs]; try by left.
  - left. rewrite studies_at_set_study.
    destruct (decide (studyCounter s = i)); [lia | reflexivity].
  - rewrite studies_at_set_study. destruct (decide (j = i)) as [-> | Hne]; [| by left].
    right. split; [done |]. left. eauto.
  - rewrite studies_at_set_study. destruct (decide (j = i)) as [-> | Hne]; [| by left].
    right. split; [done |]. right. eauto.
Qed.

(** X1. No transaction changes the owner, the title, the description or
    the creation date of an existing study: only the metadata hash and the
    active flag of a study can change after its creation. *)
Theorem study_identity_is_immutable e c s i :
  i < studyCounter s →
  let x := studies_at s i in
  let x' := studies_at (transact keccak256 e c s) i in
  owner x' = owner x
  ∧ title x' = title x
  ∧ description x' = description x
  ∧ creationDate x' = creationDate x.
Proof.
  intros Hlt. cbv zeta.
  destruct (study_after_transact e c s i Hlt)
    as [-> | (_ & [(h & _ & ->) | (a & _ & ->)])]; done.
Qed.

(** X2. A transaction that changes the record of an existing study is an
    [updateStudyMetadata] or a [setStudyActive] on that study sent by its
    owner; every other call, and every call by another sender, leaves the
    record as it was. *)
Theorem only_owner_changes_study e c s i :
  i < studyCounter s →
  studies_at (transact keccak256 e c s) i ≠ studies_at s i →
  msg_sender e = owner (studies_at s i)
  ∧ ((∃ h, c = UpdateStudyMetadata i h) ∨ (∃ a, c = SetStudyActive i a)).
Proof.
  intros Hlt Hne.
  destruct (study_after_transact e c s i Hlt)
    as [Heq | (Hs & [(h & -> & _) | (a & -> & _)])]; [done | | ]; eauto.
Qed.

Lemma setStudyActive_by_owner e i a s :
  i < studyCounter s →
  owner (studies_at s i) = msg_sender e →
  setStudyActive e i a s
  = inr (tt, set_study i (with_active a (studies_at s i)) s,
         [StudyStatusChanged i a])
  ∧ transact keccak256 e (SetStudyActive i a) s
    = set_study i (with_active a (studies_at s i)) s.
Proof.
  intros H1 H2.
  assert (setStudyActive e i a s
          = inr (tt, set_study i (with_active a (studies_at s i)) s,
                 [StudyStatusChanged i a])) as Hrun.
  { unfold setStudyActive, studyExists, onlyStudyOwner.
    apply N.ltb_lt in H1. apply N.eqb_eq in H2. by rewrite H1, H2. }
  split; [exact Hrun |]. unfold transact, execute. by rewrite Hrun.
Qed.

(** X3. [setStudyActive] fails with "Study does not exist" for an id at or
    above the study counter, whoever calls, and with "Not the study owner"
    for an existing study and another caller. For the owner it completes,
    sets the flag and nothing else in the study, and the last write wins:
    setting the flag to [a] and then to [b] leaves the storage that setting
    it to [b] alone leaves; with [a = b], calling twice is calling once. *)
Theorem setStudyActive_outcome e i a s :
  (studyCounter s ≤ i →
   setStudyActive e i a s = inl (Error "Study does not exist"))
  ∧ (i < studyCounter s →
     owner (studies_at s i) ≠ msg_sender e →
     setStudyActive e i a s = inl (Error "Not the study owner"))
  ∧ (i < studyCounter s →
     owner (studies_at s i) = msg_sender e →
     let s1 := transact keccak256 e (SetStudyActive i a) s in
     setStudyActive e i a s = inr (tt, s1, [StudyStatusChanged i a])
     ∧ studies_at s1 i = with_active a (studies_at s i)
     ∧ ∀ e' b, msg_sender e' = msg_sender e →
         transact keccak256 e' (SetStudyActive i b) s1
         = transact keccak256 e' (SetStudyActive i b) s).
Proof.
  split; [| split].
  - intros Hge. unfold setStudyActive, studyExists.
    apply N.ltb_ge in Hge. by rewrite Hge.
  - intros Hlt Hne. unfold setStudyActive, studyExists, onlyStudyOwner.
    apply N.ltb_lt in Hlt. apply N.eqb_neq in Hne. by rewrite Hlt, Hne.
  - intros Hlt Hown. cbv zeta.
    destruct (setStudyActive_by_owner e i a s Hlt Hown) as [Hrun Htx].
    rewrite Htx. split; [exact Hrun |].
    split; [by rewrite studies_at_set_study, decide_True |].
    intros e' b Hsame.
    destruct (setStudyActive_by_owner e' i b s Hlt) as [_ ->]; [congruence |].
    destruct (setStudyActive_by_owner e' i b
                (set_study i (with_active a (studies_at s i)) s)) as [_ ->];
      [done | rewrite studies_at_set_study, decide_True by done; simpl; congruence |].
    rewrite studies_at_set_study, decide_True by done.
    by rewrite set_study_set_study.
Qed.

(** X4. Once its owner has set a study inactive, [requestConsent] for that
    study fails with "Study is not active" for every caller, participant,
    document and deadline; once the owner has set it active again, the
    owner's [requestConsent] completes (the consent counter permitting). *)
Theorem inactive_study_takes_no_requests e i s :
  i < studyCounter s →
  owner (studies_at s i) = msg_sender e →
  let off := transact keccak256 e (SetStudyActive i false) s in
  let on := transact keccak256 e (SetStudyActive i true) off in
  (∀ e' p d x,
     requestConsent e' i p d x off = inl (Error "Study is not active"))
  ∧ (consentCounter s < MAX_UINT256 →
     ∀ p d x, ∃ r, requestConsent e i p d x on = inr r).
Proof.
  intros Hlt Hown. cbv zeta.
  destruct (setStudyActive_by_owner e i false s Hlt Hown) as [_ ->].
  set (off := set_study i (with_active false (studies_at s i)) s).
  assert (studies_at off i = with_active false (studies_at s i)) as Hoff
    by (unfold off; by rewrite studies_at_set_study, decide_True).
  destruct (setStudyActive_by_owner e i true off) as [_ ->];
    [done | by rewrite Hoff |].
  split.
  - intros e' p d x. unfold requestConsent, studyExists, studyActive.
    assert ((i <? studyCounter off) = true) as -> by (by apply N.ltb_lt).
    by rewrite Hoff.
  - intros Hmax p d x. eexists. apply requestConsent_ok; try done.
    + by rewrite studies_at_set_study, decide_True.
    + rewrite studies_at_set_study, decide_True by done. by rewrite Hoff.
Qed.

End Studies.

(** X1 on the concrete history: [alice] replaces the metadata hash of her
    study; owner and title stay. *)
Lemma study_identity_is_immutable_witness :
  owner (studies_at
    (transact key_hash (at_time alice 150) (UpdateStudyMetadata 0 "meta2") st_study) 0)
  = alice
  ∧ title (studies_at
      (transact key_hash (at_time alice 150) (UpdateStudyMetadata 0 "meta2") st_study) 0)
    = "Gait".
Proof.
  destruct (study_identity_is_immutable key_hash (at_time alice 150)
              (UpdateStudyMetadata 0 "meta2") st_study 0) as (Ho & Ht & _);
    [vm_compute; reflexivity |].
  rewrite Ho, Ht. split; vm_compute; reflexivity.
Defined.

(** X2 on the concrete history: the metadata hash of study 0 changed, so
    the sender was its owner [alice]. *)
Lemma only_owner_changes_study_witness :
  msg_sender (at_time alice 150) = owner (studies_at st_study 0).
Proof.
  apply (only_owner_changes_study key_hash (at_time alice 150)
           (UpdateStudyMetadata 0 "meta2") st_study 0).
  - vm_compute; reflexivity.
  - vm_compute. discriminate.
Defined.

(** X3 on the concrete history: [carol] cannot deactivate [alice]'s study,
    and there is no study 7. *)
Lemma setStudyActive_outcome_witness :
  setStudyActive (at_time carol 150) 7 false st_study
    = inl (Error "Study does not exist")
  ∧ setStudyActive (at_time carol 150) 0 false st_study
    = inl (Error "Not the study owner")
  ∧ active (studies_at
      (transact key_hash (at_time alice 150) (SetStudyActive 0 false) st_study) 0)
    = false.
Proof.
  split; [| split].
  - apply (setStudyActive_outcome key_hash (at_time carol 150) 7 false st_study).
    vm_compute. discriminate.
  - apply (setStudyActive_outcome key_hash (at_time carol 150) 0 false st_study);
      [vm_compute; reflexivity | vm_compute; discriminate].
  - destruct (setStudyActive_outcome key_hash (at_time alice 150) 0 false st_study)
      as (_ & _ & H).
    destruct H as (_ & -> & _); vm_compute; reflexivity.
Defined.

(** X4 on the concrete history: after [alice] has deactivated study 0, her
    own request for [bob]'s consent is refused. *)
Lemma inactive_study_takes_no_requests_witness :
  requestConsent (at_time alice 170) 0 bob "doc" 0
    (transact key_hash (at_time alice 160) (SetStudyActive 0 false) st_study)
  = inl (Error "Study is not active").
Proof.
  destruct (inactive_study_takes_no_requests key_hash (at_time alice 160) 0 st_study)
    as [H _]; [vm_compute; reflexivity | vm_compute; reflexivity |].
  apply H.
Defined.

(* --------------------------------------------------------------------- *)
(** ** Who can change a consent, and what                                *)
(* --------------------------------------------------------------------- *)

Section ConsentRecords.
Context (keccak256 : string → N).

(** What a transaction can have done to the record of an existing
    consent. *)
Lemma consent_after_transact e c s cid :
  cid < consentCounter s →
  let r := consents_at s cid in
  let r' := consents_at (transact keccak256 e c s) cid in
  r' = r
  ∨ msg_sender e = participant r
    ∧ ((∃ h, c = GrantConsent cid h ∧ status r = ConsentStatus.Pending
             ∧ r' = granted_consent e h r)
       ∨ (c = RevokeConsent cid ∧ status r = ConsentStatus.Granted
          ∧ r' = revoked_consent e r)
       ∨ (∃ k g, c = UpdateSpecificPermission cid k g
                 ∧ status r = ConsentStatus.Granted
                 ∧ r' = permitted_consent keccak256 k g r)).
Proof.
  intros Hlt. cbv zeta.
  destruct (transact_cases keccak256 e c s) as [-> | H]; [by left |].
  destruct H as [h t d Hmax | j h H1 H2 | j a H1 H2 | j p d x H1 H2 H3 H4
                | i h Hp Hs Hx | i Hp Hs | i k g Hp Hs]; try by left.
  - left. apply requested_consents_at. lia.
  - rewrite consents_at_set_consent. destruct (decide (i = cid)) as [-> | Hne];
      [| by left].
    right. split; [done |]. left. eauto.
  - rewrite consents_at_set_consent. destruct (decide (i = cid)) as [-> | Hne];
      [| by left].
    right. split; [done |]. right. left. eauto.
  - rewrite consents_at_set_consent. destruct (decide (i = cid)) as [-> | Hne];
      [| by left].
    right. split; [done |]. right. right. eauto 6.
Qed.

(** X5. A transaction that changes the record of an existing consent is
    sent by the consent's participant: the study owner, who created the
    request, and every third party can change nothing in it. *)
Theorem only_participant_changes_consent e c s cid :
  cid < consentCounter s →
  consents_at (transact keccak256 e c s) cid ≠ consents_at s cid →
  msg_sender e = participant (consents_at s cid).
Proof.
  intros Hlt Hne.
  destruct (consent_after_transact e c s cid Hlt) as [Heq | [Hp _]]; done.
Qed.

(** X6. No transaction changes the participant, the study, the document
    hash or the deadline of an existing consent. *)
Theorem consent_identity_is_immutable e c s cid :
  cid < consentCounter s →
  let r := consents_at s cid in
  let r' := consents_at (transact keccak256 e c s) cid in
  participant r' = participant r
  ∧ studyId r' = studyId r
  ∧ ipfsConsentDocHash r' = ipfsConsentDocHash r
  ∧ expirationDate r' = expirationDate r.
Proof.
  intros Hlt. cbv zeta.
  destruct (consent_after_transact e c s cid Hlt)
    as [-> | (_ & [(h & _ & _ & ->) | [(_ & _ & ->) | (k & g & _ & _ & ->)]])];
    done.
Qed.

(** X7. The whole record of a [Revoked] consent is final: no transaction
    changes any of its fields, the permissions and the timestamp included.
    The record of a [Pending] consent changes only by a [grantConsent], and
    permissions and key list change only while the status is [Granted]. *)
Theorem revoked_consent_is_final e c s cid :
  cid < consentCounter s →
  let r := consents_at s cid in
  let r' := consents_at (transact keccak256 e c s) cid in
  (status r = ConsentStatus.Revoked → r' = r)
  ∧ (status r = ConsentStatus.Pending →
     r' = r ∨ ∃ h, c = GrantConsent cid h ∧ r' = granted_consent e h r)
  ∧ (status r ≠ ConsentStatus.Granted →
     specificPermissions r' = specificPermissions r
     ∧ permissionKeys r' = permissionKeys r).
Proof.
  intros Hlt. cbv zeta.
  destruct (consent_after_transact e c s cid Hlt)
    as [-> | (_ & [(h & -> & Hs & ->) | [(-> & Hs & ->) | (k & g & -> & Hs & ->)]])].
  - split; [done |]. split; [by left | done].
  - split; [congruence |]. split; [right; eauto | done].
  - split; [congruence |]. split; [congruence | done].
  - split; [congruence |]. split; [congruence | congruence].
Qed.

(** X8. Granting, revoking, updating a permission and checking a
    permission read nothing of the study: after any [setStudyActive]
    transaction, completed or not, each of them completes exactly when it
    did before, and [checkPermission] returns what it returned. A
    participant can answer for, and withdraw from, a deactivated study. *)
Theorem consent_calls_ignore_study_state e0 i a s e cid :
  let s1 := transact keccak256 e0 (SetStudyActive i a) s in
  (∀ h, (∃ r, grantConsent e cid h s1 = inr r) ↔ (∃ r, grantConsent e cid h s = inr r))
  ∧ ((∃ r, revokeConsent e cid s1 = inr r) ↔ (∃ r, revokeConsent e cid s = inr r))
  ∧ (∀ k g, (∃ r, updateSpecificPermission keccak256 e cid k g s1 = inr r)
            ↔ (∃ r, updateSpecificPermission keccak256 e cid k g s = inr r))
  ∧ (∀ k, checkPermission e cid k s1 = checkPermission e cid k s).
Proof.
  cbv zeta.
  assert (consents_at (transact keccak256 e0 (SetStudyActive i a) s) cid
          = consents_at s cid) as Hsame.
  { destruct (transact_cases keccak256 e0 (SetStudyActive i a) s) as [-> | H];
      [done | by inversion H]. }
  split; [| split; [| split]].
  - intros h. split; intros [r Hr];
      apply grantConsent_inr in Hr as (Hp & Hs & Hx & _);
      apply grantConsent_ok; rewrite ?Hsame in *; assumption.
  - split; intros [r Hr];
      apply revokeConsent_inr in Hr as (Hp & Hs & _);
      apply revokeConsent_ok; rewrite ?Hsame in *; assumption.
  - intros k g. unfold updateSpecificPermission, onlyParticipant. rewrite Hsame.
    destruct (participant (consents_at s cid) =? msg_sender e); simpl;
      [| split; intros [r Hr]; discriminate].
    destruct (ConsentStatus.eqb (status (consents_at s cid)) ConsentStatus.Granted);
      simpl; split; intros [r Hr]; try discriminate; eauto.
  - intros k. unfold checkPermission. by rewrite Hsame.
Qed.

End ConsentRecords.

(** X5 on the concrete history: [bob]'s grant changed consent 0, and
    [bob] is its participant. *)
Lemma only_participant_changes_consent_witness :
  msg_sender (at_time bob 200) = participant (consents_at st_requested 0).
Proof.
  apply (only_participant_changes_consent key_hash (at_time bob 200)
           (GrantConsent 0 "cred") st_requested 0).
  - vm_compute; reflexivity.
  - vm_compute. discriminate.
Defined.

(** X6 on the concrete history: after the grant, deadline and document of
    consent 0 are those of the request. *)
Lemma consent_identity_is_immutable_witness :
  expirationDate (consents_at st_granted 0) = 1000
  ∧ ipfsConsentDocHash (consents_at st_granted 0) = "doc".
Proof.
  destruct (consent_identity_is_immutable key_hash (at_time bob 200)
              (GrantConsent 0 "cred") st_requested 0) as (_ & _ & Hd & Hx);
    [vm_compute; reflexivity |].
  change (transact key_hash (at_time bob 200) (GrantConsent 0 "cred") st_requested)
    with st_granted in Hd, Hx.
  rewrite Hd, Hx. split; vm_compute; reflexivity.
Defined.

(** X7 on the concrete history: [bob] cannot change a permission of the
    consent he has revoked. *)
Lemma revoked_consent_is_final_witness :
  consents_at
    (transact key_hash (at_time bob 400)
       (UpdateSpecificPermission 0 "share_biometrics" false) st_revoked) 0
  = consents_at st_revoked 0.
Proof.
  destruct (revoked_consent_is_final key_hash (at_time bob 400)
              (UpdateSpecificPermission 0 "share_biometrics" false) st_revoked 0)
    as (H & _); [vm_compute; reflexivity |].
  apply H. vm_compute; reflexivity.
Defined.

(* --------------------------------------------------------------------- *)
(** ** Permissions                                                        *)
(* --------------------------------------------------------------------- *)

Section Permissions.
Context (keccak256 : string → N).

Lemma permissionExists_elem_of keys k :
  permissionExists keccak256 keys k = true ↔ keccak256 k ∈ keccak256 <$> keys.
Proof.
  induction keys as [| k0 keys IH]; simpl.
  - split; [discriminate | by intros ?%elem_of_nil].
  - rewrite elem_of_cons, <- IH.
    destruct (keccak256 k0 =? keccak256 k) eqn:E.
    + apply N.eqb_eq in E. split; [by left | done].
    + apply N.eqb_neq in E. split; [by right | intros [? | ?]; congruence].
Qed.

Lemma updateSpecificPermission_storage e cid k g s r :
  updateSpecificPermission keccak256 e cid k g s = inr r →
  msg_sender e = participant (consents_at s cid)
  ∧ status (consents_at s cid) = ConsentStatus.Granted
  ∧ storage_of r
    = set_consent cid (permitted_consent keccak256 k g (consents_at s cid)) s.
Proof.
  intros Hr.
  assert (execute keccak256 e (UpdateSpecificPermission cid k g) s
          = inr (storage_of r)) as Hex by (simpl; by rewrite Hr).
  apply call_effect_execute in Hex. by inversion Hex.
Qed.

Lemma checkPermission_value e cid k s :
  status (consents_at s cid) = ConsentStatus.Granted →
  checkPermission e cid k s
  = inr (if lapsed e (consents_at s cid) then false
         else specificPermissions_at (consents_at s cid) k).
Proof.
  intros Hs. unfold checkPermission, lapsed. rewrite Hs. simpl.
  by destruct ((0 <? _) && (_ <? _)).
Qed.

(** X9. Writing a permission and reading it back. For the participant of
    a [Granted] consent [updateSpecificPermission] completes, whatever the
    time. After a completed update of key [k] to [g], [checkPermission]
    for [k] returns [g] at every time at which the grant has not lapsed and
    [false] once it has; for every other key, and for every other consent,
    it returns what it returned before the update. *)
Theorem permission_written_is_permission_read e cid k g s :
  (msg_sender e = participant (consents_at s cid) →
   status (consents_at s cid) = ConsentStatus.Granted →
   ∃ r, updateSpecificPermission keccak256 e cid k g s = inr r)
  ∧ (∀ r, updateSpecificPermission keccak256 e cid k g s = inr r →
     let s' := storage_of r in
     (∀ e', checkPermission e' cid k s'
            = inr (if lapsed e' (consents_at s cid) then false else g))
     ∧ (∀ e' k', k' ≠ k →
          checkPermission e' cid k' s' = checkPermission e' cid k' s)
     ∧ (∀ e' cid' k', cid' ≠ cid →
          checkPermission e' cid' k' s' = checkPermission e' cid' k' s)).
Proof.
  split.
  - intros Hp Hs.
    assert (call_effect keccak256 e s (UpdateSpecificPermission cid k g)
              (set_consent cid (permitted_consent keccak256 k g (consents_at s cid)) s))
      as H by (by constructor).
    apply call_effect_execute in H. simpl in H.
    destruct (updateSpecificPermission keccak256 e cid k g s) as [err | r];
      [discriminate | eauto].
  - intros r Hr. apply updateSpecificPermission_storage in Hr as (_ & Hs & ->).
    cbv zeta. split; [| split].
    + intros e'. rewrite checkPermission_value
        by (by rewrite consents_at_set_consent_eq).
      rewrite consents_at_set_consent_eq. unfold lapsed, specificPermissions_at.
      simpl. by rewrite lookup_insert_eq.
    + intros e' k' Hne. rewrite !checkPermission_value
        by (by rewrite ?consents_at_set_consent_eq).
      rewrite consents_at_set_consent_eq. unfold lapsed, specificPermissions_at.
      simpl. by rewrite lookup_insert_ne.
    + intros e' cid' k' Hne. unfold checkPermission.
      by rewrite consents_at_set_consent_ne.
Qed.

Lemma keys_wf_permitted k g c :
  keys_wf keccak256 c → keys_wf keccak256 (permitted_consent keccak256 k g c).
Proof.
  intros (Hnd & Hlisted & Hstored). unfold keys_wf, permitted_consent; simpl.
  destruct (permissionExists keccak256 (permissionKeys c) k) eqn:Hex.
  - split; [done |]. split.
    + intros k' Hin. rewrite lookup_insert. case_decide; [eauto | by apply Hlisted].
    + intros k' Hsome. rewrite lookup_insert in Hsome.
      case_decide as Hk; [by subst | by apply Hstored].
  - assert (keccak256 k ∉ keccak256 <$> permissionKeys c) as Hnot.
    { intros Hin. apply permissionExists_elem_of in Hin. congruence. }
    split; [| split].
    + rewrite fmap_app. apply NoDup_app. split; [done |]. split.
      * intros h Hin [->| []%elem_of_nil]%elem_of_cons. done.
      * apply NoDup_singleton.
    + intros k' [Hin | ->%list_elem_of_singleton]%elem_of_app;
        rewrite lookup_insert; case_decide; eauto; done.
    + intros k' Hsome. apply permissionExists_elem_of.
      rewrite fmap_app, elem_of_app. rewrite lookup_insert in Hsome.
      case_decide as Hk.
      * subst. right. simpl. apply list_elem_of_singleton. reflexivity.
      * left. apply permissionExists_elem_of. by apply Hstored.
Qed.

Lemma keys_wf_zero : keys_wf keccak256 Consent_zero.
Proof.
  split; [apply NoDup_nil_2 |]. split.
  - by intros k ?%elem_of_nil.
  - intros k [v Hv]. simpl in Hv. by rewrite lookup_empty in Hv.
Qed.

(** X10. In every storage the contract can reach, the key list of every
    consent matches its permissions map up to the hash of the keys: no two
    listed keys have the same hash, every listed key has a stored value,
    and every key with a stored value has a listed key with its hash. When
    the hash is injective the listed keys are exactly the keys with a
    stored value. *)
Theorem permission_keys_match_permissions s cid :
  reachable keccak256 s →
  keys_wf keccak256 (consents_at s cid)
  ∧ ((∀ a b, keccak256 a = keccak256 b → a = b) →
     ∀ k, k ∈ permissionKeys (consents_at s cid)
          ↔ is_Some (specificPermissions (consents_at s cid) !! k)).
Proof.
  intros Hreach.
  assert (keys_wf keccak256 (consents_at s cid)) as Hwf.
  { revert cid. induction Hreach as [| e c s Hs IH]; intros cid.
    - apply keys_wf_zero.
    - destruct (transact_cases keccak256 e c s) as [-> | H]; [apply IH |].
      destruct H as [h t d Hmax | j h H1 H2 | j a H1 H2 | j p d x H1 H2 H3 H4
                    | i h Hp Hst Hx | i Hp Hst | i k g Hp Hst]; try apply IH.
      + destruct (decide (cid = consentCounter s)) as [-> | Hne].
        * destruct (reachable_consents_wf keccak256 s Hs (consentCounter s))
            as [_ Hnone].
          unfold requested, consents_at; simpl. rewrite lookup_insert_eq; simpl.
          rewrite Hnone by lia. simpl. apply keys_wf_zero.
        * rewrite requested_consents_at by done. apply IH.
      + rewrite consents_at_set_consent. case_decide; [subst | apply IH].
        apply (IH cid).
      + rewrite consents_at_set_consent. case_decide; [subst | apply IH].
        apply (IH cid).
      + rewrite consents_at_set_consent. case_decide; [subst | apply IH].
        apply keys_wf_permitted, IH. }
  split; [exact Hwf |].
  intros Hinj k. destruct Hwf as (_ & Hlisted & Hstored).
  split; [apply Hlisted |].
  intros Hsome. apply Hstored, permissionExists_elem_of in Hsome.
  apply list_elem_of_fmap in Hsome as (k' & Hk & Hin).
  by rewrite (Hinj k k' Hk).
Qed.

End Permissions.

(** X8 on the concrete history: [bob] can grant the pending request after
    [alice] has deactivated the study. *)
Lemma consent_calls_ignore_study_state_witness :
  ∃ r, grantConsent (at_time bob 200) 0 "cred" st_deactivated = inr r.
Proof.
  destruct (consent_calls_ignore_study_state key_hash (at_time alice 150) 0 false
              st_requested (at_time bob 200) 0) as (H & _).
  apply (H "cred"). eexists. vm_compute. reflexivity.
Defined.

(** X9 on the concrete history: the permission [bob] recorded at time 210
    reads [true] at time 500 and [false] after the deadline 1000. *)
Lemma permission_written_is_permission_read_witness :
  checkPermission (at_time carol 500) 0 "share_biometrics" st_permitted = inr true
  ∧ checkPermission (at_time carol 1001) 0 "share_biometrics" st_permitted = inr false.
Proof.
  destruct (permission_written_is_permission_read key_hash (at_time bob 210) 0
              "share_biometrics" true st_granted) as (_ & H).
  destruct (H (tt, st_permitted, [PermissionUpdated 0 "share_biometrics" true]))
    as (Hread & _); [vm_compute; reflexivity |].
  change (storage_of (tt, st_permitted, [PermissionUpdated 0 "share_biometrics" true]))
    with st_permitted in Hread.
  split; rewrite Hread; vm_compute; reflexivity.
Defined.

(** X10 on the concrete history, where the stand-in hash of a key is its
    length: "store_biometrics" has a stored value, and the key list holds a
    key of its hash, which is "share_biometrics" and not the key itself. *)
Lemma permission_keys_match_permissions_witness :
  permissionExists key_hash (permissionKeys (consents_at st_permitted_twice 0))
    "store_biometrics" = true
  ∧ permissionKeys (consents_at st_permitted_twice 0) = ["share_biometrics"].
Proof.
  destruct (permission_keys_match_permissions key_hash st_permitted_twice 0)
    as ((_ & _ & H) & _).
  - unfold st_permitted_twice, st_permitted, st_granted, st_requested, st_study.
    repeat apply reachable_transact. apply reachable_deployed.
  - split; [| vm_compute; reflexivity].
    apply H. exists true. vm_compute. reflexivity.
Defined.

(* --------------------------------------------------------------------- *)
(** ** What every reachable storage satisfies                             *)
(* --------------------------------------------------------------------- *)

Lemma requested_consents_at_new e sid p d x s :
  consents s !! consentCounter s = None →
  consents_at (requested e sid p d x s) (consentCounter s)
  = mkConsent p sid d "" ConsentStatus.Pending (block_timestamp e) x ∅ [].
Proof.
  intros Hnone. unfold requested, consents_at; simpl.
  rewrite lookup_insert_eq; simpl. by rewrite Hnone.
Qed.

Lemma requested_studyParticipants_at e i p d x s sid :
  studyParticipants_at (requested e i p d x s) sid
  = if decide (i = sid) then studyParticipants_at s sid ++ [p]
    else studyParticipants_at s sid.
Proof.
  unfold requested, studyParticipants_at; simpl.
  rewrite lookup_insert. by destruct (decide (i = sid)) as [-> |].
Qed.

Lemma requested_participantStudies_at e i p d x s q :
  participantStudies_at (requested e i p d x s) q
  = if decide (p = q) then participantStudies_at s q ++ [i]
    else participantStudies_at s q.
Proof.
  unfold requested, participantStudies_at; simpl.
  rewrite lookup_insert. by destruct (decide (p = q)) as [-> |].
Qed.

Section Reachable.
Context (keccak256 : string → N).

(** X11. In every reachable storage a consent that has not been granted
    (stored status [Pending], or [None] for an id never handed out) has an
    empty credential hash, no stored permission and no listed key: a
    credential hash and permissions are found only on consents whose
    status is [Granted] or [Revoked]. *)
Theorem ungranted_consent_is_bare s cid :
  reachable keccak256 s → ungranted_is_bare (consents_at s cid).
Proof.
  intros Hreach. revert cid. induction Hreach as [| e c s Hs IH]; intros cid.
  - by intros _.
  - destruct (transact_cases keccak256 e c s) as [-> | H]; [apply IH |].
    destruct H as [h t d Hmax | j h H1 H2 | j a H1 H2 | j p d x H1 H2 H3 H4
                  | i h Hp Hst Hx | i Hp Hst | i k g Hp Hst]; try apply IH.
    + destruct (decide (cid = consentCounter s)) as [-> | Hne].
      * destruct (reachable_consents_wf keccak256 s Hs (consentCounter s))
          as [_ Hnone].
        rewrite requested_consents_at_new by (apply Hnone; lia). by intros _.
      * rewrite requested_consents_at by done. apply IH.
    + rewrite consents_at_set_consent. case_decide; [subst | apply IH].
      intros [? | ?]; discriminate.
    + rewrite consents_at_set_consent. case_decide; [subst | apply IH].
      intros [? | ?]; discriminate.
    + rewrite consents_at_set_consent. case_decide; [subst | apply IH].
      unfold ungranted_is_bare, permitted_consent; simpl. rewrite Hst.
      intros [? | ?]; discriminate.
Qed.

(** X12. In every reachable storage both counters fit a [uint256], the
    studies stored are exactly those with an id below the study counter,
    the consents stored exactly those with an id below the consent counter,
    and every stored consent names a stored study. *)
Theorem stored_records_are_those_counted s :
  reachable keccak256 s →
  studyCounter s ≤ MAX_UINT256
  ∧ consentCounter s ≤ MAX_UINT256
  ∧ (∀ i, is_Some (studies s !! i) ↔ i < studyCounter s)
  ∧ (∀ cid, is_Some (consents s !! cid) ↔ cid < consentCounter s)
  ∧ (∀ cid, cid < consentCounter s →
            studyId (consents_at s cid) < studyCounter s).
Proof.
  induction 1 as [| e c s Hs (IH1 & IH2 & IH3 & IH4 & IH5)].
  - split; [vm_compute; discriminate |]. split; [vm_compute; discriminate |].
    split; [| split].
    + intros i. simpl. rewrite lookup_empty. split; [by intros [] | lia].
    + intros i. simpl. rewrite lookup_empty. split; [by intros [] | lia].
    + simpl. lia.
  - destruct (transact_cases keccak256 e c s) as [-> | H]; [done |].
    destruct H as [h t d Hmax | j h H1 H2 | j a H1 H2 | j p d x H1 H2 H3 H4
                  | i h Hp Hst Hx | i Hp Hst | i k g Hp Hst]; simpl.
    + split; [lia |]. split; [done |]. split; [| split; [done |]].
      * intros i. rewrite lookup_insert. case_decide as Hi.
        -- subst. split; [lia | eauto].
        -- rewrite IH3. lia.
      * intros cid Hlt. specialize (IH5 cid Hlt).
        change (consents_at (set_study _ _ _) cid) with (consents_at s cid). lia.
    + split; [done |]. split; [done |]. split; [| split; [done |]].
      * intros i. rewrite lookup_insert. case_decide as Hi; [| apply IH3].
        subst. split; [done | eauto].
      * intros cid Hlt. by apply IH5.
    + split; [done |]. split; [done |]. split; [| split; [done |]].
      * intros i. rewrite lookup_insert. case_decide as Hi; [| apply IH3].
        subst. split; [done | eauto].
      * intros cid Hlt. by apply IH5.
    + split; [done |]. split; [lia |]. split; [done |]. split.
      * intros cid. rewrite lookup_insert. case_decide as Hi.
        -- subst. split; [lia | eauto].
        -- rewrite IH4. lia.
      * intros cid Hlt.
        destruct (decide (cid = consentCounter s)) as [-> | Hne].
        -- by destruct (requested_consent e j p d x s) as (_ & -> & _).
        -- rewrite requested_consents_at by done. apply IH5. lia.
    + split; [done |]. split; [done |]. split; [done |]. split.
      * intros cid. rewrite lookup_insert. case_decide as Hi; [| apply IH4].
        subst. split; [| eauto]. intros _. apply IH4.
        unfold consents_at in Hst. destruct (consents s !! cid); [eauto | discriminate].
      * intros cid Hlt. rewrite consents_at_set_consent.
        case_decide; [subst; simpl |]; by apply IH5.
    + split; [done |]. split; [done |]. split; [done |]. split.
      * intros cid. rewrite lookup_insert. case_decide as Hi; [| apply IH4].
        subst. split; [| eauto]. intros _. apply IH4.
        unfold consents_at in Hst. destruct (consents s !! cid); [eauto | discriminate].
      * intros cid Hlt. rewrite consents_at_set_consent.
        case_decide; [subst; simpl |]; by apply IH5.
    + split; [done |]. split; [done |]. split; [done |]. split.
      * intros cid. rewrite lookup_insert. case_decide as Hi; [| apply IH4].
        subst. split; [| eauto]. intros _. apply IH4.
        unfold consents_at in Hst. destruct (consents s !! cid); [eauto | discriminate].
      * intros cid Hlt. rewrite consents_at_set_consent.
        case_decide; [subst; simpl |]; by apply IH5.
Qed.

(** X13. In every reachable storage the two enumeration lists say the
    same as the table of consents: a participant is in the list of a study
    exactly when some consent record is for that study and participant, and
    exactly then the study is in the list of the participant. *)
Theorem lists_agree_with_consents s sid p :
  reachable keccak256 s →
  (p ∈ studyParticipants_at s sid ↔ has_consent s sid p)
  ∧ (sid ∈ participantStudies_at s p ↔ has_consent s sid p).
Proof.
  intros Hreach. revert sid p.
  induction Hreach as [| e c s Hs IH]; intros sid p.
  - unfold studyParticipants_at, participantStudies_at, has_consent; simpl.
    rewrite !lookup_empty; simpl.
    split; (split; [by intros ?%elem_of_nil | intros (cid & Hlt & _); lia]).
  - destruct (transact_cases keccak256 e c s) as [-> | H]; [apply IH |].
    assert (∀ i r, participant r = participant (consents_at s i) →
              studyId r = studyId (consents_at s i) →
              has_consent (set_consent i r s) sid p ↔ has_consent s sid p) as Hframe.
    { intros i r Hp Hst. unfold has_consent.
      split; intros (cid & Hlt & Hcp & Hcs); exists cid;
        (split; [exact Hlt |]); rewrite consents_at_set_consent in *;
        case_decide; subst; rewrite ?Hp, ?Hst in *; done. }
    destruct H as [h t d Hmax | j h H1 H2 | j a H1 H2 | j q d x H1 H2 H3 H4
                  | i h Hp Hst Hx | i Hp Hst | i k g Hp Hst];
      try apply IH;
      try (destruct (IH sid p) as [IHa IHb];
           change (studyParticipants_at (set_consent _ _ _) sid)
             with (studyParticipants_at s sid);
           change (participantStudies_at (set_consent _ _ _) p)
             with (participantStudies_at s p);
           rewrite Hframe by done; by split).
    destruct (IH sid p) as [IHa IHb].
    assert (has_consent (requested e j q d x s) sid p
            ↔ has_consent s sid p ∨ (j = sid ∧ q = p)) as Hnew.
    { unfold has_consent. rewrite requested_consentCounter. split.
      - intros (cid & Hlt & Hcp & Hcs).
        destruct (decide (cid = consentCounter s)) as [-> | Hne].
        + right. destruct (requested_consent e j q d x s) as (Hq & Hj & _).
          split; congruence.
        + left. exists cid. rewrite requested_consents_at in Hcp, Hcs by done.
          split; [lia | done].
      - intros [(cid & Hlt & Hcp & Hcs) | [-> ->]].
        + exists cid. rewrite requested_consents_at by lia. split; [lia | done].
        + exists (consentCounter s).
          destruct (requested_consent e sid p d x s) as (Hq & Hj & _).
          split; [lia | done]. }
    rewrite requested_studyParticipants_at, requested_participantStudies_at, Hnew.
    split.
    + case_decide as Hj.
      * subst j. rewrite elem_of_app, list_elem_of_singleton, IHa.
        intuition (subst; auto).
      * rewrite IHa. intuition (subst; auto).
    + case_decide as Hq.
      * subst q. rewrite elem_of_app, list_elem_of_singleton, IHb.
        intuition (subst; auto).
      * rewrite IHb. intuition (subst; auto).
Qed.

End Reachable.

Lemma st_requested_twice_reachable : reachable key_hash st_requested_twice.
Proof.
  unfold st_requested_twice, st_requested, st_study.
  repeat apply reachable_transact. apply reachable_deployed.
Qed.

(** X11 on the concrete history: the second, pending consent of [bob]
    carries no credential hash. *)
Lemma ungranted_consent_is_bare_witness :
  ipfsCredentialHash (consents_at st_requested_twice 1) = ""
  ∧ specificPermissions (consents_at st_requested_twice 1) = ∅
  ∧ permissionKeys (consents_at st_requested_twice 1) = [].
Proof.
  apply (ungranted_consent_is_bare key_hash st_requested_twice 1
           st_requested_twice_reachable).
  right. vm_compute. reflexivity.
Defined.

(** X12 on the concrete history: after two requests the stored consents
    are those with ids 0 and 1, and consent 1 names the stored study 0. *)
Lemma stored_records_are_those_counted_witness :
  is_Some (consents st_requested_twice !! 1)
  ∧ ¬ is_Some (consents st_requested_twice !! 2)
  ∧ studyId (consents_at st_requested_twice 1) < studyCounter st_requested_twice.
Proof.
  destruct (stored_records_are_those_counted key_hash st_requested_twice
              st_requested_twice_reachable) as (_ & _ & _ & Hc & Hs).
  split; [| split].
  - apply Hc. vm_compute. reflexivity.
  - intros H%Hc. vm_compute in H. discriminate.
  - apply Hs. vm_compute. reflexivity.
Defined.

(** X13 on the concrete history: [bob] is listed for study 0, so a
    consent record of [bob] for study 0 exists, and study 0 is listed for
    [bob]. *)
Lemma lists_agree_with_consents_witness :
  has_consent st_requested_twice 0 bob
  ∧ 0 ∈ participantStudies_at st_requested_twice bob.
Proof.
  destruct (lists_agree_with_consents key_hash st_requested_twice 0 bob
              st_requested_twice_reachable) as [Ha Hb].
  assert (has_consent st_requested_twice 0 bob) as H.
  { apply Ha. vm_compute. apply elem_of_cons. by left. }
  split; [exact H | by apply Hb].
Defined.

(* --------------------------------------------------------------------- *)
(** ** Deadlines                                                          *)
(* --------------------------------------------------------------------- *)

Section Deadlines.
Context (keccak256 : string → N).

Lemma getConsentStatus_value e sid p s :
  sid < studyCounter s →
  consentIndex_at s sid p ≠ 0 →
  let c := consents_at s (consentIndex_at s sid p) in
  getConsentStatus e sid p s
  = inr (if lapsed e c && ConsentStatus.eqb (status c) ConsentStatus.Granted
         then ConsentStatus.Expired else status c).
Proof.
  intros Hlt Hnz. cbv zeta. unfold getConsentStatus, studyExists, lapsed.
  apply N.ltb_lt in Hlt. apply N.eqb_neq in Hnz. rewrite Hlt, Hnz. simpl.
  by destruct ((0 <? _) && (_ <? _) && _).
Qed.

(** X14. At the deadline itself, [block.timestamp = expirationDate ≠ 0], a
    pending request can no longer be granted (the participant's
    [grantConsent] fails with "Consent request has expired"), while a
    granted consent has not lapsed yet: [checkPermission] returns the
    stored value and [getConsentStatus] reads [Granted]. One second later
    both report the lapse. *)
Theorem deadline_boundary e cid s :
  let c := consents_at s cid in
  expirationDate c ≠ 0 →
  block_timestamp e = expirationDate c →
  (status c = ConsentStatus.Pending →
   msg_sender e = participant c →
   ∀ h, grantConsent e cid h s = inl (Error "Consent request has expired"))
  ∧ (status c = ConsentStatus.Granted →
     (∀ k, checkPermission e cid k s = inr (specificPermissions_at c k))
     ∧ (∀ sid p, sid < studyCounter s → consentIndex_at s sid p = cid → cid ≠ 0 →
          getConsentStatus e sid p s = inr ConsentStatus.Granted)
     ∧ (∀ e' k, block_timestamp e' = block_timestamp e + 1 →
          checkPermission e' cid k s = inr false)
     ∧ (∀ e' sid p, block_timestamp e' = block_timestamp e + 1 →
          sid < studyCounter s → consentIndex_at s sid p = cid → cid ≠ 0 →
          getConsentStatus e' sid p s = inr ConsentStatus.Expired)).
Proof.
  cbv zeta. intros Hnz Hnow. split.
  - intros Hs Hp h. apply grantConsent_expired; [done | done | done | lia].
  - intros Hs.
    assert (lapsed e (consents_at s cid) = false) as Hnot.
    { unfold lapsed. rewrite Hnow, N.ltb_irrefl. apply andb_false_r. }
    assert (∀ e', block_timestamp e' = block_timestamp e + 1 →
                  lapsed e' (consents_at s cid) = true) as Hyes.
    { intros e' He'. unfold lapsed. apply andb_true_iff.
      split; apply N.ltb_lt; lia. }
    split; [| split; [| split]].
    + intros k. by rewrite checkPermission_value, Hnot.
    + intros sid p Hlt Hidx Hcid. rewrite getConsentStatus_value by congruence.
      by rewrite Hidx, Hnot, Hs.
    + intros e' k He'. by rewrite checkPermission_value, Hyes.
    + intros e' sid p He' Hlt Hidx Hcid.
      rewrite getConsentStatus_value by congruence.
      by rewrite Hidx, Hyes, Hs.
Qed.

(** X15. [revokeConsent] does not look at the deadline: the participant
    of a [Granted] consent can revoke it at any time, lapsed or not. After
    the revocation [checkPermission] fails with "Consent not granted" and
    [getConsentStatus] reads [Revoked], never [Expired], at every time. *)
Theorem revocation_outlives_deadline e cid s :
  status (consents_at s cid) = ConsentStatus.Granted →
  msg_sender e = participant (consents_at s cid) →
  ∃ r, revokeConsent e cid s = inr r
       ∧ (∀ e' k, checkPermission e' cid k (storage_of r)
                  = inl (Error "Consent not granted"))
       ∧ (∀ e' sid p, sid < studyCounter s → consentIndex_at s sid p = cid →
            cid ≠ 0 →
            getConsentStatus e' sid p (storage_of r) = inr ConsentStatus.Revoked).
Proof.
  intros Hs Hp. destruct (revokeConsent_ok e cid s Hp Hs) as [r Hr].
  exists r. split; [exact Hr |].
  apply revokeConsent_inr in Hr as (_ & _ & ->). unfold storage_of; simpl.
  split.
  - intros e' k. unfold checkPermission. by rewrite consents_at_set_consent_eq.
  - intros e' sid p Hlt Hidx Hcid.
    rewrite getConsentStatus_value; rewrite ?consentIndex_at_set_consent; try done;
      [| congruence].
    rewrite Hidx, consents_at_set_consent_eq. simpl. by rewrite andb_false_r.
Qed.

(** X16. In every reachable storage the status query and the permission
    check agree on a consent reached through the pairing index under a
    nonzero id: when
    [checkPermission] returns [true] for some key the status reads
    [Granted]; when the status reads [Expired], [checkPermission] returns
    [false] for every key; when it reads anything but [Granted] or
    [Expired], [checkPermission] fails. *)
Theorem status_and_permission_agree e sid p s :
  reachable keccak256 s →
  sid < studyCounter s →
  consentIndex_at s sid p ≠ 0 →
  let cid := consentIndex_at s sid p in
  (∀ k, checkPermission e cid k s = inr true →
        getConsentStatus e sid p s = inr ConsentStatus.Granted)
  ∧ (getConsentStatus e sid p s = inr ConsentStatus.Expired →
     ∀ k, checkPermission e cid k s = inr false)
  ∧ (∀ st, getConsentStatus e sid p s = inr st →
           st ≠ ConsentStatus.Granted → st ≠ ConsentStatus.Expired →
           ∀ k, checkPermission e cid k s = inl (Error "Consent not granted")).
Proof.
  intros Hreach Hlt Hnz. cbv zeta. rewrite getConsentStatus_value by done.
  set (c := consents_at s (consentIndex_at s sid p)).
  assert (status c ≠ ConsentStatus.Expired) as Hstored.
  { destruct (reachable_consents_wf keccak256 s Hreach (consentIndex_at s sid p))
      as [Hin Hout].
    destruct (N.lt_ge_cases (consentIndex_at s sid p) (consentCounter s)) as [H | H].
    - fold c in Hin. destruct (Hin H) as [-> | [-> | ->]]; discriminate.
    - unfold c, consents_at. by rewrite (Hout H). }
  destruct (ConsentStatus.eqb (status c) ConsentStatus.Granted) eqn:Hs.
  - apply status_eqb_eq in Hs. split; [| split].
    + intros k. rewrite checkPermission_value by done. fold c.
      destruct (lapsed e c); [discriminate | by rewrite Hs].
    + intros H k. rewrite checkPermission_value by done. fold c.
      destruct (lapsed e c); [done |]. simpl in H. congruence.
    + intros st H Hg Hx k. destruct (lapsed e c); simpl in H; congruence.
  - rewrite andb_false_r. apply status_eqb_neq in Hs.
    assert (∀ k, checkPermission e (consentIndex_at s sid p) k s
                 = inl (Error "Consent not granted")) as Hfail.
    { intros k. unfold checkPermission. fold c.
      apply status_eqb_neq in Hs. by rewrite Hs. }
    split; [| split].
    + intros k. by rewrite Hfail.
    + intros [= H]. done.
    + intros st _ _ _ k. apply Hfail.
Qed.

End Deadlines.

Lemma st_second_granted_reachable : reachable key_hash st_second_granted.
Proof.
  unfold st_second_granted. apply reachable_transact, st_requested_twice_reachable.
Qed.

(** X14 on the concrete history, at time 1000, the deadline of both of
    [bob]'s consents: the pending first request can no longer be granted,
    and the granted second consent still reads [Granted]. *)
Lemma deadline_boundary_witness :
  grantConsent (at_time bob 1000) 0 "cred" st_requested
    = inl (Error "Consent request has expired")
  ∧ getConsentStatus (at_time carol 1000) 0 bob st_second_granted
    = inr ConsentStatus.Granted
  ∧ getConsentStatus (at_time carol 1001) 0 bob st_second_granted
    = inr ConsentStatus.Expired.
Proof.
  split; [| split].
  - destruct (deadline_boundary (at_time bob 1000) 0 st_requested) as [H _];
      [vm_compute; discriminate | vm_compute; reflexivity |].
    apply H; vm_compute; reflexivity.
  - destruct (deadline_boundary (at_time carol 1000) 1 st_second_granted) as [_ H];
      [vm_compute; discriminate | vm_compute; reflexivity |].
    destruct H as (_ & H & _); [vm_compute; reflexivity |].
    apply H; [vm_compute; reflexivity | vm_compute; reflexivity | discriminate].
  - destruct (deadline_boundary (at_time carol 1000) 1 st_second_granted) as [_ H];
      [vm_compute; discriminate | vm_compute; reflexivity |].
    destruct H as (_ & _ & _ & H); [vm_compute; reflexivity |].
    apply H; [vm_compute; reflexivity | vm_compute; reflexivity
             | vm_compute; reflexivity | discriminate].
Defined.

(** X15 on the concrete history: [bob] revokes his second consent at
    time 2000, after its deadline 1000. *)
Lemma revocation_outlives_deadline_witness :
  ∃ r, revokeConsent (at_time bob 2000) 1 st_second_granted = inr r
       ∧ getConsentStatus (at_time carol 3000) 0 bob (storage_of r)
         = inr ConsentStatus.Revoked.
Proof.
  destruct (revocation_outlives_deadline (at_time bob 2000) 1 st_second_granted)
    as (r & Hr & _ & Hq); [vm_compute; reflexivity | vm_compute; reflexivity |].
  exists r. split; [exact Hr |].
  apply Hq; [vm_compute; reflexivity | vm_compute; reflexivity | discriminate].
Defined.

(** X16 on the concrete history: at time 1500 the status of [bob]'s second
    consent reads [Expired], and [checkPermission] on it returns
    [false]. *)
Lemma status_and_permission_agree_witness :
  checkPermission (at_time carol 1500) 1 "share_biometrics" st_second_granted
  = inr false.
Proof.
  destruct (status_and_permission_agree key_hash (at_time carol 1500) 0 bob
              st_second_granted st_second_granted_reachable) as (_ & H & _);
    [vm_compute; reflexivity | vm_compute; discriminate |].
  apply (H ltac:(vm_compute; reflexivity) "share_biometrics").
Defined.

(* --------------------------------------------------------------------- *)
(** ** A second request for a pair                                        *)
(* --------------------------------------------------------------------- *)

(** X17. After a completed [requestConsent] that is not the first of the
    contract, the status query for the pair reads [Pending] at every time,
    whatever the state of an earlier consent of the pair. The earlier
    consents are untouched and stay usable by id: each record is as before,
    and [checkPermission] on it returns what it returned, so a permission
    granted under the earlier consent still checks as granted while the
    pair reads [Pending]. *)
Theorem new_request_hides_earlier_consent e sid p d x s r :
  requestConsent e sid p d x s = inr r →
  consentCounter s ≠ 0 →
  let s' := storage_of r in
  (∀ e', getConsentStatus e' sid p s' = inr ConsentStatus.Pending)
  ∧ (∀ cid, cid < consentCounter s →
       consents_at s' cid = consents_at s cid
       ∧ ∀ e' k, checkPermission e' cid k s' = checkPermission e' cid k s).
Proof.
  intros Hr Hnz. apply requestConsent_inr in Hr as (Hlt & _ & _ & _ & ->).
  cbv zeta. unfold storage_of. cbn [fst snd]. split.
  - intros e'. rewrite getConsentStatus_value;
      rewrite ?requested_consentIndex, ?requested_studyCounter; try done.
    destruct (requested_consent e sid p d x s) as (_ & _ & -> & _).
    apply f_equal. by rewrite andb_false_r.
  - intros cid Hcid.
    assert (consents_at (requested e sid p d x s) cid = consents_at s cid) as Hsame
      by (apply requested_consents_at; lia).
    split; [exact Hsame |].
    intros e' k. unfold checkPermission. by rewrite Hsame.
Qed.

(** X17 on the concrete history: after [alice]'s new request the pair
    reads [Pending], and the permission [bob] granted under consent 0
    still checks [true]. *)
Lemma new_request_hides_earlier_consent_witness :
  getConsentStatus (at_time carol 500) 0 bob st_rerequested
    = inr ConsentStatus.Pending
  ∧ checkPermission (at_time carol 500) 0 "share_biometrics" st_rerequested
    = inr true.
Proof.
  destruct (new_request_hides_earlier_consent (at_time alice 400) 0 bob "doc3" 0
              st_permitted (1, st_rerequested, [ConsentRequested 1 bob 0]))
    as [Hq Hold]; [vm_compute; reflexivity | vm_compute; discriminate |].
  change (storage_of (1, st_rerequested, [ConsentRequested 1 bob 0]))
    with st_rerequested in Hq, Hold.
  split; [apply Hq |].
  destruct (Hold 0) as [_ Hc]; [vm_compute; reflexivity |].
  rewrite Hc. vm_compute. reflexivity.
Defined.

(* --------------------------------------------------------------------- *)
(** ** Refusals                                                           *)
(* --------------------------------------------------------------------- *)

Section Refusals.
Context (keccak256 : string → N).

(** X25. The order of the checks of [requestConsent]. For an id at or
    above the study counter it fails with "Study does not exist"; for an
    existing inactive study with "Study is not active", also when the
    caller is not the owner; for an existing active study and another
    caller with "Not the study owner"; for the owner of an existing active
    study with the arithmetic panic when the consent counter is at its
    maximum. In every other case it completes, returns the consent counter
    as the new id, and stores a [Pending] consent for the participant as
    given: the participant address is not checked in any way. *)
Theorem requestConsent_outcome e i p d x s :
  (studyCounter s ≤ i →
   requestConsent e i p d x s = inl (Error "Study does not exist"))
  ∧ (i < studyCounter s → active (studies_at s i) = false →
     requestConsent e i p d x s = inl (Error "Study is not active"))
  ∧ (i < studyCounter s → active (studies_at s i) = true →
     owner (studies_at s i) ≠ msg_sender e →
     requestConsent e i p d x s = inl (Error "Not the study owner"))
  ∧ (i < studyCounter s → active (studies_at s i) = true →
     owner (studies_at s i) = msg_sender e →
     MAX_UINT256 ≤ consentCounter s →
     requestConsent e i p d x s = inl (Panic 17))
  ∧ (i < studyCounter s → active (studies_at s i) = true →
     owner (studies_at s i) = msg_sender e →
     consentCounter s < MAX_UINT256 →
     ∃ s', requestConsent e i p d x s
           = inr (consentCounter s, s', [ConsentRequested (consentCounter s) p i])
           ∧ participant (consents_at s' (consentCounter s)) = p
           ∧ studyId (consents_at s' (consentCounter s)) = i
           ∧ status (consents_at s' (consentCounter s)) = ConsentStatus.Pending
           ∧ expirationDate (consents_at s' (consentCounter s)) = x).
Proof.
  unfold requestConsent, studyExists, studyActive, onlyStudyOwner, post_increment.
  split; [| split; [| split; [| split]]].
  - intros H. apply N.ltb_ge in H. by rewrite H.
  - intros H Ha. apply N.ltb_lt in H. by rewrite H, Ha.
  - intros H Ha Ho. apply N.ltb_lt in H. apply N.eqb_neq in Ho. by rewrite H, Ha, Ho.
  - intros H Ha Ho Hmax. apply N.ltb_lt in H. apply N.eqb_eq in Ho.
    apply N.leb_le in Hmax. by rewrite H, Ha, Ho, Hmax.
  - intros H Ha Ho Hmax. exists (requested e i p d x s).
    pose proof (requestConsent_ok e i p d x s H Ha Ho Hmax) as Hok.
    unfold requestConsent, studyExists, studyActive, onlyStudyOwner, post_increment
      in Hok.
    split; [exact Hok |].
    destruct (requested_consent e i p d x s) as (? & ? & ? & _ & ?). done.
Qed.

(** X26. Calls that name a consent id never handed out. In every
    reachable storage and for an id at or above the consent counter,
    [grantConsent], [revokeConsent] and [updateSpecificPermission] fail:
    with "Not the consent owner" for every caller but the zero address,
    for which the status check fails instead; [checkPermission] fails with
    "Consent not granted". None of these calls creates the record. *)
Theorem calls_on_unknown_consent_fail e cid s :
  reachable keccak256 s →
  consentCounter s ≤ cid →
  (∀ h, grantConsent e cid h s
        = inl (Error (if msg_sender e =? 0 then "Consent must be in pending state"
                      else "Not the consent owner")))
  ∧ revokeConsent e cid s
    = inl (Error (if msg_sender e =? 0 then "Consent must be in granted state"
                  else "Not the consent owner"))
  ∧ (∀ k g, updateSpecificPermission keccak256 e cid k g s
            = inl (Error (if msg_sender e =? 0 then "Consent must be in granted state"
                          else "Not the consent owner")))
  ∧ (∀ k, checkPermission e cid k s = inl (Error "Consent not granted"))
  ∧ (∀ c, (∃ h, c = GrantConsent cid h) ∨ c = RevokeConsent cid
          ∨ (∃ k g, c = UpdateSpecificPermission cid k g) →
          transact keccak256 e c s = s).
Proof.
  intros Hreach Hge.
  destruct (reachable_consents_wf keccak256 s Hreach cid) as [_ Hnone].
  assert (consents_at s cid = Consent_zero) as Hzero
    by (unfold consents_at; by rewrite Hnone).
  assert (∀ h, grantConsent e cid h s
        = inl (Error (if msg_sender e =? 0 then "Consent must be in pending state"
                      else "Not the consent owner"))) as Hg.
  { intros h. unfold grantConsent, onlyParticipant. rewrite Hzero.
    by destruct (msg_sender e). }
  assert (revokeConsent e cid s
    = inl (Error (if msg_sender e =? 0 then "Consent must be in granted state"
                  else "Not the consent owner"))) as Hr.
  { unfold revokeConsent, onlyParticipant. rewrite Hzero.
    by destruct (msg_sender e). }
  assert (∀ k g, updateSpecificPermission keccak256 e cid k g s
            = inl (Error (if msg_sender e =? 0 then "Consent must be in granted state"
                          else "Not the consent owner"))) as Hu.
  { intros k g. unfold updateSpecificPermission, onlyParticipant. rewrite Hzero.
    by destruct (msg_sender e). }
  split; [exact Hg |]. split; [exact Hr |]. split; [exact Hu |]. split.
  - intros k. unfold checkPermission. by rewrite Hzero.
  - intros c [[h ->] | [-> | (k & g & ->)]]; unfold transact, execute.
    + by rewrite Hg.
    + by rewrite Hr.
    + by rewrite Hu.
Qed.

End Refusals.

(** X25 on the concrete history: [carol]'s request for the deactivated
    study is refused for inactivity, not for her not being the owner. *)
Lemma requestConsent_outcome_witness :
  requestConsent (at_time carol 300) 0 bob "doc" 0 st_deactivated
    = inl (Error "Study is not active")
  ∧ requestConsent (at_time carol 300) 0 bob "doc" 0 st_requested
    = inl (Error "Not the study owner")
  ∧ requestConsent (at_time carol 300) 5 bob "doc" 0 st_requested
    = inl (Error "Study does not exist").
Proof.
  split; [| split].
  - apply (requestConsent_outcome (at_time carol 300) 0 bob "doc" 0 st_deactivated);
      vm_compute; reflexivity.
  - apply (requestConsent_outcome (at_time carol 300) 0 bob "doc" 0 st_requested);
      [vm_compute; reflexivity | vm_compute; reflexivity | vm_compute; discriminate].
  - apply (requestConsent_outcome (at_time carol 300) 5 bob "doc" 0 st_requested).
    vm_compute. discriminate.
Defined.

(** X26 on the concrete history: no consent 7 exists after two requests;
    [bob] cannot grant it. *)
Lemma calls_on_unknown_consent_fail_witness :
  grantConsent (at_time bob 500) 7 "cred" st_requested_twice
    = inl (Error "Not the consent owner")
  ∧ checkPermission (at_time bob 500) 7 "share_biometrics" st_requested_twice
    = inl (Error "Consent not granted").
Proof.
  destruct (calls_on_unknown_consent_fail key_hash (at_time bob 500) 7
              st_requested_twice st_requested_twice_reachable)
    as (Hg & _ & _ & Hc & _); [vm_compute; discriminate |].
  split; [apply Hg | apply Hc].
Defined.

(* --------------------------------------------------------------------- *)
(** ** The timestamp of a consent                                         *)
(* --------------------------------------------------------------------- *)

Section Timestamps.
Context (keccak256 : string → N).

(** The timestamp of a consent moves with its status and only with it. *)
Lemma timestamp_follows_status e c s cid :
  reachable keccak256 s →
  let r := consents_at s cid in
  let r' := consents_at (transact keccak256 e c s) cid in
  (status r' = status r → timestamp r' = timestamp r)
  ∧ (status r' ≠ status r → timestamp r' = block_timestamp e).
Proof.
  intros Hreach. cbv zeta.
  destruct (N.lt_ge_cases cid (consentCounter s)) as [Hlt | Hge].
  - destruct (consent_after_transact keccak256 e c s cid Hlt)
      as [-> | (_ & [(h & _ & Hs & ->) | [(_ & Hs & ->) | (k & g & _ & Hs & ->)]])];
      simpl; rewrite ?Hs; split; intros H; congruence.
  - destruct (reachable_consents_wf keccak256 s Hreach cid) as [_ Hnone].
    destruct (transact_cases keccak256 e c s) as [-> | H]; [split; congruence |].
    destruct H as [h t d Hmax | j h H1 H2 | j a H1 H2 | j p d x H1 H2 H3 H4
                  | i h Hp Hs Hx | i Hp Hs | i k g Hp Hs].
    + split; [reflexivity | intros Hc; by destruct Hc].
    + split; [reflexivity | intros Hc; by destruct Hc].
    + split; [reflexivity | intros Hc; by destruct Hc].
    + destruct (decide (cid = consentCounter s)) as [-> | Hne].
      * destruct (requested_consent e j p d x s) as (_ & _ & _ & Ht & _).
        split; [| intros _; exact Ht].
        destruct (requested_consent e j p d x s) as (_ & _ & Hst & _).
        rewrite Hst. unfold consents_at. rewrite (Hnone Hge). discriminate.
      * rewrite requested_consents_at by done. split; congruence.
    + rewrite consents_at_set_consent_ne; [split; congruence |].
      intros ->. unfold consents_at in Hs. rewrite (Hnone Hge) in Hs. discriminate.
    + rewrite consents_at_set_consent_ne; [split; congruence |].
      intros ->. unfold consents_at in Hs. rewrite (Hnone Hge) in Hs. discriminate.
    + rewrite consents_at_set_consent_ne; [split; congruence |].
      intros ->. unfold consents_at in Hs. rewrite (Hnone Hge) in Hs. discriminate.
Qed.

(** C7, as the contract has it. A consent has one [timestamp] field.
    [requestConsent] fills it with the block time of the request; a
    completed [grantConsent] or [revokeConsent] overwrites it with the
    block time of that call and leaves participant, study, document hash and
    deadline as they were. What the field held before does not survive:
    the storage after the call is the same whatever the field held. And
    nothing else writes the field: in every reachable storage, a
    transaction of any kind by any sender leaves the timestamp of every
    consent as it was when it leaves the stored status as it was, and sets
    it to the block time when it changes the stored status. *)
Theorem timestamp_is_last_action_time e cid h s :
  (∀ sid p d x r,
     requestConsent e sid p d x s = inr r →
     timestamp (consents_at (storage_of r) r.1.1) = block_timestamp e)
  ∧ (∀ r, grantConsent e cid h s = inr r →
     let c := consents_at s cid in
     let c' := consents_at (storage_of r) cid in
     timestamp c' = block_timestamp e
     ∧ participant c' = participant c ∧ studyId c' = studyId c
     ∧ ipfsConsentDocHash c' = ipfsConsentDocHash c
     ∧ expirationDate c' = expirationDate c
     ∧ ∀ t, ∃ r_t, grantConsent e cid h (stamped cid t s) = inr r_t
            ∧ storage_of r_t = storage_of r)
  ∧ (∀ r, revokeConsent e cid s = inr r →
     let c := consents_at s cid in
     let c' := consents_at (storage_of r) cid in
     timestamp c' = block_timestamp e
     ∧ participant c' = participant c ∧ studyId c' = studyId c
     ∧ ipfsConsentDocHash c' = ipfsConsentDocHash c
     ∧ expirationDate c' = expirationDate c
     ∧ ∀ t, ∃ r_t, revokeConsent e cid (stamped cid t s) = inr r_t
            ∧ storage_of r_t = storage_of r)
  ∧ (reachable keccak256 s →
     ∀ call,
       let c := consents_at s cid in
       let c' := consents_at (transact keccak256 e call s) cid in
       (status c' = status c → timestamp c' = timestamp c)
       ∧ (status c' ≠ status c → timestamp c' = block_timestamp e)).
Proof.
  split; [| split; [| split]].
  - intros sid p d x r Hr.
    apply requestConsent_inr in Hr as (_ & _ & _ & _ & ->).
    unfold storage_of; simpl. by destruct (requested_consent e sid p d x s) as (_ & _ & _ & ? & _).
  - intros r Hr. pose proof Hr as Hr'.
    apply grantConsent_inr in Hr as (Hp & Hs & Hx & ->).
    unfold storage_of; simpl. rewrite consents_at_set_consent_eq. simpl.
    repeat split; try reflexivity.
    intros t.
    destruct (grantConsent_ok e cid h (stamped cid t s)) as [r_t Ht];
      try (unfold stamped; rewrite consents_at_set_consent_eq; simpl; assumption).
    exists r_t. split; [exact Ht |].
    apply grantConsent_inr in Ht as (_ & _ & _ & ->). simpl.
    unfold stamped. rewrite consents_at_set_consent_eq. simpl.
    apply set_consent_set_consent.
  - intros r Hr.
    apply revokeConsent_inr in Hr as (Hp & Hs & ->).
    unfold storage_of; simpl. rewrite consents_at_set_consent_eq. simpl.
    repeat split; try reflexivity.
    intros t.
    destruct (revokeConsent_ok e cid (stamped cid t s)) as [r_t Ht];
      try (unfold stamped; rewrite consents_at_set_consent_eq; simpl; assumption).
    exists r_t. split; [exact Ht |].
    apply revokeConsent_inr in Ht as (_ & _ & ->). simpl.
    unfold stamped. rewrite consents_at_set_consent_eq. simpl.
    apply set_consent_set_consent.
  - intros Hreach call. by apply timestamp_follows_status.
Qed.

End Timestamps.

Lemma st_granted_reachable : reachable key_hash st_granted.
Proof.
  unfold st_granted, st_requested, st_study.
  repeat apply reachable_transact. apply reachable_deployed.
Qed.

(** C7 on the concrete history: the request was made at time 110, the
    grant at time 200, and the permission [bob] recorded at time 210 left
    the timestamp at 200. *)
Lemma timestamp_is_last_action_time_witness :
  timestamp (consents_at st_requested 0) = 110
  ∧ timestamp (consents_at st_granted 0) = 200
  ∧ timestamp (consents_at st_permitted 0) = 200.
Proof.
  destruct (timestamp_is_last_action_time key_hash (at_time alice 110) 0 "" st_study)
    as (Hreq & _).
  destruct (timestamp_is_last_action_time key_hash (at_time bob 200) 0 "cred"
              st_requested) as (_ & Hgr & _).
  destruct (timestamp_is_last_action_time key_hash (at_time bob 210) 0 "" st_granted)
    as (_ & _ & _ & Hframe).
  assert (timestamp (consents_at st_granted 0) = 200) as H200.
  { apply (Hgr (tt, st_granted, [ConsentGranted 0 bob 0])).
    vm_compute; reflexivity. }
  split; [| split; [exact H200 |]].
  - apply (Hreq 0 bob "doc" 1000 (0, st_requested, [ConsentRequested 0 bob 0])).
    vm_compute; reflexivity.
  - destruct (Hframe st_granted_reachable
                (UpdateSpecificPermission 0 "share_biometrics" true)) as [Hsame _].
    change (transact key_hash (at_time bob 210)
              (UpdateSpecificPermission 0 "share_biometrics" true) st_granted)
      with st_permitted in Hsame.
    rewrite Hsame; [exact H200 | vm_compute; reflexivity].
Defined.

(* --------------------------------------------------------------------- *)
(** ** The numbering of studies and consents                              *)
(* --------------------------------------------------------------------- *)

Lemma offsets_cons (base : N) n :
  (λ k, base + N.of_nat k) <$> seq 0 (S n)
  = base :: ((λ k, base + 1 + N.of_nat k) <$> seq 0 n).
Proof.
  cbn [seq fmap list_fmap]. f_equal; [lia |].
  rewrite <- fmap_S_seq, <- list_fmap_compose.
  apply list_fmap_ext. intros k x _. simpl. lia.
Qed.

Lemma offsets_NoDup (base : N) n :
  NoDup ((λ k, base + N.of_nat k) <$> seq 0 n).
Proof.
  apply NoDup_fmap_2_strong; [| apply NoDup_seq].
  intros x y _ _ H. lia.
Qed.

Section Numbering.
Context (keccak256 : string → N).

Lemma run_reachable h s :
  reachable keccak256 s → reachable keccak256 (run keccak256 h s).
Proof.
  revert s. induction h as [| [e c] h IH]; intros s Hs; simpl; [exact Hs |].
  apply IH. by constructor.
Qed.

(** Only a completed [createStudy] moves the study counter, by one, and it
    returns the value the counter had. *)
Lemma study_id_of_step e c s :
  match study_id_of e c s with
  | Some i =>
      i = studyCounter s
      ∧ studyCounter (transact keccak256 e c s) = studyCounter s + 1
  | None => studyCounter (transact keccak256 e c s) = studyCounter s
  end.
Proof.
  destruct c as [h t d | i h | i a | i p d x | i h | i | i k g]; cbn [study_id_of];
    try (unfold transact;
         destruct (execute keccak256 e _ s) as [err | s'] eqn:Hex;
         [reflexivity
         | apply call_effect_execute in Hex; inversion Hex; subst; reflexivity]).
  unfold transact, execute, createStudy.
  destruct (post_increment (studyCounter s)) as [err | n] eqn:Hn; simpl;
    [reflexivity |].
  apply post_increment_inr in Hn as [-> _]. simpl. split; reflexivity.
Qed.

(** Only a completed [requestConsent] moves the consent counter, by one,
    and it returns the value the counter had. *)
Lemma consent_id_of_step e c s :
  match consent_id_of e c s with
  | Some i =>
      i = consentCounter s
      ∧ consentCounter (transact keccak256 e c s) = consentCounter s + 1
  | None => consentCounter (transact keccak256 e c s) = consentCounter s
  end.
Proof.
  destruct c as [h t d | i h | i a | i p d x | i h | i | i k g]; cbn [consent_id_of];
    try (unfold transact;
         destruct (execute keccak256 e _ s) as [err | s'] eqn:Hex;
         [reflexivity
         | apply call_effect_execute in Hex; inversion Hex; subst; reflexivity]).
  unfold transact, execute.
  destruct (requestConsent e i p d x s) as [err | r] eqn:Hr; simpl; [reflexivity |].
  apply requestConsent_inr in Hr as (_ & _ & _ & _ & ->). simpl.
  split; reflexivity.
Qed.

Lemma study_ids_run h s :
  study_ids keccak256 h s
  = (λ k, studyCounter s + N.of_nat k)
      <$> seq 0 (length (study_ids keccak256 h s))
  ∧ studyCounter (run keccak256 h s)
    = studyCounter s + N.of_nat (length (study_ids keccak256 h s)).
Proof.
  revert s. induction h as [| [e c] h IH]; intros s.
  - simpl. split; [reflexivity | lia].
  - cbn [study_ids run]. pose proof (study_id_of_step e c s) as Hstep.
    destruct (IH (transact keccak256 e c s)) as [IH1 IH2].
    destruct (study_id_of e c s) as [i |];
      [change (option_list (Some i)) with [i]
      | change (option_list (@None uint256)) with (@nil uint256)];
      cbn [app length].
    + destruct Hstep as [-> Hc]. rewrite offsets_cons. split.
      * f_equal. rewrite <- Hc. exact IH1.
      * rewrite IH2, Hc. lia.
    + rewrite Hstep in IH1, IH2. split; [exact IH1 | exact IH2].
Qed.

Lemma consent_ids_run h s :
  consent_ids keccak256 h s
  = (λ k, consentCounter s + N.of_nat k)
      <$> seq 0 (length (consent_ids keccak256 h s))
  ∧ consentCounter (run keccak256 h s)
    = consentCounter s + N.of_nat (length (consent_ids keccak256 h s)).
Proof.
  revert s. induction h as [| [e c] h IH]; intros s.
  - simpl. split; [reflexivity | lia].
  - cbn [consent_ids run]. pose proof (consent_id_of_step e c s) as Hstep.
    destruct (IH (transact keccak256 e c s)) as [IH1 IH2].
    destruct (consent_id_of e c s) as [i |];
      [change (option_list (Some i)) with [i]
      | change (option_list (@None uint256)) with (@nil uint256)];
      cbn [app length].
    + destruct Hstep as [-> Hc]. rewrite offsets_cons. split.
      * f_equal. rewrite <- Hc. exact IH1.
      * rewrite IH2, Hc. lia.
    + rewrite Hstep in IH1, IH2. split; [exact IH1 | exact IH2].
Qed.

(** The index entry of a pair is the latest consent of the pair: no
    consent of the pair has a higher id. *)
Lemma reachable_index_latest s :
  reachable keccak256 s →
  ∀ cid, cid < consentCounter s →
    cid ≤ consentIndex_at s (studyId (consents_at s cid))
                            (participant (consents_at s cid)).
Proof.
  induction 1 as [| e c s Hs IH]; intros cid Hlt.
  - simpl in Hlt. lia.
  - destruct (transact_cases keccak256 e c s) as [Heq | H];
      [rewrite Heq in *; by apply IH |].
    destruct H as [h t d Hmax | j h H1 H2 | j a H1 H2 | j p d x H1 H2 H3 H4
                  | i h Hp Hst Hx | i Hp Hst | i k g Hp Hst].
    + by apply IH.
    + by apply IH.
    + by apply IH.
    + rewrite requested_consentCounter in Hlt.
      destruct (decide (cid = consentCounter s)) as [-> | Hne].
      * destruct (requested_consent e j p d x s) as (-> & -> & _).
        rewrite requested_consentIndex. lia.
      * rewrite requested_consents_at by done.
        rewrite requested_consentIndex_at. case_decide; [lia |].
        apply IH. lia.
    + rewrite consentIndex_at_set_consent, consents_at_set_consent.
      case_decide; [subst; simpl |]; by apply IH.
    + rewrite consentIndex_at_set_consent, consents_at_set_consent.
      case_decide; [subst; simpl |]; by apply IH.
    + rewrite consentIndex_at_set_consent, consents_at_set_consent.
      case_decide; [subst; simpl |]; by apply IH.
Qed.

(** C6, as the contract has it. The study counter starts at 0; a completed
    [createStudy] returns the study counter and a completed
    [requestConsent] the consent counter, each leaving the counter one
    higher, and no other transaction moves a counter. So over every
    history the ids handed out are consecutive, each one more than the one
    before, none is handed out twice, and from deployment the study ids are
    0, 1, 2 and so on. [requestConsent] files the new id under the pair in
    the index. In every storage the contract can reach, a nonzero index
    entry is the id of an existing consent of that study and participant,
    and an index entry of 0 means that no consent with a nonzero id is for
    that study and participant. *)
Theorem ids_count_up_from_zero h s :
  studyCounter deployed = 0
  ∧ (∀ e ipfs t d r,
       createStudy e ipfs t d s = inr r →
       r.1.1 = studyCounter s
       ∧ studyCounter (storage_of r) = studyCounter s + 1)
  ∧ (∀ e sid p d x r,
       requestConsent e sid p d x s = inr r →
       r.1.1 = consentCounter s
       ∧ consentCounter (storage_of r) = consentCounter s + 1
       ∧ consentIndex_at (storage_of r) sid p = r.1.1)
  ∧ (let ids := study_ids keccak256 h s in
     ids = (λ k, studyCounter s + N.of_nat k) <$> seq 0 (length ids)
     ∧ studyCounter (run keccak256 h s) = studyCounter s + N.of_nat (length ids)
     ∧ NoDup ids)
  ∧ (let ids := consent_ids keccak256 h s in
     ids = (λ k, consentCounter s + N.of_nat k) <$> seq 0 (length ids)
     ∧ consentCounter (run keccak256 h s) = consentCounter s + N.of_nat (length ids)
     ∧ NoDup ids)
  ∧ study_ids keccak256 h deployed
    = N.of_nat <$> seq 0 (N.to_nat (studyCounter (run keccak256 h deployed)))
  ∧ (reachable keccak256 s →
     ∀ sid p,
       (consentIndex_at s sid p ≠ 0 →
        consentIndex_at s sid p < consentCounter s
        ∧ participant (consents_at s (consentIndex_at s sid p)) = p
        ∧ studyId (consents_at s (consentIndex_at s sid p)) = sid)
       ∧ (consentIndex_at s sid p = 0 →
          ∀ cid, cid ≠ 0 → cid < consentCounter s →
            ¬ (participant (consents_at s cid) = p
               ∧ studyId (consents_at s cid) = sid))).
Proof.
  split; [reflexivity |]. split; [| split; [| split; [| split; [| split]]]].
  - intros e ipfs t d r. unfold createStudy.
    destruct (post_increment (studyCounter s)) as [err | n] eqn:Hn; [discriminate |].
    apply post_increment_inr in Hn as [-> _]. simpl. by intros [= <-].
  - intros e sid p d x r Hr.
    apply requestConsent_inr in Hr as (_ & _ & _ & _ & ->).
    unfold storage_of; cbn [fst snd].
    by rewrite requested_consentIndex, requested_consentCounter.
  - cbv zeta. destruct (study_ids_run h s) as [H1 H2].
    split; [exact H1 |]. split; [exact H2 |].
    rewrite H1. apply offsets_NoDup.
  - cbv zeta. destruct (consent_ids_run h s) as [H1 H2].
    split; [exact H1 |]. split; [exact H2 |].
    rewrite H1. apply offsets_NoDup.
  - destruct (study_ids_run h deployed) as [H1 H2].
    rewrite H2. change (studyCounter deployed) with 0 in H1 |- *.
    rewrite N.add_0_l, Nat2N.id. rewrite H1 at 1.
    apply list_fmap_ext. intros k x _. lia.
  - intros Hreach sid p.
    split; [exact (reachable_index_wf keccak256 s Hreach sid p) |].
    intros Hzero cid Hnz Hlt [Hp Hsid].
    pose proof (reachable_index_latest s Hreach cid Hlt) as Hle.
    rewrite Hp, Hsid, Hzero in Hle. lia.
Qed.

End Numbering.

(** C6 on the concrete history: the one study got the id 0 and the two
    requests got different ids; after the second request the index entry
    of the pair is 1, the id of [bob]'s second consent for study 0; and
    [carol], whose index entry for study 0 is 0, has no consent with a
    nonzero id. *)
Lemma ids_count_up_from_zero_witness :
  study_ids key_hash
    [(at_time alice 100, CreateStudy "meta" "Gait" "desc");
     (at_time alice 110, RequestConsent 0 bob "doc" 1000);
     (at_time alice 120, RequestConsent 0 bob "doc2" 1000)] deployed = [0]
  ∧ NoDup (consent_ids key_hash
      [(at_time alice 100, CreateStudy "meta" "Gait" "desc");
       (at_time alice 110, RequestConsent 0 bob "doc" 1000);
       (at_time alice 120, RequestConsent 0 bob "doc2" 1000)] deployed)
  ∧ consentIndex_at st_requested_twice 0 bob = 1
  ∧ participant (consents_at st_requested_twice 1) = bob
  ∧ studyId (consents_at st_requested_twice 1) = 0
  ∧ ¬ (participant (consents_at st_requested_twice 1) = carol
       ∧ studyId (consents_at st_requested_twice 1) = 0).
Proof.
  destruct (ids_count_up_from_zero key_hash
    [(at_time alice 100, CreateStudy "meta" "Gait" "desc");
     (at_time alice 110, RequestConsent 0 bob "doc" 1000);
     (at_time alice 120, RequestConsent 0 bob "doc2" 1000)] deployed)
    as (_ & _ & _ & _ & (_ & _ & Hnodup) & Hseq & _).
  destruct (ids_count_up_from_zero key_hash [] st_requested_twice)
    as (_ & _ & _ & _ & _ & _ & H).
  split; [rewrite Hseq; vm_compute; reflexivity |].
  split; [exact Hnodup |].
  destruct (H st_requested_twice_reachable 0 bob) as [Hnz _].
  destruct Hnz as (_ & Hp & Hs); [vm_compute; discriminate |].
  change (consentIndex_at st_requested_twice 0 bob) with 1 in Hp, Hs.
  split; [vm_compute; reflexivity |]. split; [exact Hp |]. split; [exact Hs |].
  destruct (H st_requested_twice_reachable 0 carol) as [_ Hz].
  apply Hz; [vm_compute; reflexivity | discriminate | vm_compute; reflexivity].
Defined.

End Ledger.

(* ===================================================================== *)
(** * Part IV: properties of the credential handler                      *)
(* ===================================================================== *)

Module Credentials.

Import CredentialHandler.

Lemma try_catch_false_returns body : ∃ b, try_catch_false body = Return b.
Proof. destruct body; simpl; eauto. Qed.

(** A property read that yields an object was made on an object. *)
Lemma get_object v k ps :
  get v k = Return (JSObject ps) →
  ∃ qs, v = JSObject qs ∧ obj_lookup qs k = Some (JSObject ps).
Proof.
  destruct v as [| | b | n | s | vs | qs]; simpl; try discriminate.
  intros [= H]. exists qs. split; [reflexivity |].
  destruct (obj_lookup qs k); simpl in H; congruence.
Qed.

Lemma get_string v k s :
  get v k = Return (JSString s) →
  ∃ qs, v = JSObject qs ∧ obj_lookup qs k = Some (JSString s).
Proof.
  destruct v as [| | b | n | s' | vs | qs]; simpl; try discriminate.
  intros [= H]. exists qs. split; [reflexivity |].
  destruct (obj_lookup qs k); simpl in H; congruence.
Qed.

Section Verification.
Context (rt : Runtime) (env : ProcessEnv).

(** The Ethereum branch, once the signer has been recovered. *)
Lemma _verifyEthereumSignature_recovered c ps proof recovered did issuerAddress :
  c = JSObject ps →
  obj_lookup ps "proof" = Some proof →
  verifyMessage rt (arrayify rt (messageHash rt (without_proof c)))
    (default JSUndefined (obj_lookup (own_properties proof) "jws"))
  = Return recovered →
  get c "issuer" = Return (JSString did) →
  startsWith did "did:ethr:" = true →
  split did !! 2%nat = Some issuerAddress →
  _verifyEthereumSignature rt c
  = Return (String.eqb (toLowerCase recovered) (toLowerCase issuerAddress)).
Proof.
  intros -> Hproof Hrec Hiss Hpre Hseg.
  unfold _verifyEthereumSignature. simpl own_properties. rewrite Hproof. simpl default.
  unfold without_proof in Hrec. simpl own_properties in Hrec. rewrite Hrec.
  simpl in Hiss. injection Hiss as Hiss. cbn [bind get]. rewrite Hiss, Hpre, Hseg.
  reflexivity.
Qed.

Lemma _verifyEthereumSignature_malformed c ps proof e :
  c = JSObject ps →
  obj_lookup ps "proof" = Some proof →
  verifyMessage rt (arrayify rt (messageHash rt (without_proof c)))
    (default JSUndefined (obj_lookup (own_properties proof) "jws"))
  = Throw e →
  _verifyEthereumSignature rt c = Return false.
Proof.
  intros -> Hproof Hrec.
  unfold _verifyEthereumSignature. simpl own_properties. rewrite Hproof. simpl default.
  unfold without_proof in Hrec. simpl own_properties in Hrec. rewrite Hrec. reflexivity.
Qed.

Lemma _verifyEthereumSignature_returns c :
  ∃ b, _verifyEthereumSignature rt c = Return b.
Proof. apply try_catch_false_returns. Qed.

(** Dispatch to the Ethereum branch. *)
Lemma verifyCredential_ecdsa c proof :
  get c "proof" = Return proof →
  get proof "type" = Return (JSString "EcdsaSecp256k1Signature2019") →
  verifyCredential rt env c = _verifyEthereumSignature rt c
  ∧ ∃ ps, c = JSObject ps ∧ obj_lookup ps "proof" = Some proof.
Proof.
  intros Hproof Htype.
  apply get_string in Htype as (qs & -> & Hq).
  pose proof Hproof as Hp. apply get_object in Hp as (ps & -> & Hps).
  split; [| eauto].
  unfold verifyCredential. rewrite Hproof. simpl bind. simpl truthy. simpl negb.
  cbv iota. simpl get. rewrite Hq. simpl.
  destruct (_verifyEthereumSignature_returns (JSObject ps)) as [b Hb].
  rewrite Hb. reflexivity.
Qed.

(** What [verifyCredential] makes of a credential that is not in order.
    It returns for every input and never throws. It returns [false] when
    the credential has no (truthy) [proof], when the proof's [type] is
    neither of the two known ones, and when [verifyMessage] rejects the
    signature. Once a signer is recovered, the result is the equality of
    the lower-cased signer with the lower-cased third colon-separated
    segment of a [did:ethr:] issuer. *)
Theorem verifyCredential_returns_false_on_bad_input c :
  (∃ b, verifyCredential rt env c = Return b)
  ∧ ((∀ proof, get c "proof" = Return proof → truthy proof = false) →
     verifyCredential rt env c = Return false)
  ∧ (∀ proof type,
       get c "proof" = Return proof →
       get proof "type" = Return type →
       is_string type "JwtProof2020" = false →
       is_string type "EcdsaSecp256k1Signature2019" = false →
       verifyCredential rt env c = Return false)
  ∧ (∀ proof,
       get c "proof" = Return proof →
       get proof "type" = Return (JSString "EcdsaSecp256k1Signature2019") →
       let signature := default JSUndefined (obj_lookup (own_properties proof) "jws") in
       let digest := arrayify rt (messageHash rt (without_proof c)) in
       (∀ e, verifyMessage rt digest signature = Throw e →
          verifyCredential rt env c = Return false)
       ∧ (∀ recovered did issuerAddress,
            verifyMessage rt digest signature = Return recovered →
            get c "issuer" = Return (JSString did) →
            startsWith did "did:ethr:" = true →
            split did !! 2%nat = Some issuerAddress →
            verifyCredential rt env c
            = Return (String.eqb (toLowerCase recovered) (toLowerCase issuerAddress))
            ∧ (toLowerCase recovered ≠ toLowerCase issuerAddress →
               verifyCredential rt env c = Return false))).
Proof.
  split; [apply try_catch_false_returns |].
  split; [| split].
  - intros Hno. unfold verifyCredential.
    destruct (get c "proof") as [proof | e] eqn:Hp; [| reflexivity].
    simpl bind. by rewrite (Hno proof eq_refl).
  - intros proof type Hp Ht Hjwt Hecdsa. unfold verifyCredential.
    rewrite Hp. simpl bind. destruct (truthy proof); [| reflexivity].
    simpl negb. cbv iota. rewrite Ht. simpl bind. by rewrite Hjwt, Hecdsa.
  - intros proof Hp Ht. cbv zeta.
    destruct (verifyCredential_ecdsa c proof Hp Ht) as (-> & ps & Hc & Hps).
    split.
    + intros e He. by eapply _verifyEthereumSignature_malformed.
    + intros recovered did issuerAddress Hrec Hiss Hpre Hseg.
      rewrite (_verifyEthereumSignature_recovered c ps proof recovered did
                 issuerAddress Hc Hps Hrec Hiss Hpre Hseg).
      split; [reflexivity |].
      intros Hne. apply String.eqb_neq in Hne. by rewrite Hne.
Qed.

End Verification.

(** On concrete credentials of the stand-in runtime: a credential whose
    declared issuer is another address than the signer's is rejected, one
    whose declared issuer is the signer's address in upper case is
    accepted, and a credential without proof, with a proof of unknown type
    or with an unparsable signature is rejected. *)
Lemma verifyCredential_returns_false_on_bad_input_witness :
  verifyCredential demo_runtime demo_env demo_credential_other = Return false
  ∧ verifyCredential demo_runtime demo_env demo_credential_upper = Return true
  ∧ verifyCredential demo_runtime demo_env (demo_with "proof" JSUndefined)
    = Return false
  ∧ verifyCredential demo_runtime demo_env
      (demo_with "proof" (JSObject [("type", JSString "Ed25519Signature2020")]))
    = Return false
  ∧ verifyCredential demo_runtime demo_env
      (demo_with "proof"
         (JSObject [("type", JSString "EcdsaSecp256k1Signature2019");
                    ("jws", JSString "0xgarbage")]))
    = Return false.
Proof.
  split; [| split; [| split; [| split]]].
  - destruct (verifyCredential_returns_false_on_bad_input demo_runtime demo_env
                demo_credential_other) as (_ & _ & _ & H).
    destruct (H (default JSUndefined
                   (obj_lookup (own_properties demo_credential_other) "proof")))
      as [_ H2]; [vm_compute; reflexivity | vm_compute; reflexivity |].
    destruct (H2 demo_address "did:ethr:0x2222222222222222222222222222222222222222"
                "0x2222222222222222222222222222222222222222") as [_ H3];
      [vm_compute; reflexivity | vm_compute; reflexivity | vm_compute; reflexivity
      | vm_compute; reflexivity |].
    apply H3. vm_compute. discriminate.
  - destruct (verifyCredential_returns_false_on_bad_input demo_runtime demo_env
                demo_credential_upper) as (_ & _ & _ & H).
    destruct (H (default JSUndefined
                   (obj_lookup (own_properties demo_credential_upper) "proof")))
      as [_ H2]; [vm_compute; reflexivity | vm_compute; reflexivity |].
    destruct (H2 demo_address "did:ethr:0xABCDEF0123456789ABCDEF0123456789ABCDEF01"
                "0xABCDEF0123456789ABCDEF0123456789ABCDEF01") as [H3 _];
      [vm_compute; reflexivity | vm_compute; reflexivity | vm_compute; reflexivity
      | vm_compute; reflexivity |].
    rewrite H3. vm_compute. reflexivity.
  - apply (verifyCredential_returns_false_on_bad_input demo_runtime demo_env
             (demo_with "proof" JSUndefined)).
    intros proof. vm_compute. by intros [= <-].
  - destruct (verifyCredential_returns_false_on_bad_input demo_runtime demo_env
                (demo_with "proof" (JSObject [("type", JSString "Ed25519Signature2020")])))
      as (_ & _ & H & _).
    apply (H (JSObject [("type", JSString "Ed25519Signature2020")])
             (JSString "Ed25519Signature2020")); vm_compute; reflexivity.
  - destruct (verifyCredential_returns_false_on_bad_input demo_runtime demo_env
                (demo_with "proof"
                   (JSObject [("type", JSString "EcdsaSecp256k1Signature2019");
                              ("jws", JSString "0xgarbage")])))
      as (_ & _ & _ & H).
    destruct (H (JSObject [("type", JSString "EcdsaSecp256k1Signature2019");
                           ("jws", JSString "0xgarbage")])) as [H1 _];
      [vm_compute; reflexivity | vm_compute; reflexivity |].
    apply (H1 (Error "invalid signature")). vm_compute. reflexivity.
Defined.

(** ** Issuance followed by verification *)

Lemma split_did_ethr x :
  split ("did:ethr:" +:+ x) = "did" :: "ethr" :: split x.
Proof. unfold split. lazy. reflexivity. Qed.

Lemma one_byte_altered_neq s s' : one_byte_altered s s' = true → s ≠ s'.
Proof.
  revert s'. induction s as [| c s IH]; intros [| c' s']; simpl; try discriminate.
  destruct (Ascii.eqb c c') eqn:Hc.
  - intros H [= _ Hs]. by apply (IH s').
  - intros _ [= Hcc _]. apply Ascii.eqb_neq in Hc. contradiction.
Qed.

Section RoundTrip.
Context (rt : Runtime).

(** The signature scheme is correct: the signer recovered from a
    signature over the message it was made for is the signing wallet. *)
Hypothesis sign_then_recover : ∀ w m,
  verifyMessage rt m (JSString (signMessage rt w m)) = Return (address rt w).

(** The shape of an issued credential: seven properties in the order of
    the object literal, then the proof whose [jws] is the signature over
    the hash of the serialized seven. *)
Lemma createConsentCredential_returns this w f participantAddress a
    consentId studyId claims :
  wallet rt this = Some w →
  getAddress rt participantAddress = Return a →
  ∃ context id type expirationDate subject verificationMethod,
    let base :=
      [("@context", context); ("id", id); ("type", type);
       ("issuer", issuer_value rt this);
       ("issuanceDate", JSString (timestamp f));
       ("expirationDate", expirationDate);
       ("credentialSubject", subject)] in
    createConsentCredential rt this f participantAddress consentId studyId
      (JSObject claims)
    = Return (JSObject (base ++ [
        ("proof", JSObject [
           ("type", JSString "EcdsaSecp256k1Signature2019");
           ("created", JSString (created f));
           ("proofPurpose", JSString "assertionMethod");
           ("verificationMethod", verificationMethod);
           ("jws", JSString (signMessage rt w
                      (arrayify rt (messageHash rt (JSObject base)))))])])).
Proof.
  intros Hw Ha. unfold createConsentCredential, _createProof.
  rewrite Hw, Ha. cbn [bind get]. do 6 eexists. cbv zeta. reflexivity.
Qed.

(** Verification of an object of that shape, by what [verifyMessage]
    makes of its [jws]. *)
Lemma verifyCredential_shaped env v1 v2 v3 did v5 v6 v7 p2 p4 sig :
  let base :=
    [("@context", v1); ("id", v2); ("type", v3); ("issuer", JSString did);
     ("issuanceDate", v5); ("expirationDate", v6); ("credentialSubject", v7)] in
  let c := JSObject (base ++ [
    ("proof", JSObject [
       ("type", JSString "EcdsaSecp256k1Signature2019"); ("created", p2);
       ("proofPurpose", JSString "assertionMethod");
       ("verificationMethod", p4); ("jws", sig)])]) in
  let digest := arrayify rt (messageHash rt (JSObject base)) in
  ∀ issuerAddress,
    startsWith did "did:ethr:" = true →
    split did !! 2%nat = Some issuerAddress →
    verifyCredential rt env c
    = match verifyMessage rt digest sig with
      | Return recovered =>
          Return (String.eqb (toLowerCase recovered) (toLowerCase issuerAddress))
      | Throw _ => Return false
      end.
Proof.
  cbv zeta. intros issuerAddress Hpre Hseg.
  match goal with |- verifyCredential rt env ?c = _ => set (cred := c) end.
  match type of cred with _ =>
    destruct (verifyCredential_ecdsa rt env cred
      (JSObject [("type", JSString "EcdsaSecp256k1Signature2019"); ("created", p2);
                 ("proofPurpose", JSString "assertionMethod");
                 ("verificationMethod", p4); ("jws", sig)]))
      as (-> & ps & Hc & Hps); [reflexivity | reflexivity |]
  end.
  destruct (verifyMessage rt _ sig) as [recovered | e] eqn:Hrec.
  - eapply _verifyEthereumSignature_recovered; eauto.
  - eapply _verifyEthereumSignature_malformed; eauto.
Qed.

(** Issuance followed by verification, for an issuer identity that
    [_verifyEthereumSignature] reads as the wallet's. *)
Lemma issued_credential_verifies this w did f participantAddress a
    consentId studyId claims :
  wallet rt this = Some w →
  issuerDid rt this = Some did →
  names_wallet rt did w →
  getAddress rt participantAddress = Return a →
  ∃ credential,
    createConsentCredential rt this f participantAddress consentId studyId
      (JSObject claims) = Return credential
    ∧ get credential "issuer" = Return (JSString did)
    ∧ ∀ env, verifyCredential rt env credential = Return true.
Proof.
  intros Hw Hdid (Hpre & issuerAddress & Hseg & Haddr) Ha.
  destruct (createConsentCredential_returns this w f participantAddress a
              consentId studyId claims Hw Ha)
    as (v1 & v2 & v3 & v6 & v7 & p4 & Hc).
  cbv zeta in Hc. unfold issuer_value in Hc. rewrite Hdid in Hc.
  eexists. split; [exact Hc |]. split; [reflexivity |].
  intros env.
  rewrite (verifyCredential_shaped env v1 v2 v3 did _ v6 v7 _ p4 _
             issuerAddress Hpre Hseg).
  rewrite sign_then_recover, Haddr. by rewrite String.eqb_refl.
Qed.

(** The identity [did:ethr:<address>] names the wallet with that address,
    in whatever letter case the address is written. *)
Lemma plain_identity_names_wallet issuerAddress w :
  split issuerAddress = [issuerAddress] →
  toLowerCase issuerAddress = toLowerCase (address rt w) →
  names_wallet rt ("did:ethr:" +:+ issuerAddress) w.
Proof.
  intros Hcolon Haddr. split; [by destruct issuerAddress |].
  exists issuerAddress. split; [| exact Haddr].
  by rewrite split_did_ethr, Hcolon.
Qed.

(** C1, as the handler has it. Let the handler hold a wallet and the
    issuer identity [did:ethr:<address>], where [<address>] is the wallet's
    address in any letter case (the identity [init] takes when [ISSUER_DID]
    is not set), and let the participant address be one [getAddress]
    accepts. Then [createConsentCredential] returns a credential for every
    consent id, study id and map of extension claims, and [verifyCredential]
    returns [true] on it; this needs no more than that the signer recovered
    from a fresh signature is the signing wallet. With a collision-free
    hash and signatures that recover a given signer for one message only,
    [verifyCredential] returns [false] on every credential that carries the
    same proof and other claims ([credentialSubject]), whenever the
    serialization that is hashed is not the one that was signed, be the
    difference a single byte or more. *)
Theorem issued_credential_verifies_and_detects_tampering
    this w issuerAddress f participantAddress a consentId studyId claims :
  wallet rt this = Some w →
  issuerDid rt this = Some ("did:ethr:" +:+ issuerAddress) →
  split issuerAddress = [issuerAddress] →
  toLowerCase issuerAddress = toLowerCase (address rt w) →
  getAddress rt participantAddress = Return a →
  ∃ credential,
    createConsentCredential rt this f participantAddress consentId studyId
      (JSObject claims) = Return credential
    ∧ (∀ env, verifyCredential rt env credential = Return true)
    ∧ ((∀ s s', arrayify rt (keccak256 rt (toUtf8Bytes rt s))
                = arrayify rt (keccak256 rt (toUtf8Bytes rt s')) → s = s') →
       (∀ m m' sig x x',
          verifyMessage rt m sig = Return x →
          verifyMessage rt m' sig = Return x' →
          toLowerCase x = toLowerCase x' → m = m') →
       ∀ env subject,
         let tampered :=
           JSObject (obj_set (own_properties credential) "credentialSubject" subject) in
         JSON_stringify rt (without_proof tampered)
         ≠ JSON_stringify rt (without_proof credential) →
         verifyCredential rt env tampered = Return false).
Proof.
  intros Hw Hdid Hcolon Haddr0 Ha.
  destruct (plain_identity_names_wallet issuerAddress w Hcolon Haddr0)
    as (Hpre & seg & Hseg & Haddr).
  set (did := "did:ethr:" +:+ issuerAddress) in *.
  destruct (createConsentCredential_returns this w f participantAddress a
              consentId studyId claims Hw Ha)
    as (v1 & v2 & v3 & v6 & v7 & p4 & Hc).
  cbv zeta in Hc. unfold issuer_value in Hc. rewrite Hdid in Hc.
  eexists. split; [exact Hc |]. split.
  - intros env.
    rewrite (verifyCredential_shaped env v1 v2 v3 did _ v6 v7 _ p4 _
               seg Hpre Hseg).
    rewrite sign_then_recover, Haddr. by rewrite String.eqb_refl.
  - intros hash_collision_free signature_binds_message env subject. cbv zeta.
    change (own_properties (JSObject ?ps)) with ps.
    match goal with
    | |- context [obj_set ?ps "credentialSubject" subject] =>
        change (obj_set ps "credentialSubject" subject)
          with ([("@context", v1); ("id", v2); ("type", v3); ("issuer", JSString did);
                 ("issuanceDate", JSString (timestamp f)); ("expirationDate", v6);
                 ("credentialSubject", subject)] ++
                [("proof", JSObject [
                    ("type", JSString "EcdsaSecp256k1Signature2019");
                    ("created", JSString (created f));
                    ("proofPurpose", JSString "assertionMethod");
                    ("verificationMethod", p4);
                    ("jws", JSString (signMessage rt w
                       (arrayify rt (messageHash rt (JSObject
                          [("@context", v1); ("id", v2); ("type", v3);
                           ("issuer", JSString did);
                           ("issuanceDate", JSString (timestamp f));
                           ("expirationDate", v6);
                           ("credentialSubject", v7)])))))])])
    end.
    intros Halt.
    rewrite (verifyCredential_shaped env v1 v2 v3 did _ v6 subject _ p4 _
               seg Hpre Hseg).
    match goal with
    | |- match verifyMessage rt ?m ?sg with _ => _ end = _ =>
        destruct (verifyMessage rt m sg) as [recovered | e] eqn:Hrec; [| reflexivity]
    end.
    destruct (String.eqb (toLowerCase recovered) (toLowerCase seg)) eqn:Heq;
      [| reflexivity].
    exfalso. apply Halt. apply String.eqb_eq in Heq.
    apply hash_collision_free.
    refine (signature_binds_message _ _ _ _ _ Hrec (sign_then_recover w _) _).
    by rewrite Heq, Haddr.
Qed.

(** The default configuration yields such a handler, provided addresses
    contain no colon. *)
Lemma init_names_wallet env key w :
  (∀ w, split (address rt w) = [address rt w]) →
  ISSUER_PRIVATE_KEY env = Some key →
  key ≠ "" →
  new_Wallet rt key = Return w →
  truthy (env_value (ISSUER_DID env)) = false →
  wallet rt (init rt env) = Some w
  ∧ issuerDid rt (init rt env) = Some ("did:ethr:" +:+ address rt w)
  ∧ names_wallet rt ("did:ethr:" +:+ address rt w) w.
Proof.
  intros Hcolon Hkey Hne Hnew Hdid. unfold init. rewrite Hkey.
  assert (truthy (JSString key) = true) as ->.
  { simpl. apply String.eqb_neq in Hne. by rewrite Hne. }
  rewrite Hnew, Hdid. cbn [wallet issuerDid].
  split; [reflexivity |]. split; [reflexivity |].
  split; [by destruct (address rt w) |].
  exists (address rt w). split; [| reflexivity].
  by rewrite split_did_ethr, Hcolon.
Qed.

End RoundTrip.

(** The stand-in runtime meets the three assumptions. *)
Lemma demo_sign_then_recover (w : Wallet demo_runtime) m :
  verifyMessage demo_runtime m (JSString (signMessage demo_runtime w m))
  = Return (address demo_runtime w).
Proof. simpl. unfold demo_verifyMessage. by rewrite String.eqb_refl. Qed.

Lemma demo_hash_collision_free s s' :
  arrayify demo_runtime (keccak256 demo_runtime (toUtf8Bytes demo_runtime s))
  = arrayify demo_runtime (keccak256 demo_runtime (toUtf8Bytes demo_runtime s')) →
  s = s'.
Proof. simpl. auto. Qed.

Lemma demo_signature_binds_message m m' sig a a' :
  verifyMessage demo_runtime m sig = Return a →
  verifyMessage demo_runtime m' sig = Return a' →
  toLowerCase a = toLowerCase a' → m = m'.
Proof.
  simpl. unfold demo_verifyMessage. destruct sig as [| | b | n | s | vs | ps];
    try discriminate.
  destruct (String.eqb s ("sig:" +:+ m)) eqn:E; [| discriminate].
  destruct (String.eqb s ("sig:" +:+ m')) eqn:E'; [| discriminate].
  intros _ _ _. apply String.eqb_eq in E, E'. subst s.
  lazy [String.append] in E'. by injection E'.
Qed.

(** C1 on the stand-in runtime: the credential issued for consent 1
    verifies, and the same credential with [consentId] altered to 2, one
    byte of the serialization, under the original proof does not. *)
Lemma issued_credential_verifies_and_detects_tampering_witness :
  verifyCredential demo_runtime demo_env demo_credential = Return true
  ∧ one_byte_altered
      (JSON_stringify demo_runtime (without_proof demo_credential))
      (JSON_stringify demo_runtime
         (without_proof (demo_with "credentialSubject" demo_altered_subject)))
    = true
  ∧ verifyCredential demo_runtime demo_env
      (demo_with "credentialSubject" demo_altered_subject) = Return false.
Proof.
  destruct (issued_credential_verifies_and_detects_tampering demo_runtime
              demo_sign_then_recover
              demo_handler tt demo_address demo_fresh
              demo_participant demo_participant 1%Z 0%Z
              [("purpose", JSString "gait")])
    as (credential & Hc & Hverifies & Hdetects).
  - reflexivity.
  - reflexivity.
  - vm_compute; reflexivity.
  - vm_compute; reflexivity.
  - vm_compute; reflexivity.
  - assert (credential = demo_credential) as ->.
    { unfold demo_credential. by rewrite Hc. }
    assert (one_byte_altered
              (JSON_stringify demo_runtime (without_proof demo_credential))
              (JSON_stringify demo_runtime
                 (without_proof (demo_with "credentialSubject" demo_altered_subject)))
            = true) as Halt by (vm_compute; reflexivity).
    split; [apply Hverifies |]. split; [exact Halt |].
    apply (Hdetects demo_hash_collision_free demo_signature_binds_message
             demo_env demo_altered_subject).
    intros Heq. apply one_byte_altered_neq in Halt. apply Halt. symmetry. exact Heq.
Defined.

(* --------------------------------------------------------------------- *)
(** ** Objects                                                            *)
(* --------------------------------------------------------------------- *)

Lemma obj_lookup_obj_update ps k v k' :
  obj_lookup (obj_update ps k v) k'
  = if String.eqb k k'
    then match obj_lookup ps k with Some _ => Some v | None => None end
    else obj_lookup ps k'.
Proof.
  induction ps as [| [k0 v0] ps IH]; simpl.
  - by destruct (String.eqb k k').
  - destruct (String.eqb k0 k) eqn:E0; simpl.
    + apply String.eqb_eq in E0. subst k0.
      by destruct (String.eqb k k').
    + rewrite IH. destruct (String.eqb k0 k') eqn:E1; [| done].
      apply String.eqb_eq in E1. subst k0.
      rewrite String.eqb_sym in E0. by rewrite E0.
Qed.

Lemma obj_lookup_obj_create ps k v k' :
  obj_lookup ps k = None →
  obj_lookup (obj_create ps k v) k'
  = if String.eqb k k' then Some v else obj_lookup ps k'.
Proof.
  induction ps as [| [k0 v0] ps IH]; simpl; [done |].
  destruct (String.eqb k0 k) eqn:E0; [discriminate |]. intros Hnone.
  assert (obj_lookup ((k0, v0) :: obj_create ps k v) k'
          = if String.eqb k k' then Some v else obj_lookup ((k0, v0) :: ps) k') as Hrec.
  { simpl. rewrite IH by done. destruct (String.eqb k0 k') eqn:E1; [| done].
    apply String.eqb_eq in E1. subst k0. rewrite String.eqb_sym in E0. by rewrite E0. }
  simpl in Hrec.
  destruct (array_index k) as [i |]; [| exact Hrec].
  destruct (array_index k0) as [i0 |]; [| done].
  destruct (i <? i0)%N; [done | exact Hrec].
Qed.

Lemma obj_lookup_obj_set ps k v k' :
  obj_lookup (obj_set ps k v) k'
  = if String.eqb k k' then Some v else obj_lookup ps k'.
Proof.
  unfold obj_set. destruct (obj_lookup ps k) eqn:E.
  - rewrite obj_lookup_obj_update. by rewrite E.
  - by apply obj_lookup_obj_create.
Qed.

Lemma obj_lookup_obj_delete ps k k' :
  obj_lookup (obj_delete ps k) k'
  = if String.eqb k k' then None else obj_lookup ps k'.
Proof.
  induction ps as [| [k0 v0] ps IH]; simpl.
  - by destruct (String.eqb k k').
  - destruct (String.eqb k0 k) eqn:E0; simpl.
    + apply String.eqb_eq in E0. subst k0. rewrite IH.
      by destruct (String.eqb k k').
    + rewrite IH. destruct (String.eqb k0 k') eqn:E1; [| done].
      apply String.eqb_eq in E1. subst k0. rewrite String.eqb_sym in E0.
      by rewrite E0.
Qed.

Lemma obj_lookup_not_in ps k :
  k ∉ ps.*1 → obj_lookup ps k = None.
Proof.
  induction ps as [| [k0 v0] ps IH]; simpl; [done |].
  intros Hnot. apply not_elem_of_cons in Hnot as [Hne Hnot].
  destruct (String.eqb k0 k) eqn:E; [| by apply IH].
  apply String.eqb_eq in E. congruence.
Qed.

(** Spreading an object whose keys are distinct: its values win, and the
    other properties stay. *)
Lemma obj_lookup_spread ps qs k :
  NoDup qs.*1 →
  obj_lookup (fold_left (fun ps kv => obj_set ps kv.1 kv.2) qs ps) k
  = match obj_lookup qs k with
    | Some v => Some v
    | None => obj_lookup ps k
    end.
Proof.
  revert ps. induction qs as [| [k0 v0] qs IH]; intros ps Hnd; simpl; [done |].
  apply NoDup_cons in Hnd as [Hnot Hnd]. rewrite IH by done. simpl.
  rewrite obj_lookup_obj_set.
  destruct (String.eqb k0 k) eqn:E; [| done].
  apply String.eqb_eq in E. subst k0. by rewrite obj_lookup_not_in.
Qed.

(* --------------------------------------------------------------------- *)
(** ** Issuance: failures and the claims                                  *)
(* --------------------------------------------------------------------- *)

Section Issuance.
Context (rt : Runtime).

(** X18. A handler whose environment lacks [ISSUER_PRIVATE_KEY], has it
    empty, or has a key the wallet constructor rejects is left without
    wallet by [init], and [createConsentCredential] then throws
    "Credential issuer not initialized" for every input. With a wallet,
    [createConsentCredential] throws what [getAddress] throws on the
    participant address, throws a [TypeError] for [null] extension claims,
    and returns a credential in every other case. *)
Theorem createConsentCredential_outcome env f participantAddress consentId
    studyId additionalData :
  let this := init rt env in
  ((ISSUER_PRIVATE_KEY env = None ∨ ISSUER_PRIVATE_KEY env = Some ""
    ∨ ∃ key e, ISSUER_PRIVATE_KEY env = Some key ∧ new_Wallet rt key = Throw e) →
   createConsentCredential rt this f participantAddress consentId studyId
     additionalData
   = Throw (Error "Credential issuer not initialized"))
  ∧ (∀ key w, ISSUER_PRIVATE_KEY env = Some key → key ≠ "" →
       new_Wallet rt key = Return w →
       (∀ e, getAddress rt participantAddress = Throw e →
          createConsentCredential rt this f participantAddress consentId studyId
            additionalData = Throw e)
       ∧ (∀ a, getAddress rt participantAddress = Return a →
            (additionalData = JSNull →
             createConsentCredential rt this f participantAddress consentId
               studyId additionalData = Throw TypeError)
            ∧ (additionalData ≠ JSNull →
               ∃ credential,
                 createConsentCredential rt this f participantAddress consentId
                   studyId additionalData = Return credential))).
Proof.
  cbv zeta. split.
  - intros Hno.
    assert (wallet rt (init rt env) = None) as Hw.
    { unfold init. destruct Hno as [-> | [-> | (key & e & -> & Hthrow)]];
        [done | done |].
      destruct (truthy (JSString key)); [by rewrite Hthrow | done]. }
    unfold createConsentCredential. rewrite Hw. by destruct additionalData.
  - intros key w Hkey Hne Hnew.
    assert (wallet rt (init rt env) = Some w) as Hw.
    { unfold init. rewrite Hkey. simpl. apply String.eqb_neq in Hne.
      by rewrite Hne, Hnew. }
    split.
    + intros e He. unfold createConsentCredential. rewrite Hw, He.
      by destruct additionalData.
    + intros a Ha. split.
      * intros ->. unfold createConsentCredential. by rewrite Hw, Ha.
      * intros Hnn. unfold createConsentCredential, _createProof.
        rewrite Hw, Ha. cbn [bind].
        destruct additionalData; try done; cbn [get bind]; eauto.
Qed.

(** X19. In an issued credential the extension claims win over the claims
    the handler writes itself: for a claims map with distinct keys, every
    claim is found in [credentialSubject] with the caller's value, also
    under the names [id], [type], [consentId], [studyId] and [grantedAt],
    and a name the map does not use has the handler's value. The top-level
    [issuer] is the handler's identity whatever the claims, and the
    top-level [expirationDate] is the claim of that name when it is
    truthy and [undefined] otherwise. *)
Theorem extension_claims_override_builtin this w f participantAddress a
    consentId studyId claims :
  wallet rt this = Some w →
  getAddress rt participantAddress = Return a →
  NoDup claims.*1 →
  ∃ credential subject,
    createConsentCredential rt this f participantAddress consentId studyId
      (JSObject claims) = Return credential
    ∧ get credential "credentialSubject" = Return (JSObject subject)
    ∧ (∀ k, obj_lookup subject k
            = match obj_lookup claims k with
              | Some v => Some v
              | None => obj_lookup (builtin_claims rt a consentId studyId (timestamp f)) k
              end)
    ∧ get credential "issuer" = Return (issuer_value rt this)
    ∧ get credential "expirationDate"
      = Return (let x := default JSUndefined (obj_lookup claims "expirationDate") in
                if truthy x then x else JSUndefined).
Proof.
  intros Hw Ha Hnd. unfold createConsentCredential, _createProof.
  rewrite Hw, Ha. cbn [bind get]. do 2 eexists.
  split; [reflexivity |]. split; [reflexivity |]. split; [| split; reflexivity].
  intros k. unfold spread_into. cbn [own_properties].
  by rewrite obj_lookup_spread.
Qed.

End Issuance.

(** X18 on the stand-in runtime: without a key nothing is issued, and with
    the key a participant address that is not an address is refused. *)
Lemma createConsentCredential_outcome_witness :
  createConsentCredential demo_runtime
    (init demo_runtime (mkProcessEnv None None None)) demo_fresh
    demo_participant 1 0 (JSObject [])
  = Throw (Error "Credential issuer not initialized")
  ∧ createConsentCredential demo_runtime demo_handler demo_fresh
      "bob" 1 0 (JSObject [])
    = Throw (Error "invalid address").
Proof.
  split.
  - apply (createConsentCredential_outcome demo_runtime (mkProcessEnv None None None)).
    by left.
  - destruct (createConsentCredential_outcome demo_runtime demo_env demo_fresh
                "bob" 1%Z 0%Z (JSObject [])) as [_ H].
    destruct (H "issuer-key" tt) as [H1 _]; [reflexivity | discriminate | reflexivity |].
    apply H1. reflexivity.
Defined.

(** X19 on the stand-in runtime: issued for consent 1 with the extension
    claim [consentId: "99"], the credential says 99, and it verifies. *)
Lemma extension_claims_override_builtin_witness :
  (∃ subject,
     get demo_credential_overridden "credentialSubject" = Return (JSObject subject)
     ∧ obj_lookup subject "consentId" = Some (JSString "99")
     ∧ obj_lookup subject "studyId" = Some (JSString "0"))
  ∧ verifyCredential demo_runtime demo_env demo_credential_overridden = Return true.
Proof.
  destruct (extension_claims_override_builtin demo_runtime demo_handler tt demo_fresh
              demo_participant demo_participant 1%Z 0%Z
              [("consentId", JSString "99"); ("purpose", JSString "gait")])
    as (credential & subject & Hc & Hsub & Hclaims & _).
  - reflexivity.
  - vm_compute; reflexivity.
  - apply (bool_decide_unpack _). vm_compute. reflexivity.
  - assert (credential = demo_credential_overridden) as ->.
    { unfold demo_credential_overridden. by rewrite Hc. }
    split; [| vm_compute; reflexivity].
    exists subject. split; [exact Hsub |].
    split; rewrite Hclaims; vm_compute; reflexivity.
Defined.

(* --------------------------------------------------------------------- *)
(** ** Verification: what is checked and what is not                      *)
(* --------------------------------------------------------------------- *)

Lemma split_network network rest :
  split network = [network] →
  split (network +:+ ":" +:+ rest) = network :: split rest.
Proof.
  unfold split. induction network as [| ch n IH].
  - intros _. change ("" +:+ ":" +:+ rest) with (String ":" rest). reflexivity.
  - change (String ch n +:+ ":" +:+ rest) with (String ch (n +:+ ":" +:+ rest)).
    cbn [split_colon]. destruct (Ascii.eqb ch ":"); cbn [fst snd]; [discriminate |].
    intros [= H1 H2].
    assert ((split_colon n).1 :: (split_colon n).2 = [n]) as Hn by congruence.
    specialize (IH Hn). injection IH as IH1 IH2. by rewrite IH1, IH2.
Qed.

Section Checks.
Context (rt : Runtime) (env : ProcessEnv).

Lemma verifyCredential_jwt c proof :
  get c "proof" = Return proof →
  get proof "type" = Return (JSString "JwtProof2020") →
  verifyCredential rt env c
  = try_catch_false (
      let* decoded :=
        jwt_verify rt (default JSUndefined (obj_lookup (own_properties proof) "jwt"))
          (env_value (JWT_SECRET env)) in
      let* iss := get decoded "iss" in
      let* issuer := get c "issuer" in
      Return (strict_equals_fresh iss issuer)).
Proof.
  intros Hproof Htype.
  apply get_string in Htype as (qs & -> & Hq).
  unfold verifyCredential, _verifyJwtProof. rewrite Hproof. cbn [bind truthy negb].
  cbn [get]. rewrite Hq. cbn [default bind is_string].
  change (is_string (id (JSString "JwtProof2020")) "JwtProof2020") with true.
  cbv iota. cbn [own_properties].
  match goal with
  | |- try_catch_false (try_catch_false ?b) = _ => by destruct b
  end.
Qed.

(** X20. For a credential whose proof has type [JwtProof2020],
    [verifyCredential] looks at the token in [proof.jwt] and at the declared
    issuer, and at nothing else of the credential: it returns [false] when
    [jwt.verify] rejects the token under [JWT_SECRET], and otherwise the
    strict equality of the token's [iss] with the credential's [issuer].
    Two credentials with the same proof and the same issuer get the same
    answer, whatever their claims; and with an [iss]-less token and an
    issuer-less credential the answer is [true]. *)
Theorem jwt_branch_checks_issuer_only c proof :
  get c "proof" = Return proof →
  get proof "type" = Return (JSString "JwtProof2020") →
  let token := default JSUndefined (obj_lookup (own_properties proof) "jwt") in
  let secret := env_value (JWT_SECRET env) in
  (∀ e, jwt_verify rt token secret = Throw e →
        verifyCredential rt env c = Return false)
  ∧ (∀ decoded iss issuer,
       jwt_verify rt token secret = Return decoded →
       get decoded "iss" = Return iss →
       get c "issuer" = Return issuer →
       verifyCredential rt env c = Return (strict_equals_fresh iss issuer))
  ∧ (∀ decoded,
       jwt_verify rt token secret = Return decoded →
       get decoded "iss" = Return JSUndefined →
       get c "issuer" = Return JSUndefined →
       verifyCredential rt env c = Return true)
  ∧ (∀ c', get c' "proof" = Return proof →
           get c' "issuer" = get c "issuer" →
           verifyCredential rt env c' = verifyCredential rt env c).
Proof.
  intros Hproof Htype. cbv zeta.
  rewrite (verifyCredential_jwt c proof Hproof Htype).
  split; [| split; [| split]].
  - intros e He. by rewrite He.
  - intros decoded iss issuer Hd Hi Hc. rewrite Hd. cbn [bind]. rewrite Hi.
    cbn [bind]. by rewrite Hc.
  - intros decoded Hd Hi Hc. rewrite Hd. cbn [bind]. rewrite Hi.
    cbn [bind]. by rewrite Hc.
  - intros c' Hproof' Hissuer.
    rewrite (verifyCredential_jwt c' proof Hproof' Htype). by rewrite Hissuer.
Qed.

(** X21. For a credential whose proof has type
    [EcdsaSecp256k1Signature2019], [verifyCredential] depends on the
    credential without its proof and on [proof.jws] only: two credentials
    that agree on these get the same answer, so [created], [proofPurpose]
    and [verificationMethod] of the proof are not checked. *)
Theorem ecdsa_branch_ignores_proof_metadata ps ps' proof proof' :
  obj_lookup ps "proof" = Some proof →
  obj_lookup ps' "proof" = Some proof' →
  get proof "type" = Return (JSString "EcdsaSecp256k1Signature2019") →
  get proof' "type" = Return (JSString "EcdsaSecp256k1Signature2019") →
  obj_lookup (own_properties proof) "jws" = obj_lookup (own_properties proof') "jws" →
  obj_delete ps "proof" = obj_delete ps' "proof" →
  verifyCredential rt env (JSObject ps') = verifyCredential rt env (JSObject ps).
Proof.
  intros Hp Hp' Ht Ht' Hjws Hrest.
  destruct (verifyCredential_ecdsa rt env (JSObject ps) proof) as [-> _];
    [by simpl; rewrite Hp | done |].
  destruct (verifyCredential_ecdsa rt env (JSObject ps') proof') as [-> _];
    [by simpl; rewrite Hp' | done |].
  apply get_string in Ht as (qs & -> & _).
  apply get_string in Ht' as (qs' & -> & _).
  cbn [own_properties] in Hjws.
  unfold _verifyEthereumSignature. cbn [own_properties get].
  rewrite Hp, Hp'. cbn [default id own_properties]. rewrite Hjws, Hrest.
  assert (obj_lookup ps' "issuer" = obj_lookup ps "issuer") as ->; [| done].
  transitivity (obj_lookup (obj_delete ps' "proof") "issuer").
  - by rewrite obj_lookup_obj_delete.
  - by rewrite <- Hrest, obj_lookup_obj_delete.
Qed.

(** X22. How the Ethereum branch reads the declared issuer. An issuer
    that is not a string, or a string that does not start with [did:ethr:],
    gives [false] whatever the signature. From a [did:ethr:] issuer the
    third colon-separated segment is taken: for the network-qualified form
    [did:ethr:<network>:<address>] that is the network name, so the
    recovered signer is compared with the network name and not with the
    address. *)
Theorem issuer_forms c proof :
  get c "proof" = Return proof →
  get proof "type" = Return (JSString "EcdsaSecp256k1Signature2019") →
  (∀ issuer, get c "issuer" = Return issuer →
     (∀ did, issuer = JSString did → startsWith did "did:ethr:" = false) →
     verifyCredential rt env c = Return false)
  ∧ (∀ network address recovered,
       get c "issuer"
       = Return (JSString ("did:ethr:" +:+ network +:+ ":" +:+ address)) →
       split network = [network] →
       verifyMessage rt (arrayify rt (messageHash rt (without_proof c)))
         (default JSUndefined (obj_lookup (own_properties proof) "jws"))
       = Return recovered →
       verifyCredential rt env c
       = Return (String.eqb (toLowerCase recovered) (toLowerCase network))).
Proof.
  intros Hproof Htype.
  destruct (verifyCredential_ecdsa rt env c proof Hproof Htype)
    as (-> & ps & -> & Hps).
  split.
  - intros issuer Hissuer Hnot. unfold _verifyEthereumSignature.
    cbn [own_properties]. rewrite Hps. cbn [default].
    destruct (verifyMessage rt _ _) as [recovered | e]; [| done].
    cbn [bind]. rewrite Hissuer. cbn [bind].
    destruct issuer as [| | b | n | did | vs | qs]; try done.
    by rewrite (Hnot did eq_refl).
  - intros network address recovered Hissuer Hnet Hrec.
    eapply _verifyEthereumSignature_recovered; eauto.
    + by destruct (network +:+ ":" +:+ address).
    + by rewrite split_did_ethr, split_network.
Qed.

End Checks.

(** X20 on the stand-in token library: a credential whose token proof
    names its issuer verifies, and so does the same credential with its
    claims replaced. *)
Lemma jwt_branch_checks_issuer_only_witness :
  verifyCredential token_runtime token_env
    (demo_token_credential (JSObject [("consentId", JSString "1")])) = Return true
  ∧ verifyCredential token_runtime token_env
      (demo_token_credential (JSObject [("consentId", JSString "2")])) = Return true.
Proof.
  destruct (jwt_branch_checks_issuer_only token_runtime token_env
              (demo_token_credential (JSObject [("consentId", JSString "1")]))
              (JSObject [("type", JSString "JwtProof2020"); ("jwt", JSString "good")]))
    as (_ & Hsame & _ & Hother); [reflexivity | reflexivity |].
  assert (verifyCredential token_runtime token_env
            (demo_token_credential (JSObject [("consentId", JSString "1")]))
          = Return true) as H1.
  { rewrite (Hsame (JSObject [("iss", JSString "did:ethr:issuer");
                              ("vc", JSObject [("type", JSString "BiometricConsent")])])
               (JSString "did:ethr:issuer") (JSString "did:ethr:issuer"));
      reflexivity. }
  split; [exact H1 |].
  rewrite (Hother (demo_token_credential (JSObject [("consentId", JSString "2")])));
    [exact H1 | reflexivity | reflexivity].
Defined.

(** X21 on the stand-in runtime: the issued credential with another
    [verificationMethod] in its proof verifies like the issued one. *)
Lemma ecdsa_branch_ignores_proof_metadata_witness :
  verifyCredential demo_runtime demo_env demo_other_method = Return true.
Proof.
  assert (∃ ps', demo_other_method = JSObject ps') as [ps' Hps'].
  { eexists. vm_compute. reflexivity. }
  assert (∃ ps, demo_credential = JSObject ps) as [ps Hps].
  { eexists. vm_compute. reflexivity. }
  rewrite Hps'.
  rewrite (ecdsa_branch_ignores_proof_metadata demo_runtime demo_env ps ps'
             (default JSUndefined (obj_lookup ps "proof"))
             (default JSUndefined (obj_lookup ps' "proof"))).
  - rewrite <- Hps. vm_compute. reflexivity.
  - injection Hps as <-. vm_compute. reflexivity.
  - injection Hps' as <-. vm_compute. reflexivity.
  - injection Hps as <-. vm_compute. reflexivity.
  - injection Hps' as <-. vm_compute. reflexivity.
  - injection Hps as <-. injection Hps' as <-. vm_compute. reflexivity.
  - injection Hps as <-. injection Hps' as <-. vm_compute. reflexivity.
Defined.

(** X22 on the stand-in runtime: credentials issued under a
    network-qualified identity, or under an identity of another method, do
    not verify. *)
Lemma issuer_forms_witness :
  verifyCredential demo_runtime demo_env (demo_issue demo_env_network) = Return false
  ∧ verifyCredential demo_runtime demo_env (demo_issue demo_env_web) = Return false.
Proof.
  split.
  - destruct (issuer_forms demo_runtime demo_env (demo_issue demo_env_network)
                (default JSUndefined
                   (obj_lookup (own_properties (demo_issue demo_env_network)) "proof")))
      as [_ H]; [vm_compute; reflexivity | vm_compute; reflexivity |].
    rewrite (H "mainnet" "0xAbCdEf0123456789aBcDeF0123456789AbCdEf01" demo_address);
      vm_compute; reflexivity.
  - destruct (issuer_forms demo_runtime demo_env (demo_issue demo_env_web)
                (default JSUndefined
                   (obj_lookup (own_properties (demo_issue demo_env_web)) "proof")))
      as [H _]; [vm_compute; reflexivity | vm_compute; reflexivity |].
    apply (H (JSString "did:web:bioproof.io")); [vm_compute; reflexivity |].
    intros did [= <-]. vm_compute. reflexivity.
Defined.

(* --------------------------------------------------------------------- *)
(** ** Tampering outside the claims, and tokens                           *)
(* --------------------------------------------------------------------- *)

Section Tampering.
Context (rt : Runtime).

(** The assumptions on signature scheme and hash made for C1. *)
Hypothesis sign_then_recover : ∀ w m,
  verifyMessage rt m (JSString (signMessage rt w m)) = Return (address rt w).
Hypothesis hash_collision_free : ∀ s s',
  arrayify rt (keccak256 rt (toUtf8Bytes rt s))
  = arrayify rt (keccak256 rt (toUtf8Bytes rt s')) → s = s'.
Hypothesis signature_binds_message : ∀ m m' sig a a',
  verifyMessage rt m sig = Return a →
  verifyMessage rt m' sig = Return a' →
  toLowerCase a = toLowerCase a' → m = m'.

(** X23. The signature of an issued credential covers every property but
    the proof. Under the assumptions of C1, and for a handler whose
    identity names its wallet, [verifyCredential] returns [false] on every
    credential obtained from an issued one by setting a property other than
    [proof] and [issuer] (an existing one such as [issuanceDate],
    [expirationDate] or [id], or a new one) or by deleting one, whenever
    that changes the serialization that is hashed. *)
Theorem tampering_outside_claims_is_detected
    this w did f participantAddress a consentId studyId claims :
  wallet rt this = Some w →
  issuerDid rt this = Some did →
  names_wallet rt did w →
  getAddress rt participantAddress = Return a →
  ∃ credential,
    createConsentCredential rt this f participantAddress consentId studyId
      (JSObject claims) = Return credential
    ∧ ∀ env k tampered,
        k ≠ "proof" → k ≠ "issuer" →
        (∃ v, tampered = JSObject (obj_set (own_properties credential) k v))
        ∨ tampered = JSObject (obj_delete (own_properties credential) k) →
        JSON_stringify rt (without_proof tampered)
        ≠ JSON_stringify rt (without_proof credential) →
        verifyCredential rt env tampered = Return false.
Proof.
  intros Hw Hdid (Hpre & issuerAddress & Hseg & Haddr) Ha.
  destruct (createConsentCredential_returns rt this w f participantAddress a
              consentId studyId claims Hw Ha)
    as (v1 & v2 & v3 & v6 & v7 & p4 & Hc).
  cbv zeta in Hc. unfold issuer_value in Hc. rewrite Hdid in Hc.
  eexists. split; [exact Hc |].
  intros env k tampered Hk1 Hk2 Hform Hdiff.
  match type of Hc with _ = Return (JSObject (?b ++ [("proof", ?p)])) =>
    set (base := b) in *; set (proof := p) in *
  end.
  set (ps := base ++ [("proof", proof)]) in *.
  cbn [own_properties] in Hform.
  apply String.eqb_neq in Hk1, Hk2.
  assert (∃ ps', tampered = JSObject ps'
                 ∧ obj_lookup ps' "proof" = Some proof
                 ∧ obj_lookup ps' "issuer" = Some (JSString did)) as (ps' & -> & Hp & Hi).
  { destruct Hform as [[v ->] | ->]; eexists; (split; [reflexivity |]).
    - rewrite !obj_lookup_obj_set, Hk1, Hk2. by split.
    - rewrite !obj_lookup_obj_delete, Hk1, Hk2. by split. }
  destruct (verifyCredential_ecdsa rt env (JSObject ps') proof) as [-> _];
    [by simpl; rewrite Hp | reflexivity |].
  destruct (verifyMessage rt
              (arrayify rt (messageHash rt (without_proof (JSObject ps'))))
              (default JSUndefined (obj_lookup (own_properties proof) "jws")))
    as [recovered | e] eqn:Hrec.
  - rewrite (_verifyEthereumSignature_recovered rt (JSObject ps') ps' proof recovered
               did issuerAddress eq_refl Hp Hrec); [| by simpl; rewrite Hi | done | done].
    destruct (String.eqb (toLowerCase recovered) (toLowerCase issuerAddress)) eqn:Heq;
      [| reflexivity].
    exfalso. apply Hdiff. apply String.eqb_eq in Heq.
    apply hash_collision_free.
    refine (signature_binds_message _ _ _ _ _ Hrec (sign_then_recover w _) _).
    by rewrite Heq, Haddr.
  - by rewrite (_verifyEthereumSignature_malformed rt (JSObject ps') ps' proof e
                  eq_refl Hp Hrec).
Qed.

End Tampering.

(** X23 on the stand-in runtime: the issued credential with a later
    [issuanceDate], and the one with its [id] deleted, do not verify. *)
Lemma tampering_outside_claims_is_detected_witness :
  verifyCredential demo_runtime demo_env
    (demo_with "issuanceDate" (JSString "2025-01-01T00:00:00.000Z")) = Return false
  ∧ verifyCredential demo_runtime demo_env
      (JSObject (obj_delete (own_properties demo_credential) "id")) = Return false.
Proof.
  destruct (tampering_outside_claims_is_detected demo_runtime
              demo_sign_then_recover demo_hash_collision_free
              demo_signature_binds_message
              demo_handler tt ("did:ethr:" +:+ demo_address) demo_fresh
              demo_participant demo_participant 1%Z 0%Z
              [("purpose", JSString "gait")])
    as (credential & Hc & Hdetects).
  - reflexivity.
  - reflexivity.
  - split; [vm_compute; reflexivity |].
    exists demo_address. split; vm_compute; reflexivity.
  - vm_compute; reflexivity.
  - assert (credential = demo_credential) as ->.
    { unfold demo_credential. by rewrite Hc. }
    split.
    + apply (Hdetects demo_env "issuanceDate"); [discriminate | discriminate | |].
      * left. eexists. reflexivity.
      * vm_compute. discriminate.
    + apply (Hdetects demo_env "id"); [discriminate | discriminate | |].
      * right. reflexivity.
      * vm_compute. discriminate.
Defined.

Section TokenVerification.
Context (rt : Runtime) (env : ProcessEnv).

(** X24. [verifyJwtCredential] never throws. It returns [null] when
    [jwt.verify] rejects the token under [JWT_SECRET] and when the payload
    has no truthy [vc]; otherwise it returns the payload. So a result other
    than [null] is a payload that [jwt.verify] accepted under the secret
    and that carries a [vc]. *)
Theorem verifyJwtCredential_outcome token :
  let secret := env_value (JWT_SECRET env) in
  (∃ v, verifyJwtCredential rt env token = Return v)
  ∧ (∀ e, jwt_verify rt token secret = Throw e →
          verifyJwtCredential rt env token = Return JSNull)
  ∧ (∀ decoded vc, jwt_verify rt token secret = Return decoded →
       get decoded "vc" = Return vc →
       verifyJwtCredential rt env token
       = Return (if truthy vc then decoded else JSNull))
  ∧ (∀ v, verifyJwtCredential rt env token = Return v → v ≠ JSNull →
       jwt_verify rt token secret = Return v
       ∧ ∃ vc, get v "vc" = Return vc ∧ truthy vc = true).
Proof.
  cbv zeta. unfold verifyJwtCredential.
  destruct (jwt_verify rt token (env_value (JWT_SECRET env))) as [decoded | e];
    cbn [bind].
  - destruct (get decoded "vc") as [vc | e] eqn:Hvc; cbn [bind].
    + destruct (truthy vc) eqn:Ht; cbn [negb].
      * split; [eauto |]. split; [done |]. split.
        -- intros d vc' [= <-] Hvc'. rewrite Hvc in Hvc'.
           injection Hvc' as <-. by rewrite Ht.
        -- intros v [= <-] _. eauto.
      * split; [eauto |]. split; [done |]. split.
        -- intros d vc' [= <-] Hvc'. rewrite Hvc in Hvc'.
           injection Hvc' as <-. by rewrite Ht.
        -- intros v [= <-] Hne. done.
    + split; [eauto |]. split; [done |]. split.
      * intros d vc' [= <-] Hvc'. congruence.
      * intros v [= <-] Hne. done.
  - split; [eauto |]. split; [done |]. split; [done |].
    intros v [= <-] Hne. done.
Qed.

End TokenVerification.

(** X24 on the stand-in token library: the token whose payload holds a
    credential is decoded, the token with an empty payload gives [null],
    and so does every token under another secret. *)
Lemma verifyJwtCredential_outcome_witness :
  (∃ payload, verifyJwtCredential token_runtime token_env (JSString "good")
              = Return (JSObject payload))
  ∧ verifyJwtCredential token_runtime token_env (JSString "bare") = Return JSNull
  ∧ verifyJwtCredential token_runtime demo_env (JSString "good") = Return JSNull.
Proof.
  split; [| split].
  - destruct (verifyJwtCredential_outcome token_runtime token_env (JSString "good"))
      as (_ & _ & H & _).
    eexists.
    rewrite (H (JSObject [("iss", JSString "did:ethr:issuer");
                          ("vc", JSObject [("type", JSString "BiometricConsent")])])
               (JSObject [("type", JSString "BiometricConsent")]));
      reflexivity.
  - destruct (verifyJwtCredential_outcome token_runtime token_env (JSString "bare"))
      as (_ & _ & H & _).
    rewrite (H (JSObject []) JSUndefined); reflexivity.
  - destruct (verifyJwtCredential_outcome token_runtime demo_env (JSString "good"))
      as (_ & H & _).
    apply (H (Error "invalid signature")). reflexivity.
Defined.

(* --------------------------------------------------------------------- *)
(** ** Issuer identities that the round trip does not cover              *)
(* --------------------------------------------------------------------- *)

(** The claim of C1 as worded fails: the round trip depends on the issuer
    identity the handler is configured with. With the issuer key and
    [ISSUER_DID=did:web:bioproof.io] the handler issues a credential, and
    [verifyCredential] returns [false] on it, because the Ethereum branch
    answers [false] for every identity of another method than [did:ethr].
    The signatures of the stand-in runtime are correct ones. *)
Lemma round_trip_needs_ethr_identity :
  (∀ w m, verifyMessage demo_runtime m (JSString (signMessage demo_runtime w m))
          = Return (address demo_runtime w))
  ∧ wallet demo_runtime (init demo_runtime demo_env_web) = Some tt
  ∧ issuerDid demo_runtime (init demo_runtime demo_env_web)
    = Some "did:web:bioproof.io"
  ∧ ∃ credential,
      createConsentCredential demo_runtime (init demo_runtime demo_env_web)
        demo_fresh demo_participant 1 0 (JSObject []) = Return credential
      ∧ verifyCredential demo_runtime demo_env_web credential = Return false.
Proof.
  split; [exact demo_sign_then_recover |].
  split; [reflexivity |]. split; [reflexivity |].
  eexists. split; vm_compute; reflexivity.
Qed.

Section NetworkSegment.
Context (rt : Runtime).

Hypothesis sign_then_recover : ∀ w m,
  verifyMessage rt m (JSString (signMessage rt w m)) = Return (address rt w).

(** An identity with the wallet's address in the place of the network is
    read as the wallet's, whatever stands in the place of the address. *)
Lemma network_segment_names_wallet w other :
  split (address rt w) = [address rt w] →
  names_wallet rt ("did:ethr:" +:+ address rt w +:+ ":" +:+ other) w.
Proof.
  intros Hcolon. split; [by destruct (address rt w) |].
  exists (address rt w). split; [| reflexivity].
  by rewrite split_did_ethr, (split_network _ _ Hcolon).
Qed.

(** A credential signed by a wallet verifies under every declared issuer
    [did:ethr:<network>:<address>] whose network segment is the wallet's
    address, whatever the address segment. *)
Lemma signer_in_network_place_verifies this w other f participantAddress a
    consentId studyId claims :
  wallet rt this = Some w →
  issuerDid rt this = Some ("did:ethr:" +:+ address rt w +:+ ":" +:+ other) →
  split (address rt w) = [address rt w] →
  getAddress rt participantAddress = Return a →
  ∃ credential,
    createConsentCredential rt this f participantAddress consentId studyId
      (JSObject claims) = Return credential
    ∧ get credential "issuer"
      = Return (JSString ("did:ethr:" +:+ address rt w +:+ ":" +:+ other))
    ∧ ∀ env, verifyCredential rt env credential = Return true.
Proof.
  intros Hw Hdid Hcolon Ha.
  eapply issued_credential_verifies; eauto.
  by apply network_segment_names_wallet.
Qed.

End NetworkSegment.

(** C8, evaluated on a credential of the stand-in runtime. The declared
    issuer is [did:ethr:<network>:<address>] with the signer's address in the
    place of the network and another address in the place of the address.
    The signer recovered from the signature is not the address the issuer
    identity declares, and [verifyCredential] returns [true]: the
    comparison is made with the third colon-separated segment, the
    network. *)
Theorem verifyCredential_accepts_other_issuer_address :
  let credential := demo_issue demo_env_misplaced in
  let proof := default JSUndefined (obj_lookup (own_properties credential) "proof") in
  get credential "issuer"
  = Return (JSString ("did:ethr:" +:+ demo_address +:+ ":" +:+ demo_other_address))
  ∧ split ("did:ethr:" +:+ demo_address +:+ ":" +:+ demo_other_address)
    = ["did"; "ethr"; demo_address; demo_other_address]
  ∧ verifyMessage demo_runtime
      (arrayify demo_runtime (messageHash demo_runtime (without_proof credential)))
      (default JSUndefined (obj_lookup (own_properties proof) "jws"))
    = Return demo_address
  ∧ toLowerCase demo_address ≠ toLowerCase demo_other_address
  ∧ verifyCredential demo_runtime demo_env credential = Return true.
Proof.
  cbv zeta.
  destruct (signer_in_network_place_verifies demo_runtime demo_sign_then_recover
              (init demo_runtime demo_env_misplaced) tt demo_other_address
              demo_fresh demo_participant demo_participant 1%Z 0%Z [])
    as (credential & Hc & Hissuer & Hverifies);
    [reflexivity | reflexivity | vm_compute; reflexivity | vm_compute; reflexivity |].
  assert (credential = demo_issue demo_env_misplaced) as ->.
  { unfold demo_issue. by rewrite Hc. }
  split; [exact Hissuer |].
  split; [vm_compute; reflexivity |].
  split; [vm_compute; reflexivity |].
  split; [vm_compute; discriminate |].
  apply Hverifies.
Qed.

End Credentials.
